(** * PipelineManager: a shallow embedding of [main.py]

    The development follows the Python source function by function.  The
    manager object becomes an explicit [World] (ledger in memory, state
    file, artifact files, a logical clock and the list of executor
    invocations); every method is a computation in a small state and
    exception monad over that world.  The external collaborators (hashing,
    HTTP download, the extraction service, the chat model, JSON decoding
    and the outcome of file writes) are gathered in the class [External]. *)

From Stdlib Require Import ZArith Ascii String DecimalString.
From stdpp Require Import base option list gmap strings fin_maps.

Open Scope string_scope.

Set Warnings "-clear-no-such-hyp".

(* ===================================================================== *)
(** ** Python string helpers *)
(* ===================================================================== *)

(** A text is a [string] read as a sequence of code points below 256, one
    [ascii] for each code point (not the bytes of an encoding): its length
    is [len], a prefix is a slice.  Texts with other code points are
    outside the model. *)

Module PyStr.

(** [str.lower] on one code point: the letters A-Z, and the letters from
    U+00C0 to U+00DE but for the sign U+00D7. *)
Definition lower_ascii (c : ascii) : ascii :=
  let n := nat_of_ascii c in
  if ((65 <=? n)%nat && (n <=? 90)%nat) ||
     ((192 <=? n)%nat && (n <=? 222)%nat && negb (n =? 215)%nat)
  then ascii_of_nat (n + 32) else c.

Fixpoint lower (s : string) : string :=
  match s with
  | EmptyString => EmptyString
  | String c r => String (lower_ascii c) (lower r)
  end.

(** [s.endswith(suf)] *)
Definition endswith (s suf : string) : bool :=
  let n := String.length s in
  let m := String.length suf in
  if (m <=? n)%nat then String.eqb (substring (n - m) m s) suf else false.

(** [sub in s] *)
Fixpoint contains (sub s : string) : bool :=
  String.prefix sub s ||
  match s with
  | EmptyString => false
  | String _ r => contains sub r
  end.

(** [s.rsplit('.', 1)[0]] *)
Fixpoint before_last_dot (s : string) : option string :=
  match s with
  | EmptyString => None
  | String c r =>
      match before_last_dot r with
      | Some h => Some (String c h)
      | None => if Ascii.eqb c "."%char then Some EmptyString else None
      end
  end.

Definition rsplit_dot_head (s : string) : string :=
  default s (before_last_dot s).

(** [s.split('/')[-1]] *)
Fixpoint last_segment (s : string) : string :=
  match s with
  | EmptyString => EmptyString
  | String c r =>
      if contains "/" r then last_segment r
      else if Ascii.eqb c "/"%char then r else s
  end.

(** Whitespace as [str.strip] sees it: U+0009 to U+000D, U+001C to
    U+0020, U+0085 and U+00A0. *)
Definition is_space (c : ascii) : bool :=
  let n := nat_of_ascii c in
  ((9 <=? n)%nat && (n <=? 13)%nat) || (n =? 32)%nat ||
  ((28 <=? n)%nat && (n <=? 31)%nat) || (n =? 133)%nat || (n =? 160)%nat.

Fixpoint all_space (s : string) : bool :=
  match s with
  | EmptyString => true
  | String c r => is_space c && all_space r
  end.

(** [not s or not s.strip()] *)
Definition blank (s : string) : bool := all_space s.

(** [s[:n]]: the first [n] code points. *)
Definition take (n : nat) (s : string) : string := substring 0 n s.

Definition newline : string := String (ascii_of_nat 10) EmptyString.

(** [sep.join(l)] *)
Fixpoint join (sep : string) (l : list string) : string :=
  match l with
  | [] => EmptyString
  | [x] => x
  | x :: r => x +:+ sep +:+ join sep r
  end.

(** [str(n)] for a natural number *)
Definition of_nat (n : nat) : string := NilZero.string_of_uint (Nat.to_uint n).

(** [str(z)] for an integer *)
Definition of_Z (z : Z) : string := NilZero.string_of_int (Z.to_int z).

(** Truth value of a string in a condition. *)
Definition truthy (s : string) : bool := negb (String.eqb s EmptyString).

(** [Path(a) / b] for a relative [b] in normal form (no leading, doubled
    or trailing slash), as folders and file names are taken to be:
    pathlib then joins with one slash. *)
Definition path_join (a b : string) : string := a +:+ "/" +:+ b.

End PyStr.

(* ===================================================================== *)
(** ** Data model *)
(* ===================================================================== *)

(** [class ProcessingStatus(str, Enum)] *)
Inductive ProcessingStatus : Set :=
  | PENDING
  | DOWNLOADED
  | AGENTIC_PROCESSED
  | TRANSFORMED
  | COMPLETED
  | FAILED.

#[global] Instance ProcessingStatus_eq_dec : EqDecision ProcessingStatus.
Proof. solve_decision. Defined.

(** Timestamps are readings of the logical clock. *)
Definition Timestamp := nat.

(** One entry of [doc["steps"]]. *)
Record StepEntry : Set := mkStepEntry {
  st_status : ProcessingStatus;
  st_timestamp : option Timestamp
}.

(** The three fixed keys of [doc["steps"]], in insertion order. *)
Inductive StepName : Set := Download | AgenticProcess | Transform.

#[global] Instance StepName_eq_dec : EqDecision StepName.
Proof. solve_decision. Defined.

Definition step_key (n : StepName) : string :=
  match n with
  | Download => "download"
  | AgenticProcess => "agentic_process"
  | Transform => "transform"
  end.

Definition step_of_key (k : string) : option StepName :=
  if String.eqb k "download" then Some Download
  else if String.eqb k "agentic_process" then Some AgenticProcess
  else if String.eqb k "transform" then Some Transform
  else None.

Record Steps : Set := mkSteps {
  download : StepEntry;
  agentic_process : StepEntry;
  transform : StepEntry
}.

Definition get_step (n : StepName) (s : Steps) : StepEntry :=
  match n with
  | Download => download s
  | AgenticProcess => agentic_process s
  | Transform => transform s
  end.

Definition set_step (n : StepName) (e : StepEntry) (s : Steps) : Steps :=
  match n with
  | Download => mkSteps e (agentic_process s) (transform s)
  | AgenticProcess => mkSteps (download s) e (transform s)
  | Transform => mkSteps (download s) (agentic_process s) e
  end.

(** [[s["status"] for s in doc["steps"].values()]] *)
Definition all_steps (s : Steps) : list ProcessingStatus :=
  [st_status (download s); st_status (agentic_process s); st_status (transform s)].

(** [doc["metadata"]]: empty for [add_document], seven keys for
    [add_document_from_json]. *)
Record Metadata : Set := mkMetadata {
  md_document_type : option string;
  md_access : option string;
  md_language : option (list string);
  md_country : option string;
  md_publisher : option string;
  md_section : option string;
  md_output_folder : option string
}.

Definition empty_metadata : Metadata :=
  mkMetadata None None None None None None None.

(** One entry of [doc["errors"]]. *)
Record ErrorEntry : Set := mkErrorEntry {
  err_step : string;
  err_error : string;
  err_timestamp : Timestamp
}.

(** One value of [state["documents"]]. *)
Record Document : Type := mkDocument {
  url : string;
  original_filename : string;
  metadata : Metadata;
  status : ProcessingStatus;
  created_at : Timestamp;
  steps : Steps;
  files : gmap string string;
  errors : list ErrorEntry
}.

(** [self.state] *)
Record State : Type := mkState {
  state_created_at : Timestamp;
  documents : gmap string Document;
  pipeline_version : string;
  updated_at : option Timestamp
}.

(** A descriptor of the batch input, read with [doc_info.get]. *)
Record DocInfo : Set := mkDocInfo {
  di_source : option string;
  di_name : option string;
  di_document_type : option string;
  di_access : option string;
  di_language : option (list string);
  di_country : option string;
  di_publisher : option string;
  di_section : option string;
  di_output_folder : option string
}.

(** JSON values as [json.loads] returns them (numbers are integers here). *)
#[warnings="-register-all"]
Inductive Json : Type :=
  | JNull
  | JBool (b : bool)
  | JNum (z : Z)
  | JStr (s : string)
  | JArr (l : list Json)
  | JObj (kv : list (string * Json)).

(** Truth value of a decoded JSON value in a condition. *)
Definition json_truthy (j : Json) : bool :=
  match j with
  | JNull => false
  | JBool b => b
  | JNum z => negb (z =? 0)%Z
  | JStr s => PyStr.truthy s
  | JArr l => match l with [] => false | _ => true end
  | JObj kv => match kv with [] => false | _ => true end
  end.

(** *** What the extraction service returns *)

(** A grounding of the service: [page] is 0-indexed; [box] is carried as
    its dump.  [None] stands for an absent attribute. *)
Record Grounding : Set := mkGrounding {
  g_page : option Z;
  g_box : option string
}.

Record Chunk : Set := mkChunk {
  chunk_type : string;          (* str(chunk.chunk_type) *)
  chunk_text : option string;   (* chunk.text, when the attribute exists *)
  chunk_repr : string;          (* str(chunk) *)
  chunk_grounding : list Grounding
}.

Record ParsedDocument : Set := mkParsedDocument {
  pd_markdown : option string;
  pd_chunks : list Chunk
}.

(** *** The extract-stage artifact *)

Record GroundingData : Set := mkGroundingData {
  gd_page : option Z;
  gd_bbox : option string
}.

(** An element of ["chunks"]; [cd_grounding] is [None] when the key
    ["grounding"] is not written. *)
Record ChunkData : Set := mkChunkData {
  cd_id : string;
  cd_content : string;
  cd_type : string;
  cd_grounding : option (list GroundingData)
}.

(** An element of ["figures"]. *)
Record FigureData : Set := mkFigureData {
  fd_id : string;
  fd_text : string;
  fd_type : string;
  fd_grounding : option (list GroundingData)
}.

Record AgenticMetadata : Set := mkAgenticMetadata {
  am_document_id : string;
  am_source_url : string;
  am_pdf_path : string;
  am_processed_date : Timestamp;
  am_total_chunks : nat;
  am_total_figures : nat;
  am_total_characters : nat
}.

Record AgenticDocument : Set := mkAgenticDocument {
  ad_id : string;
  ad_filename : string;
  ad_markdown : string;
  ad_chunks : list ChunkData;
  ad_figures : list FigureData
}.

Record AgenticOutput : Set := mkAgenticOutput {
  ao_metadata : AgenticMetadata;
  ao_document : AgenticDocument
}.

(** *** The structure-stage artifact *)

Record PageObj : Type := mkPageObj {
  page_number : Z;
  text : string;
  structured_page_content : Json;
  structured_image_content : list Json;
  text_embedding : list Json
}.

Record ProcessedMetadata : Set := mkProcessedMetadata {
  pm_document_name : string;
  pm_total_pages : Z;
  pm_document_type : string;
  pm_source : string;
  pm_processing_stack : list string;
  pm_processed_date : Timestamp;
  pm_country : string;
  pm_publisher : string;
  pm_section : string;
  pm_access : string;
  pm_language : list string;
  pm_total_chunks : nat;
  pm_total_figures : nat
}.

Record PdfProcessed : Type := mkPdfProcessed {
  pp_metadata : ProcessedMetadata;
  pp_content : list PageObj
}.

(** *** Files *)

(** What a path of the working directory holds.  [Truncated] is a file
    that [open(path, 'w')] created and whose writer raised before the
    content was complete. *)
Inductive FileData : Type :=
  | PdfBytes (content : string)
  | AgenticFile (a : AgenticOutput)
  | ProcessedFile (p : PdfProcessed)
  | Truncated.

(** Outcome of [with open(path, 'w') as f: <write>]: the write completes,
    [open] raises and nothing is created, or the writer raises after
    [open] has created the file. *)
Inductive WriteOutcome : Set :=
  | WriteDone
  | OpenRaises (msg : string)
  | WriterRaises (msg : string).

(** *** The world of a manager *)

(** A call of a stage executor, recorded when the executor is entered. *)
Inductive Event : Set :=
  | Invoked (stage : StepName) (doc_id : string).

Record World : Type := mkWorld {
  state : State;                     (* self.state *)
  state_file : option State;         (* contents of pipeline_state.json *)
  fs : gmap string FileData;         (* artifact files, by path *)
  tick : nat;                        (* logical clock *)
  trace : list Event
}.

(** Replies of the collaborators.  Each carries the message of the
    exception when the call raises. *)
Inductive HttpReply : Set :=
  | HttpContent (content : string)
  | HttpRaises (msg : string).

Inductive ParseReply : Set :=
  | Parsed (result : list ParsedDocument)
  | ParseRaises (msg : string).

Inductive ChatReply : Set :=
  | ChatContent (content : string)
  | ChatRaises (msg : string).

(** The external collaborators and the configuration of one manager.  The
    services may answer differently from call to call: they see the clock. *)
Class External : Type := mkExternal {
  work_dir : string;
  md5_hexdigest : string -> string;
  urlparse_path : string -> string;
  requests_get : nat -> string -> HttpReply;
  parse : nat -> string -> ParseReply;
  chat_complete : nat -> string -> nat -> ChatReply;
  json_loads : string -> option Json;
  json_decode_error : string -> string;
  write_outcome : nat -> string -> WriteOutcome
}.

(* ===================================================================== *)
(** ** The monad of manager methods *)
(* ===================================================================== *)

Inductive Exn : Set :=
  | ValueError (msg : string)
  | KeyError (key : string)
  | Exception (msg : string).

(** [str(e)] *)
Definition exn_str (e : Exn) : string :=
  match e with
  | ValueError m => m
  | KeyError k => "'" +:+ k +:+ "'"
  | Exception m => m
  end.

Inductive Result (A : Type) : Type :=
  | Ok (a : A) (w : World)
  | Raise (e : Exn) (w : World).

Arguments Ok {A} a w.
Arguments Raise {A} e w.

Definition M (A : Type) : Type := World -> Result A.

Definition ret {A} (a : A) : M A := fun w => Ok a w.

Definition bind {A B} (m : M A) (f : A -> M B) : M B :=
  fun w =>
    match m w with
    | Ok a w' => f a w'
    | Raise e w' => Raise e w'
    end.

Definition raise {A} (e : Exn) : M A := fun w => Raise e w.

(** [try: body  except Exception as e: handler(e)] *)
Definition try_except {A} (body : M A) (handler : Exn -> M A) : M A :=
  fun w =>
    match body w with
    | Ok a w' => Ok a w'
    | Raise e w' => handler e w'
    end.

Definition get : M World := fun w => Ok w w.
Definition put (w' : World) : M unit := fun _ => Ok tt w'.

(** The world a computation ends in, whether it returns or raises. *)
Definition final {A} (r : Result A) : World :=
  match r with
  | Ok _ w => w
  | Raise _ w => w
  end.

Declare Scope pipe_scope.
Delimit Scope pipe_scope with pipe.
Notation "x <- m ;; k" := (bind m (fun x => k))
  (at level 100, m at next level, right associativity) : pipe_scope.
Notation "m ;;; k" := (bind m (fun _ => k))
  (at level 100, right associativity) : pipe_scope.
Open Scope pipe_scope.

(** [datetime.now()]: reads the clock, which then advances. *)
Definition now : M Timestamp :=
  fun w => Ok (tick w) (mkWorld (state w) (state_file w) (fs w) (S (tick w)) (trace w)).

(** Reads the clock for a call of a collaborator, which then advances. *)
Definition external_call : M nat := now.

Definition set_state (s : State) : M unit :=
  fun w => Ok tt (mkWorld s (state_file w) (fs w) (tick w) (trace w)).

Definition set_fs (f : gmap string FileData) : M unit :=
  fun w => Ok tt (mkWorld (state w) (state_file w) f (tick w) (trace w)).

Definition record_event (e : Event) : M unit :=
  fun w => Ok tt (mkWorld (state w) (state_file w) (fs w) (tick w) (trace w ++ [e])%list).

(** [path.exists()] *)
Definition path_exists (p : string) : M bool :=
  fun w => Ok (bool_decide (is_Some (fs w !! p))) w.

(** [open(path).read()] of an artifact; a missing path raises. *)
Definition read_file (p : string) : M FileData :=
  fun w =>
    match fs w !! p with
    | Some d => Ok d w
    | None => Raise (Exception ("No such file or directory: " +:+ p)) w
    end.

(** [for x in l] with an accumulator that the body rebinds. *)
Fixpoint fold_m {A B} (body : B -> A -> M B) (l : list A) (acc : B) : M B :=
  match l with
  | [] => ret acc
  | x :: r => acc' <- body acc x ;; fold_m body r acc'
  end.

(** [[f(x) for x in l]] *)
Fixpoint map_m {A B} (f : A -> M B) (l : list A) : M (list B) :=
  match l with
  | [] => ret []
  | x :: r => y <- f x ;; ys <- map_m f r ;; ret (y :: ys)
  end.

(* ===================================================================== *)
(** ** State store and registry *)
(* ===================================================================== *)

Section Manager.

Context `{Ext : External}.

(** Writing an artifact: [with open(path, 'w') as f: <write data>]. *)
Definition write_file (p : string) (d : FileData) : M unit :=
  n <- external_call ;;
  w <- get ;;
  match write_outcome n p with
  | WriteDone => set_fs (<[p := d]> (fs w))
  | OpenRaises msg => raise (Exception msg)
  | WriterRaises msg => set_fs (<[p := Truncated]> (fs w)) ;;; raise (Exception msg)
  end.

(** [_save_state]: stamps [updated_at] and dumps the whole state into the
    state file.  The state file is taken to be writable. *)
Definition _save_state : M unit :=
  t <- now ;;
  w <- get ;;
  let s := mkState (state_created_at (state w)) (documents (state w))
                   (pipeline_version (state w)) (Some t) in
  put (mkWorld s (Some s) (fs w) (tick w) (trace w)).

(** [_get_document_id] *)
Definition _get_document_id (u : string) : string :=
  PyStr.take 12 (md5_hexdigest u).

(** [_get_filename_from_url]; [time.time()] reads the clock.  A locator is
    taken to be one that [urlparse] accepts: [urlparse_path] is its path.
    On another string (an unbalanced bracket in the host, say) [urlparse]
    raises [ValueError]; such a call is outside the model, and a theorem
    that is to hold of it too takes the return of the call as a
    hypothesis. *)
Definition _get_filename_from_url (u : string) : M string :=
  let filename := PyStr.last_segment (urlparse_path u) in
  if negb (PyStr.truthy filename) then
    w <- get ;;
    ret ("document_" +:+ PyStr.of_nat (tick w) +:+ ".pdf")
  else if negb (PyStr.endswith (PyStr.lower filename) ".pdf") then
    ret (filename +:+ ".pdf")
  else ret filename.

Definition pending_steps : Steps :=
  mkSteps (mkStepEntry PENDING None) (mkStepEntry PENDING None) (mkStepEntry PENDING None).

Definition set_documents (d : gmap string Document) : M unit :=
  w <- get ;;
  set_state (mkState (state_created_at (state w)) d
                     (pipeline_version (state w)) (updated_at (state w))).

(** [add_document] *)
Definition add_document (u : string) (doc_id : option string)
    (filename : option string) : M string :=
  let doc_id := default (_get_document_id u) doc_id in
  filename <- match filename with
              | Some f => ret f
              | None => _get_filename_from_url u
              end ;;
  w <- get ;;
  match documents (state w) !! doc_id with
  | None =>
      t <- now ;;
      set_documents (<[doc_id :=
        mkDocument u filename empty_metadata PENDING t pending_steps ∅ []]>
        (documents (state w))) ;;;
      _save_state ;;;
      ret doc_id
  | Some _ => ret doc_id
  end.

(** The value of [doc_info.get(key)] in a condition. *)
Definition truthy_opt (o : option string) : option string :=
  match o with
  | Some s => if PyStr.truthy s then Some s else None
  | None => None
  end.

(** [add_document_from_json]; [None] is Python's [None]. *)
Definition add_document_from_json (doc_info : DocInfo) : M (option string) :=
  match truthy_opt (di_source doc_info) with
  | None => ret None
  | Some u =>
      match truthy_opt (di_name doc_info) with
      | None => ret None
      | Some name =>
          let filename :=
            if negb (PyStr.endswith (PyStr.lower name) ".pdf")
            then name +:+ ".pdf" else name in
          let doc_id := _get_document_id u in
          w <- get ;;
          match documents (state w) !! doc_id with
          | Some _ => ret (Some doc_id)
          | None =>
              t <- now ;;
              set_documents (<[doc_id :=
                mkDocument u filename
                  (mkMetadata
                     (Some (default "AIP" (di_document_type doc_info)))
                     (Some (default "public" (di_access doc_info)))
                     (Some (default ["english"; "spanish"] (di_language doc_info)))
                     (Some (default "unknown" (di_country doc_info)))
                     (Some (default "unknown" (di_publisher doc_info)))
                     (Some (default "GEN" (di_section doc_info)))
                     (Some (default "" (di_output_folder doc_info))))
                  PENDING t pending_steps ∅ []]>
                (documents (state w))) ;;;
              _save_state ;;;
              ret (Some doc_id)
          end
      end
  end.

(** [get_document_status] *)
Definition get_document_status (doc_id : string) : M (option Document) :=
  w <- get ;;
  ret (documents (state w) !! doc_id).

(** The block "Actualizar estado general" of [update_step_status]: the new
    value of [doc["status"]], given its current value and the statuses of
    the steps. *)
Definition recompute_status (current : ProcessingStatus)
    (all : list ProcessingStatus) : ProcessingStatus :=
  if forallb (fun s => bool_decide (s = COMPLETED)) all then COMPLETED
  else if existsb (fun s => bool_decide (s = FAILED)) all then FAILED
  else if forallb (fun s => bool_decide (s ∈ [PENDING; COMPLETED])) all then
    (if bool_decide (PENDING ∉ all) then DOWNLOADED else PENDING)
  else current.

(** [update_step_status] *)
Definition update_step_status (doc_id step : string) (st : ProcessingStatus)
    (file_path : option string) (error : option string) : M unit :=
  w <- get ;;
  match documents (state w) !! doc_id with
  | None => raise (ValueError ("Documento no encontrado: " +:+ doc_id))
  | Some doc =>
      match step_of_key step with
      | None => raise (KeyError step)
      | Some n =>
          t <- now ;;
          let steps1 := set_step n (mkStepEntry st (Some t)) (steps doc) in
          let files1 :=
            match truthy_opt file_path with
            | Some p => <[step := p]> (files doc)
            | None => files doc
            end in
          errors1 <- match truthy_opt error with
                     | Some e =>
                         t' <- now ;;
                         ret (errors doc ++ [mkErrorEntry step e t'])%list
                     | None => ret (errors doc)
                     end ;;
          let status1 := recompute_status (status doc) (all_steps steps1) in
          set_documents (<[doc_id :=
            mkDocument (url doc) (original_filename doc) (metadata doc)
                       status1 (created_at doc) steps1 files1 errors1]>
            (documents (state w))) ;;;
          _save_state
      end
  end.

(** [_get_output_dirs].  The three [mkdir(parents=True, exist_ok=True)]
    are taken to succeed, and they create directories only: no file of
    [fs] changes.  A [mkdir] that raises (a component of the folder is an
    existing file) is outside the model, as is a locator that [urlparse]
    refuses. *)
Definition _get_output_dirs (doc_id : string) : M (string * string * string) :=
  doc <- get_document_status doc_id ;;
  match doc with
  | None => raise (ValueError ("Documento no encontrado: " +:+ doc_id))
  | Some doc =>
      let output_folder := default "" (md_output_folder (metadata doc)) in
      let base :=
        if PyStr.truthy output_folder
        then PyStr.path_join work_dir output_folder
        else work_dir in
      ret (PyStr.path_join base "pdfs",
           PyStr.path_join base "agentic_outputs",
           PyStr.path_join base "pdf_processed")
  end.

(* ===================================================================== *)
(** ** Step 1: download *)
(* ===================================================================== *)

(** [download_pdf].  The default of [doc.get("original_filename", ...)] is
    computed before the lookup, outside the [try], and dropped: the
    record always has the key. *)
Definition download_pdf (doc_id : string) : M bool :=
  record_event (Invoked Download doc_id) ;;;
  doc <- get_document_status doc_id ;;
  match doc with
  | None => ret false
  | Some doc =>
      default_filename <- _get_filename_from_url (url doc) ;;
      let filename := original_filename doc in
      dirs <- _get_output_dirs doc_id ;;
      let pdf_path := PyStr.path_join (dirs.1.1) filename in
      present <- path_exists pdf_path ;;
      if present then
        update_step_status doc_id "download" COMPLETED (Some pdf_path) None ;;;
        ret true
      else
        try_except
          (n <- external_call ;;
           match requests_get n (url doc) with
           | HttpRaises msg => raise (Exception msg)
           | HttpContent content =>
               write_file pdf_path (PdfBytes content) ;;;
               update_step_status doc_id "download" COMPLETED (Some pdf_path) None ;;;
               ret true
           end)
          (fun e =>
             let error_msg := "Error descargando PDF: " +:+ exn_str e in
             update_step_status doc_id "download" FAILED None (Some error_msg) ;;;
             ret false)
  end.

(* ===================================================================== *)
(** ** Step 2: extraction *)
(* ===================================================================== *)

(** The body of the inner loop over [chunk.grounding]: the page of the
    service is 0-indexed, the page written is 1-indexed. *)
Definition grounding_data (g : Grounding) : GroundingData :=
  mkGroundingData (option_map (fun p => p + 1)%Z (g_page g)) (g_box g).

(** The ["grounding"] key is written only for a non-empty list. *)
Definition grounding_list (gs : list Grounding) : option (list GroundingData) :=
  match gs with
  | [] => None
  | _ => Some (map grounding_data gs)
  end.

(** ["figure" in chunk_type_str.lower()] *)
Definition is_figure (c : Chunk) : bool :=
  PyStr.contains "figure" (PyStr.lower (chunk_type c)).

Definition chunk_data (i : nat) (c : Chunk) : ChunkData :=
  mkChunkData ("chunk_" +:+ PyStr.of_nat i)
              (default (chunk_repr c) (chunk_text c))
              (chunk_type c)
              (grounding_list (chunk_grounding c)).

Definition figure_data (i : nat) (c : Chunk) : FigureData :=
  mkFigureData ("figure_" +:+ PyStr.of_nat i)
               (default "" (chunk_text c))
               (chunk_type c)
               (grounding_list (chunk_grounding c)).

(** [for i, chunk in enumerate(doc_result.chunks)]: figures are set aside,
    the others become entries of [chunks_list]. *)
Fixpoint split_chunks (i : nat) (cs : list Chunk)
    (chunks_list : list ChunkData) (figure_chunks : list Chunk)
    : list ChunkData * list Chunk :=
  match cs with
  | [] => (chunks_list, figure_chunks)
  | c :: r =>
      if is_figure c
      then split_chunks (S i) r chunks_list (figure_chunks ++ [c])%list
      else split_chunks (S i) r (chunks_list ++ [chunk_data i c])%list figure_chunks
  end.

(** [for i, figure_chunk in enumerate(figure_chunks)] *)
Fixpoint figures_list (i : nat) (fs : list Chunk) (acc : list FigureData)
    : list FigureData :=
  match fs with
  | [] => acc
  | f :: r => figures_list (S i) r (acc ++ [figure_data i f])%list
  end.

(** The dictionary [agentic_output], once the figures are appended. *)
Definition build_agentic_output (doc_id : string) (doc : Document)
    (pdf_path : string) (result : list ParsedDocument) (t : Timestamp)
    : AgenticOutput :=
  let markdown_text :=
    match result with
    | [] => ""
    | doc_result :: _ => default "" (pd_markdown doc_result)
    end in
  let total_chars :=
    match result with
    | [] => 0
    | doc_result :: _ =>
        match pd_markdown doc_result with
        | Some m => String.length m
        | None => 0
        end
    end in
  let '(chunks_list, figure_chunks) :=
    match result with
    | [] => ([], [])
    | doc_result :: _ => split_chunks 0 (pd_chunks doc_result) [] []
    end in
  mkAgenticOutput
    (mkAgenticMetadata doc_id (url doc) pdf_path t
       (length chunks_list) (length figure_chunks) total_chars)
    (mkAgenticDocument doc_id (original_filename doc) markdown_text
       chunks_list (figures_list 0 figure_chunks [])).

(** [doc["files"][key]], outside any [try]. *)
Definition files_item (doc : Document) (key : string) : M string :=
  match files doc !! key with
  | Some p => ret p
  | None => raise (KeyError key)
  end.

(** [process_with_agentic_doc] *)
Definition process_with_agentic_doc (doc_id : string) : M bool :=
  record_event (Invoked AgenticProcess doc_id) ;;;
  doc <- get_document_status doc_id ;;
  match doc with
  | None => ret false
  | Some doc =>
      if bool_decide (st_status (download (steps doc)) ≠ COMPLETED) then ret false
      else
        pdf_path <- files_item doc "download" ;;
        dirs <- _get_output_dirs doc_id ;;
        let original_filename_no_ext := PyStr.rsplit_dot_head (original_filename doc) in
        let output_json_path :=
          PyStr.path_join (dirs.1.2) (original_filename_no_ext +:+ ".json") in
        present <- path_exists output_json_path ;;
        if present then
          update_step_status doc_id "agentic_process" COMPLETED
            (Some output_json_path) None ;;;
          ret true
        else
          try_except
            (n <- external_call ;;
             match parse n pdf_path with
             | ParseRaises msg => raise (Exception msg)
             | Parsed result =>
                 t <- now ;;
                 let agentic_output :=
                   build_agentic_output doc_id doc pdf_path result t in
                 write_file output_json_path (AgenticFile agentic_output) ;;;
                 update_step_status doc_id "agentic_process" COMPLETED
                   (Some output_json_path) None ;;;
                 ret true
             end)
            (fun e =>
               let error_msg := "Error procesando con Agentic-doc: " +:+ exn_str e in
               update_step_status doc_id "agentic_process" FAILED None
                 (Some error_msg) ;;;
               ret false)
  end.

(* ===================================================================== *)
(** ** Step 3: structuring with the chat model *)
(* ===================================================================== *)

(** What [json.load] of the extract artifact gives to [_mistral_transform]:
    [agentic_json.get('metadata', {}).get('source_url')] and the two lists
    of [agentic_json.get("document", {})]. *)
Record AgenticJson : Set := mkAgenticJson {
  aj_source_url : option string;
  aj_chunks : list ChunkData;
  aj_figures : list FigureData
}.

(** [json.load(f)] on the file at the extract path.  A structure-stage
    artifact is a dictionary without ["document"] and without
    ["source_url"]; anything else is not a JSON document. *)
Definition json_load (d : FileData) : M AgenticJson :=
  match d with
  | AgenticFile a =>
      ret (mkAgenticJson (Some (am_source_url (ao_metadata a)))
                         (ad_chunks (ao_document a))
                         (ad_figures (ao_document a)))
  | ProcessedFile _ => ret (mkAgenticJson None [] [])
  | PdfBytes _ => raise (Exception "JSONDecodeError")
  | Truncated => raise (Exception "JSONDecodeError")
  end.

Definition languages (doc_metadata : Metadata) : Json :=
  JArr (map JStr (default ["english"; "spanish"] (md_language doc_metadata))).

Definition ocr_prompt (kind body : string) : string :=
  "This is the " +:+ kind +:+ " OCR in markdown:" +:+ PyStr.newline +:+
  "====MARKDOWN====" +:+ PyStr.newline +:+
  body +:+ PyStr.newline +:+
  "====END MARKDOWN====" +:+ PyStr.newline +:+
  "Convert this into a structured JSON response with the following fields:" +:+ PyStr.newline +:+
  "- file_name: string" +:+ PyStr.newline +:+
  "- topics: list of strings" +:+ PyStr.newline +:+
  "- languages: list of strings" +:+ PyStr.newline +:+
  "- description: string" +:+ PyStr.newline +:+
  "- ocr_contents: dictionary with the main extracted information" +:+ PyStr.newline +:+
  "Respond only with the JSON object.".

(** The record returned for a page without text. *)
Definition empty_page_record (doc_name : string) (doc_metadata : Metadata) : Json :=
  JObj [("file_name", JStr doc_name);
        ("topics", JArr [JStr "aviation"; JStr "navigation"; JStr "charts"]);
        ("languages", languages doc_metadata);
        ("description", JStr "Empty page");
        ("ocr_contents", JObj [])].

(** The record returned when the call for a page raises. *)
Definition page_fallback (doc_name page_text : string) (doc_metadata : Metadata) : Json :=
  JObj [("file_name", JStr doc_name);
        ("topics", JArr [JStr "aviation"; JStr "navigation"; JStr "charts"]);
        ("languages", languages doc_metadata);
        ("description", JStr "Page content from aeronautical document");
        ("ocr_contents", JObj [("raw_content", JStr (PyStr.take 500 page_text))])].

(** The record returned when the call for a figure raises. *)
Definition image_fallback (image_text : string) (index : nat) (page_num : Z)
    (doc_metadata : Metadata) : Json :=
  JObj [("file_name",
         JStr ("imagen_p" +:+ PyStr.of_Z page_num +:+ "_i" +:+ PyStr.of_nat index +:+ ".jpg"));
        ("topics", JArr [JStr "aeronautical_charts"; JStr "navigation"]);
        ("languages", languages doc_metadata);
        ("description", JStr "Image from aeronautical document");
        ("ocr_contents", JObj [("raw_content", JStr (PyStr.take 200 image_text))])].

(** The [try] block shared by the two structuring methods: the call, then
    [json.loads] of the content; any exception falls through to the
    fallback. *)
Definition chat_json (prompt : string) (max_tokens : nat) (fallback : Json) : M Json :=
  try_except
    (n <- external_call ;;
     match chat_complete n prompt max_tokens with
     | ChatRaises msg => raise (Exception msg)
     | ChatContent result =>
         match json_loads result with
         | Some j => ret j
         | None => raise (Exception (json_decode_error result))
         end
     end)
    (fun _ => ret fallback).

(** [_mistral_structure_page] *)
Definition _mistral_structure_page (doc_name page_text : string)
    (doc_metadata : Metadata) (source_url : string) : M Json :=
  if PyStr.blank page_text then ret (empty_page_record doc_name doc_metadata)
  else
    chat_json (ocr_prompt "pages" page_text) 4000
              (page_fallback doc_name page_text doc_metadata).

(** [_mistral_structure_image] *)
Definition _mistral_structure_image (image_text : string) (index : nat)
    (page_num : Z) (doc_metadata : Metadata) : M (option Json) :=
  if PyStr.blank image_text then ret None
  else
    j <- chat_json (ocr_prompt "image" image_text) 3000
                   (image_fallback image_text index page_num doc_metadata) ;;
    ret (Some j).

(** [d[page].append(x)], creating the list on first use. *)
Definition append_at {A} (d : gmap Z (list A)) (page_num : Z) (x : A)
    : gmap Z (list A) :=
  <[page_num := (default [] (d !! page_num) ++ [x])%list]> d.

(** One round of "Agrupar por página": an item without grounding goes to
    page 1, else to the page of each of its groundings. *)
Definition file_item {A} (grounding : A -> option (list GroundingData))
    (d : gmap Z (list A)) (item : A) : gmap Z (list A) :=
  match default [] (grounding item) with
  | [] => append_at d 1%Z item
  | gs => fold_left (fun d ground => append_at d (default 1%Z (gd_page ground)) item) gs d
  end.

(** The loop that fills [pages_dict], and likewise [figures_dict]. *)
Definition group_by_page {A} (grounding : A -> option (list GroundingData))
    (items : list A) : gmap Z (list A) :=
  fold_left (file_item grounding) items ∅.

(** [max(pages_dict.keys()) if pages_dict else 1] *)
Definition total_pages_of {A} (pages_dict : gmap Z (list A)) : Z :=
  match (map_to_list pages_dict).*1 with
  | [] => 1%Z
  | k :: ks => foldr Z.max k ks
  end.

(** [if structured_fig: structured_images.append(structured_fig)] *)
Definition append_if_truthy (structured_images : list Json)
    (structured_fig : option Json) : list Json :=
  match structured_fig with
  | Some j => if json_truthy j then (structured_images ++ [j])%list else structured_images
  | None => structured_images
  end.

(** [for i, fig in enumerate(page_figures)] *)
Fixpoint structure_figures (i : nat) (page_figures : list FigureData)
    (page_num : Z) (doc_metadata : Metadata) (structured_images : list Json)
    : M (list Json) :=
  match page_figures with
  | [] => ret structured_images
  | fig :: r =>
      structured_fig <- _mistral_structure_image (fd_text fig) i page_num doc_metadata ;;
      structure_figures (S i) r page_num doc_metadata
        (append_if_truthy structured_images structured_fig)
  end.

(** The body of [for page_num in range(1, total_pages + 1)]. *)
Definition structure_page (doc_name : string) (doc_metadata : Metadata)
    (source_url : string) (pages_dict : gmap Z (list ChunkData))
    (figures_dict : gmap Z (list FigureData)) (page_num : Z) : M PageObj :=
  let page_chunks := default [] (pages_dict !! page_num) in
  let page_text := PyStr.join PyStr.newline (map cd_content page_chunks) in
  structured_page <- _mistral_structure_page doc_name page_text doc_metadata source_url ;;
  let page_figures := default [] (figures_dict !! page_num) in
  structured_images <- structure_figures 0 page_figures page_num doc_metadata [] ;;
  ret (mkPageObj page_num page_text structured_page structured_images []).

(** [_mistral_transform]; the dictionary it returns is never empty. *)
Definition _mistral_transform (doc_id : string) (agentic_json : AgenticJson)
    (doc : Document) : M (option PdfProcessed) :=
  let doc_metadata := metadata doc in
  let doc_name := PyStr.rsplit_dot_head (original_filename doc) in
  let source_url := default "unknown" (aj_source_url agentic_json) in
  let chunks := aj_chunks agentic_json in
  let figures := aj_figures agentic_json in
  let pages_dict := group_by_page cd_grounding chunks in
  let figures_dict := group_by_page fd_grounding figures in
  let total_pages := total_pages_of pages_dict in
  content <- map_m (structure_page doc_name doc_metadata source_url pages_dict figures_dict)
                   (seqZ 1 total_pages) ;;
  t <- now ;;
  ret (Some (mkPdfProcessed
    (mkProcessedMetadata doc_name total_pages
       (default "AIP" (md_document_type doc_metadata))
       source_url
       ["agentic-doc"; "mistral-codestral"]
       t
       (default "unknown" (md_country doc_metadata))
       (default "unknown" (md_publisher doc_metadata))
       (default "GEN" (md_section doc_metadata))
       (default "public" (md_access doc_metadata))
       (default ["english"; "spanish"] (md_language doc_metadata))
       (length chunks) (length figures))
    content)).

(** "Marcar como completado": [doc["status"] = COMPLETED] on the record,
    then [_save_state]. *)
Definition mark_completed (doc_id : string) : M unit :=
  w <- get ;;
  match documents (state w) !! doc_id with
  | None => raise (KeyError doc_id)
  | Some doc =>
      set_documents (<[doc_id :=
        mkDocument (url doc) (original_filename doc) (metadata doc)
                   COMPLETED (created_at doc) (steps doc) (files doc) (errors doc)]>
        (documents (state w))) ;;;
      _save_state
  end.

(** [transform_to_pdf_processed] *)
Definition transform_to_pdf_processed (doc_id : string) : M bool :=
  record_event (Invoked Transform doc_id) ;;;
  doc <- get_document_status doc_id ;;
  match doc with
  | None => ret false
  | Some doc =>
      if bool_decide (st_status (agentic_process (steps doc)) ≠ COMPLETED) then ret false
      else
        agentic_json_path <- files_item doc "agentic_process" ;;
        dirs <- _get_output_dirs doc_id ;;
        let original_filename_no_ext := PyStr.rsplit_dot_head (original_filename doc) in
        let pdf_processed_path :=
          PyStr.path_join (dirs.2) (original_filename_no_ext +:+ ".json") in
        present <- path_exists pdf_processed_path ;;
        if present then
          update_step_status doc_id "transform" COMPLETED (Some pdf_processed_path) None ;;;
          ret true
        else
          try_except
            (d <- read_file agentic_json_path ;;
             agentic_json <- json_load d ;;
             pdf_processed <- _mistral_transform doc_id agentic_json doc ;;
             match pdf_processed with
             | None =>
                 let error_msg := "Error en transformación de Mistral" in
                 update_step_status doc_id "transform" FAILED None (Some error_msg) ;;;
                 ret false
             | Some pdf_processed =>
                 write_file pdf_processed_path (ProcessedFile pdf_processed) ;;;
                 update_step_status doc_id "transform" COMPLETED
                   (Some pdf_processed_path) None ;;;
                 mark_completed doc_id ;;;
                 ret true
             end)
            (fun e =>
               let error_msg := "Error transformando: " +:+ exn_str e in
               update_step_status doc_id "transform" FAILED None (Some error_msg) ;;;
               ret false)
  end.

(* ===================================================================== *)
(** ** Orchestration *)
(* ===================================================================== *)

(** A value of [results["documents"]]. *)
Inductive DocResult : Set :=
  | ResCompleted (recovered : bool)
  | ResFailed (step : string).

Record Results : Type := mkResults {
  started_at : Timestamp;
  total_documents : nat;
  res_documents : gmap string DocResult;
  completed_at : Timestamp
}.

(** One round of the loop of [process_all_documents]. *)
Definition process_document (results : gmap string DocResult) (doc_id : string)
    : M (gmap string DocResult) :=
  ok <- download_pdf doc_id ;;
  if negb ok then ret (<[doc_id := ResFailed "download"]> results)
  else
    ok <- process_with_agentic_doc doc_id ;;
    if negb ok then ret (<[doc_id := ResFailed "agentic_process"]> results)
    else
      ok <- transform_to_pdf_processed doc_id ;;
      if negb ok then ret (<[doc_id := ResFailed "transform"]> results)
      else ret (<[doc_id := ResCompleted false]> results).

(** [process_all_documents]; the summary is only printed. *)
Definition process_all_documents (urls : list string) : M Results :=
  doc_ids <- map_m (fun u => add_document u None None) urls ;;
  t0 <- now ;;
  docs <- fold_m process_document doc_ids ∅ ;;
  t1 <- now ;;
  ret (mkResults t0 (length doc_ids) docs t1).

(** [doc_status[...]] reads the live record of the ledger: [doc_status] is
    the dictionary that [update_step_status] mutates. *)
Definition doc_status (doc_id : string) : M Document :=
  w <- get ;;
  match documents (state w) !! doc_id with
  | Some doc => ret doc
  | None => raise (KeyError doc_id)
  end.

(** One round of the loop of [process_all_documents_from_json]. *)
Definition process_document_from_json (results : gmap string DocResult)
    (item : string * DocInfo) : M (gmap string DocResult) :=
  let doc_id := item.1 in
  d <- doc_status doc_id ;;
  if bool_decide (status d = COMPLETED)
  then ret (<[doc_id := ResCompleted true]> results)
  else
    ok <- (if bool_decide (st_status (download (steps d)) ≠ COMPLETED)
           then download_pdf doc_id else ret true) ;;
    if negb ok then ret (<[doc_id := ResFailed "download"]> results)
    else
      d <- doc_status doc_id ;;
      ok <- (if bool_decide (st_status (agentic_process (steps d)) ≠ COMPLETED)
             then process_with_agentic_doc doc_id else ret true) ;;
      if negb ok then ret (<[doc_id := ResFailed "agentic_process"]> results)
      else
        d <- doc_status doc_id ;;
        ok <- (if bool_decide (st_status (transform (steps d)) ≠ COMPLETED)
               then transform_to_pdf_processed doc_id else ret true) ;;
        if negb ok then ret (<[doc_id := ResFailed "transform"]> results)
        else ret (<[doc_id := ResCompleted false]> results).

(** "Agregar documentos desde JSON": descriptors that are refused are left
    out. *)
Definition register_from_json (doc_ids : list (string * DocInfo))
    (doc_info : DocInfo) : M (list (string * DocInfo)) :=
  doc_id <- add_document_from_json doc_info ;;
  match doc_id with
  | Some doc_id => ret (doc_ids ++ [(doc_id, doc_info)])%list
  | None => ret doc_ids
  end.

(** [process_all_documents_from_json] *)
Definition process_all_documents_from_json (docs : list DocInfo) : M Results :=
  doc_ids <- fold_m register_from_json docs [] ;;
  t0 <- now ;;
  rs <- fold_m process_document_from_json doc_ids ∅ ;;
  t1 <- now ;;
  ret (mkResults t0 (length doc_ids) rs t1).

End Manager.

(* ===================================================================== *)
(** ** A concrete manager for examples *)
(* ===================================================================== *)

(** The state that [_load_state] builds when there is no state file. *)
Definition fresh_state (t : Timestamp) : State := mkState t ∅ "1.0" None.

Definition fresh_world : World := mkWorld (fresh_state 0) None ∅ 1 [].

(** Collaborators that always answer; the digest is the locator itself. *)
Definition demo_chunks : list Chunk :=
  [ mkChunk "ChunkType.text" (Some "Runway 09/27") "chunk" [mkGrounding (Some 0%Z) None];
    mkChunk "ChunkType.figure" (Some "Aerodrome chart") "chunk" [mkGrounding (Some 0%Z) (Some "box")];
    mkChunk "ChunkType.figure" (Some "Approach chart") "chunk" [mkGrounding (Some 4%Z) None];
    mkChunk "ChunkType.table" (Some "Frequencies") "chunk" [mkGrounding (Some 1%Z) None] ].

Definition demo_external : External :=
  {| work_dir := "work";
     md5_hexdigest := fun u => u;
     urlparse_path := fun u => u;
     requests_get := fun _ _ => HttpContent "%PDF-1.4";
     parse := fun _ _ => Parsed [mkParsedDocument (Some "# AD 2") demo_chunks];
     chat_complete := fun _ prompt _ =>
       if PyStr.contains "Frequencies" prompt then ChatRaises "timeout"
       else ChatContent "{}";
     json_loads := fun s => Some (JObj [("description", JStr "ok")]);
     json_decode_error := fun s => "Expecting value";
     write_outcome := fun _ _ => WriteDone |}.

Definition demo_info : DocInfo :=
  mkDocInfo (Some "http://aip/ad2.pdf") (Some "AD2") None None None
            (Some "argentina") None None (Some "_AIPs/argentina").

(* ===================================================================== *)
(** ** Effect summaries used by the statements *)
(* ===================================================================== *)

(** The record that [update_step_status] leaves for a document [d], when
    the clock reads [t] on entry. *)
Definition updated_document (d : Document) (step : string) (n : StepName)
    (st : ProcessingStatus) (file_path error : option string) (t : Timestamp)
    : Document :=
  let steps1 := set_step n (mkStepEntry st (Some t)) (steps d) in
  mkDocument (url d) (original_filename d) (metadata d)
    (recompute_status (status d) (all_steps steps1))
    (created_at d) steps1
    (match truthy_opt file_path with
     | Some p => <[step := p]> (files d)
     | None => files d
     end)
    (match truthy_opt error with
     | Some e => (errors d ++ [mkErrorEntry step e (S t)])%list
     | None => errors d
     end).

(** The world in which [_save_state] returns, from a world whose ledger
    holds [docs] and whose clock reads [t]. *)
Definition saved_world (w : World) (docs : gmap string Document) (t : Timestamp)
    : World :=
  let s := mkState (state_created_at (state w)) docs
                   (pipeline_version (state w)) (Some t) in
  mkWorld s (Some s) (fs w) (S t) (trace w).

(** The world in which [update_step_status] returns. *)
Definition after_update (w : World) (doc_id step : string) (n : StepName)
    (st : ProcessingStatus) (file_path error : option string) (d : Document)
    : World :=
  let t := tick w in
  saved_world w
    (<[doc_id := updated_document d step n st file_path error t]>
       (documents (state w)))
    (match truthy_opt error with Some _ => S (S t) | None => S t end).

(** The three statuses that the executors write into a step. *)
Definition three_valued (s : Steps) : Prop :=
  Forall (fun x => x ∈ [PENDING; COMPLETED; FAILED]) (all_steps s).

(** The derivation rule for [doc["status"]], with [PENDING] as the value
    for partial progress. *)
Definition derivation_rule (d : Document) : Prop :=
  (status d = COMPLETED ↔ Forall (fun x => x = COMPLETED) (all_steps (steps d))) ∧
  (status d = FAILED ↔ Exists (fun x => x = FAILED) (all_steps (steps d))) ∧
  (status d ∈ [COMPLETED; FAILED; PENDING; DOWNLOADED]).

(** The state file holds the ledger of [w'], or nothing of the state and of
    the state file changed from [w] to [w']. *)
Definition saved (w w' : World) : Prop :=
  state_file w' = Some (state w') ∨
  (state w' = state w ∧ state_file w' = state_file w).

(** The two ways to register a source locator; [doc_id] and [filename]
    are the optional arguments of [add_document]. *)
Inductive Registration : Set :=
  | ByLocator (u : string) (doc_id filename : option string)
  | ByDescriptor (doc_info : DocInfo).




Definition register `{Ext : External} (r : Registration) : M (option string) :=
  match r with
  | ByLocator u doc_id filename =>
      doc_id <- add_document u doc_id filename ;; ret (Some doc_id)
  | ByDescriptor doc_info => add_document_from_json doc_info
  end.

(** The identifier under which [add_document_from_json] registers a
    descriptor; [None] for a descriptor that it refuses. *)
Definition descriptor_id `{Ext : External} (doc_info : DocInfo) : option string :=
  match truthy_opt (di_source doc_info), truthy_opt (di_name doc_info) with
  | Some u, Some _ => Some (_get_document_id u)
  | _, _ => None
  end.


Section Paths.

Context `{Ext : External}.

(** The three directories that [_get_output_dirs] returns for a record. *)
Definition output_dirs (doc : Document) : string * string * string :=
  let output_folder := default "" (md_output_folder (metadata doc)) in
  let base :=
    if PyStr.truthy output_folder
    then PyStr.path_join work_dir output_folder
    else work_dir in
  (PyStr.path_join base "pdfs",
   PyStr.path_join base "agentic_outputs",
   PyStr.path_join base "pdf_processed").

(** [pdf_path] of [download_pdf] *)
Definition pdf_path_of (doc : Document) : string :=
  PyStr.path_join ((output_dirs doc).1.1) (original_filename doc).

(** [output_json_path] of [process_with_agentic_doc] *)
Definition output_json_path_of (doc : Document) : string :=
  PyStr.path_join ((output_dirs doc).1.2)
    (PyStr.rsplit_dot_head (original_filename doc) +:+ ".json").

(** [pdf_processed_path] of [transform_to_pdf_processed] *)
Definition pdf_processed_path_of (doc : Document) : string :=
  PyStr.path_join ((output_dirs doc).2)
    (PyStr.rsplit_dot_head (original_filename doc) +:+ ".json").

End Paths.

(** The page written at position [k] of a ["grounding"] list. *)
Definition written_page (gs : option (list GroundingData)) (k : nat) : option Z :=
  match gs with
  | Some l => match l !! k with Some g => gd_page g | None => None end
  | None => None
  end.

(** The world with an event appended to the trace. *)
Definition with_event (e : Event) (w : World) : World :=
  mkWorld (state w) (state_file w) (fs w) (tick w) (trace w ++ [e])%list.

(** The world with the clock set. *)
Definition with_tick (t : nat) (w : World) : World :=
  mkWorld (state w) (state_file w) (fs w) t (trace w).

(** The world with a file written. *)
Definition with_file (p : string) (d : FileData) (w : World) : World :=
  mkWorld (state w) (state_file w) (<[p := d]> (fs w)) (tick w) (trace w).

(** The pages under which the grouping loop files an item: page 1 for an
    item without grounding, else the page of each grounding (1 when the
    key ["page"] is absent). *)
Definition item_pages (g : option (list GroundingData)) : list Z :=
  match default [] g with
  | [] => [1%Z]
  | gs => map (fun ground => default 1%Z (gd_page ground)) gs
  end.

(** The copies of an item that the grouping loop files under page [p]. *)
Definition copies_on {A} (grounding : A -> option (list GroundingData))
    (p : Z) (x : A) : list A :=
  (fun _ => x) <$> filter (fun q => q = p) (item_pages (grounding x)).

Section Structuring.

Context `{Ext : External}.

(** What the [try] block of a structuring method returns when the call is
    made at clock [n]: the decoded reply, or the fallback when the call or
    the decoding raises. *)
Definition chat_outcome (n : nat) (prompt : string) (max_tokens : nat)
    (fallback : Json) : Json :=
  match chat_complete n prompt max_tokens with
  | ChatRaises _ => fallback
  | ChatContent result =>
      match json_loads result with
      | Some j => j
      | None => fallback
      end
  end.

(** The number of calls that the loop over the figures of a page makes:
    one for each figure with text. *)
Definition figure_calls (page_figures : list FigureData) : nat :=
  sum_list ((fun fig => if PyStr.blank (fd_text fig) then 0 else 1)%nat <$> page_figures).

(** The records that the loop over the figures of a page appends when it
    starts at the clock [t] with the index [i]: nothing for a figure
    without text, else the outcome of the call made at the clock then
    reached, kept when it is truthy. *)
Fixpoint figure_records (page_num : Z) (doc_metadata : Metadata) (t i : nat)
    (page_figures : list FigureData) : list Json :=
  match page_figures with
  | [] => []
  | fig :: r =>
      if PyStr.blank (fd_text fig)
      then figure_records page_num doc_metadata t (S i) r
      else
        let j := chat_outcome t (ocr_prompt "image" (fd_text fig)) 3000
                   (image_fallback (fd_text fig) i page_num doc_metadata) in
        ((if json_truthy j then [j] else []) ++
         figure_records page_num doc_metadata (S t) (S i) r)%list
  end.

(** The text of a page: the contents of the chunks filed under it. *)
Definition page_text_of (agentic_json : AgenticJson) (page_num : Z) : string :=
  PyStr.join PyStr.newline
    (map cd_content (aj_chunks agentic_json ≫= copies_on cd_grounding page_num)).

(** The figures filed under a page. *)
Definition page_figures_of (agentic_json : AgenticJson) (page_num : Z)
    : list FigureData :=
  aj_figures agentic_json ≫= copies_on fd_grounding page_num.

(** The number of calls made for a page: one for its text, unless it is
    blank, and those for its figures. *)
Definition page_calls (agentic_json : AgenticJson) (page_num : Z) : nat :=
  ((if PyStr.blank (page_text_of agentic_json page_num) then 0 else 1) +
   figure_calls (page_figures_of agentic_json page_num))%nat.

(** The page object that the loop over the pages builds for [page_num]
    when it reaches the page at the clock [t]: the record of the page is
    the fixed one for a blank text, else the outcome of the call made at
    [t]; the calls for the figures follow. *)
Definition page_at (doc : Document) (agentic_json : AgenticJson) (t : nat)
    (page_num : Z) : PageObj :=
  let doc_name := PyStr.rsplit_dot_head (original_filename doc) in
  let page_text := page_text_of agentic_json page_num in
  mkPageObj page_num page_text
    (if PyStr.blank page_text then empty_page_record doc_name (metadata doc)
     else chat_outcome t (ocr_prompt "pages" page_text) 4000
            (page_fallback doc_name page_text (metadata doc)))
    (figure_records page_num (metadata doc)
       (if PyStr.blank page_text then t else S t) 0
       (page_figures_of agentic_json page_num))
    [].

(** The page objects built for the pages [pages] by a loop that starts
    at the clock [t]. *)
Fixpoint pages_from (doc : Document) (agentic_json : AgenticJson) (t : nat)
    (pages : list Z) : list PageObj :=
  match pages with
  | [] => []
  | p :: r =>
      page_at doc agentic_json t p ::
      pages_from doc agentic_json (t + page_calls agentic_json p) r
  end.

(** The clock at which a loop over the pages from 1, started at [t],
    reaches the page [p]. *)
Definition page_clock (agentic_json : AgenticJson) (t : nat) (p : Z) : nat :=
  (t + sum_list (page_calls agentic_json <$> seqZ 1 (p - 1)))%nat.

(** The clock at which the loop over the figures of the page [p] starts:
    after the call for the text of the page, if there is one. *)
Definition figures_clock (agentic_json : AgenticJson) (t : nat) (p : Z) : nat :=
  (page_clock agentic_json t p +
   (if PyStr.blank (page_text_of agentic_json p) then 0 else 1))%nat.

(** The clock of the call for the figure at the index [k] of the page
    [p]: after the calls for the figures before it. *)
Definition figure_clock (agentic_json : AgenticJson) (t : nat) (p : Z) (k : nat)
    : nat :=
  (figures_clock agentic_json t p +
   figure_calls (take k (page_figures_of agentic_json p)))%nat.

(** The position that the record of the figure at the index [k] of the
    page [p] takes in [structured_image_content]: after the records kept
    for the figures before it. *)
Definition figure_slot (doc : Document) (agentic_json : AgenticJson) (t : nat)
    (p : Z) (k : nat) : nat :=
  length (figure_records p (metadata doc) (figures_clock agentic_json t p) 0
            (take k (page_figures_of agentic_json p))).

End Structuring.

(** The record that "Marcar como completado" leaves. *)
Definition completed_document (d : Document) : Document :=
  mkDocument (url d) (original_filename d) (metadata d) COMPLETED
             (created_at d) (steps d) (files d) (errors d).

(** The world in which the marking returns. *)
Definition after_mark_completed (w : World) (doc_id : string) (d : Document)
    : World :=
  saved_world w (<[doc_id := completed_document d]> (documents (state w))) (tick w).

(** The exception that ends the [try] block of [process_with_agentic_doc]
    entered at the world [w]: its message, and whether [open] had already
    created the output file.  [None] when the block completes. *)
Definition extract_raises `{Ext : External} (w : World) (doc : Document)
    (pdf_path : string) : option (string * bool) :=
  match parse (tick w) pdf_path with
  | ParseRaises msg => Some (msg, false)
  | Parsed _ =>
      match write_outcome (S (S (tick w))) (output_json_path_of doc) with
      | WriteDone => None
      | OpenRaises msg => Some (msg, false)
      | WriterRaises msg => Some (msg, true)
      end
  end.

(** Collaborators as in [demo_external], except that the serialization of
    the extract artifact raises. *)
Definition faulty_external : External :=
  {| work_dir := "work";
     md5_hexdigest := fun u => u;
     urlparse_path := fun u => u;
     requests_get := fun _ _ => HttpContent "%PDF-1.4";
     parse := fun _ _ => Parsed [mkParsedDocument (Some "# AD 2") demo_chunks];
     chat_complete := fun _ _ _ => ChatContent "{}";
     json_loads := fun s => Some (JObj [("description", JStr "ok")]);
     json_decode_error := fun s => "Expecting value";
     write_outcome := fun _ p =>
       if PyStr.contains "agentic_outputs" p
       then WriterRaises "Object of type Decimal is not JSON serializable"
       else WriteDone |}.

(** The world of the examples once the document of [demo_info] is
    registered and downloaded. *)
Definition downloaded_world `{Ext : External} : World :=
  final (download_pdf "http://aip/a" (final (add_document_from_json demo_info fresh_world))).

(** What the executor of step [n] may change in the record it works on:
    the status, the entry and the file of its own step, and new errors at
    the end of the list. *)
Definition doc_effect (n : StepName) (d d' : Document) : Prop :=
  url d' = url d ∧
  original_filename d' = original_filename d ∧
  metadata d' = metadata d ∧
  created_at d' = created_at d ∧
  errors d `prefix_of` errors d' ∧
  ∀ m, m ≠ n →
    get_step m (steps d') = get_step m (steps d) ∧
    files d' !! step_key m = files d !! step_key m.

(** Files are written once: a path that holds a file keeps it. *)
Definition files_kept (w w' : World) : Prop :=
  ∀ p c, fs w !! p = Some c → fs w' !! p = Some c.

(** What one call of the executor of step [n] on [doc_id] changes. *)
Definition stage_effect (n : StepName) (doc_id : string) (w w' : World) : Prop :=
  trace w' = (trace w ++ [Invoked n doc_id])%list ∧
  (∀ j, j ≠ doc_id → documents (state w') !! j = documents (state w) !! j) ∧
  match documents (state w) !! doc_id with
  | None => documents (state w') !! doc_id = None
  | Some d => ∃ d', documents (state w') !! doc_id = Some d' ∧ doc_effect n d d'
  end ∧
  files_kept w w'.

(** Every record of [w] is still in [w'], with the errors it had and
    possibly more after them. *)
Definition errors_kept (w w' : World) : Prop :=
  ∀ doc_id d, documents (state w) !! doc_id = Some d →
    ∃ d', documents (state w') !! doc_id = Some d' ∧ errors d `prefix_of` errors d'.

(** A computation all of whose runs, returning or raising, relate the
    world they start in to the world they end in. *)
Definition keeps {A} (R : relation World) (m : M A) : Prop :=
  ∀ w, R w (final (m w)).

(** The part of a record that the first two steps own: their entries
    (status and timestamp) and the paths of their artifacts. *)
Definition ledger_view (d : Document)
    : StepEntry * StepEntry * option string * option string :=
  (download (steps d), agentic_process (steps d),
   files d !! "download", files d !! "agentic_process").

(** The ledger holds [doc_id] with the view [v]. *)
Definition stands (doc_id : string)
    (v : StepEntry * StepEntry * option string * option string) (w : World) : Prop :=
  ∃ d, documents (state w) !! doc_id = Some d ∧ ledger_view d = v.

(** From [w] to [w'] neither the download nor the extraction executor was
    called on [doc_id]. *)
Definition quiet (doc_id : string) (w w' : World) : Prop :=
  ∃ evs, trace w' = (trace w ++ evs)%list ∧
         (Invoked Download doc_id ∉ evs) ∧ (Invoked AgenticProcess doc_id ∉ evs).

(** A run that resumes [doc_id] from the view [v]: the view stands, the
    first two executors are not called on the document and no existing
    file is written. *)
Definition resumed (doc_id : string)
    (v : StepEntry * StepEntry * option string * option string)
    (w w' : World) : Prop :=
  stands doc_id v w → stands doc_id v w' ∧ quiet doc_id w w' ∧ files_kept w w'.

(** A run that leaves the record of [doc_id], when there is one, as it is
    and only adds to the trace. *)
Definition untouched (doc_id : string) (w w' : World) : Prop :=
  (is_Some (documents (state w) !! doc_id) →
   documents (state w') !! doc_id = documents (state w) !! doc_id) ∧
  (trace w) `prefix_of` (trace w').

(** A record that the loop of [process_all_documents_from_json] resumes at
    the structuring step. *)
Definition resumable (d : Document) : Prop :=
  st_status (download (steps d)) = COMPLETED ∧
  st_status (agentic_process (steps d)) = COMPLETED ∧
  st_status (transform (steps d)) ≠ COMPLETED ∧
  status d ≠ COMPLETED.

(** A record [d'] that keeps of [d] what the structuring step does not
    own: the view of the first two steps, the name and the metadata. *)
Definition linked (d d' : Document) : Prop :=
  ledger_view d' = ledger_view d ∧
  original_filename d' = original_filename d ∧
  metadata d' = metadata d.

(** What the structuring step has made of a record that was [d], in the
    record [d'] of the world [w'], with the entry [r] of the summary:
    the errors of [d'] are those of [d] and then entries of the step
    only; and either the step is completed with a timestamp, the
    document is completed, the ledger has the path of the final artifact,
    the file is there and the summary says completed; or the step is
    failed with a timestamp, the document is failed, an error was
    recorded and the summary names the step. *)
Definition structure_outcome `{Ext : External} (d d' : Document) (w' : World)
    (r : option DocResult) : Prop :=
  ∃ l, errors d' = (errors d ++ l)%list ∧
       Forall (fun e => err_step e = "transform") l ∧
       ((st_status (transform (steps d')) = COMPLETED ∧
         is_Some (st_timestamp (transform (steps d'))) ∧
         status d' = COMPLETED ∧
         files d' !! "transform" = Some (pdf_processed_path_of d) ∧
         is_Some (fs w' !! pdf_processed_path_of d) ∧
         ∃ b, r = Some (ResCompleted b))
        ∨
        (st_status (transform (steps d')) = FAILED ∧
         is_Some (st_timestamp (transform (steps d'))) ∧
         status d' = FAILED ∧
         l ≠ [] ∧
         r = Some (ResFailed "transform"))).

(** The ledger of [w] and the summary [acc] once the structuring executor
    has run on the record of [doc_id] that was [d]. *)
Definition resumed_outcome `{Ext : External} (doc_id : string) (d : Document)
    (w : World) (acc : gmap string DocResult) : Prop :=
  ∃ d0, documents (state w) !! doc_id = Some d0 ∧ linked d d0 ∧
        structure_outcome d d0 w (acc !! doc_id).

(** The world of the examples once the document is also extracted. *)
Definition extracted_world `{Ext : External} : World :=
  final (process_with_agentic_doc "http://aip/a" downloaded_world).

(** A run that skips a completed [doc_id]: its record stays as it is and
    no executor is called on it. *)
Definition skipped (doc_id : string) (w w' : World) : Prop :=
  (∃ d, documents (state w) !! doc_id = Some d ∧ status d = COMPLETED) →
  documents (state w') !! doc_id = documents (state w) !! doc_id ∧
  ∃ evs, trace w' = (trace w ++ evs)%list ∧ ∀ n, Invoked n doc_id ∉ evs.

(** The world of the examples after a first run of [process_all_documents]
    over one locator. *)
Definition first_run_world `{Ext : External} : World :=
  final (process_all_documents ["http://aip/ad2.pdf"] fresh_world).

(** What [json.load] gives for the extract artifact of the examples: two
    chunks on pages 1 and 2, a figure on page 1 and a figure on page 5. *)
Definition demo_agentic_json : AgenticJson :=
  mkAgenticJson (Some "http://aip/ad2.pdf")
    [ mkChunkData "chunk_0" "Runway 09/27" "ChunkType.text"
        (Some [mkGroundingData (Some 1%Z) None]);
      mkChunkData "chunk_3" "Frequencies" "ChunkType.table"
        (Some [mkGroundingData (Some 2%Z) None]) ]
    [ mkFigureData "figure_0" "Aerodrome chart" "ChunkType.figure"
        (Some [mkGroundingData (Some 1%Z) (Some "box")]);
      mkFigureData "figure_1" "Approach chart" "ChunkType.figure"
        (Some [mkGroundingData (Some 5%Z) None]) ].

(** The record of the examples, downloaded and extracted. *)
Definition demo_extracted_document : Document :=
  mkDocument "http://aip/ad2.pdf" "AD2.pdf"
    (mkMetadata (Some "AIP") (Some "public") (Some ["english"; "spanish"])
       (Some "argentina") (Some "unknown") (Some "GEN") (Some "_AIPs/argentina"))
    PENDING 1
    (mkSteps (mkStepEntry COMPLETED (Some 5)) (mkStepEntry COMPLETED (Some 10))
       (mkStepEntry PENDING None))
    {["agentic_process" := "work/_AIPs/argentina/agentic_outputs/AD2.json";
      "download" := "work/_AIPs/argentina/pdfs/AD2.pdf"]} [].

(** The world of the examples after a registration by locator and a
    failed download. *)
Definition failed_download_world : World :=
  final (update_step_status "a" "download" FAILED None (Some "timeout")
           (final (add_document (Ext := demo_external) "a" None None fresh_world))).

(** The extract artifact of the examples, as the extraction stage wrote it. *)
Definition demo_artifact : FileData :=
  default Truncated
    (fs (extracted_world (Ext := demo_external))
       !! "work/_AIPs/argentina/agentic_outputs/AD2.json").

(* ===================================================================== *)
(** ** The rest of the manager *)
(* ===================================================================== *)

(** What the state file holds when a manager starts: a JSON dictionary
    with the key ["documents"] (read as a [State]), another JSON value, a
    text that is not JSON, or bytes that are not text. *)
Inductive StateFileContent : Type :=
  | StateJson (s : State)
  | OtherJson
  | NotJson
  | NotText.

(** [_load_state]; [None] is an absent file.  Only [JSONDecodeError] and
    [IOError] are caught: the decoding error of [f.read()] is not. *)
Definition _load_state (file : option StateFileContent) : M State :=
  match file with
  | Some (StateJson s) => ret s
  | Some NotText => raise (Exception "UnicodeDecodeError")
  | Some OtherJson | Some NotJson | None =>
      t <- now ;;
      ret (mkState t ∅ "1.0" None)
  end.

(** The state file of a world, as the next manager finds it. *)
Definition state_file_content (w : World) : option StateFileContent :=
  StateJson <$> state_file w.

(** The line [self.state = self._load_state()] of [__init__], for a
    manager that starts on the files of [w]. *)
Definition restart : M unit :=
  w <- get ;;
  s <- _load_state (state_file_content w) ;;
  set_state s.

(** A value of the dictionary of [get_final_files]. *)
Record FinalFiles : Set := mkFinalFiles {
  ff_pdf : option string;
  ff_agentic_json : option string;
  ff_pdf_processed_json : option string;
  ff_url : string
}.

(** [get_final_files] *)
Definition get_final_files : M (gmap string FinalFiles) :=
  w <- get ;;
  ret ((fun doc_info =>
          mkFinalFiles (files doc_info !! "download")
                       (files doc_info !! "agentic_process")
                       (files doc_info !! "transform")
                       (url doc_info))
       <$> filter (fun item => status item.2 = COMPLETED) (documents (state w))).

(** [r["status"] == "completed"] and [r["status"] == "failed"] *)
Definition is_completed (r : DocResult) : bool :=
  match r with ResCompleted _ => true | ResFailed _ => false end.

Definition is_failed (r : DocResult) : bool :=
  match r with ResCompleted _ => false | ResFailed _ => true end.

(** The two counts that [_print_summary] prints. *)
Definition summary_counts (results : Results) : nat * nat :=
  let values := (map_to_list (res_documents results)).*2 in
  (length (filter (fun r => is_completed r = true) values),
   length (filter (fun r => is_failed r = true) values)).

(** [s.split('/')] *)
Fixpoint split_slash (s : string) : list string :=
  match s with
  | EmptyString => [EmptyString]
  | String c r =>
      if Ascii.eqb c "/"%char then EmptyString :: split_slash r
      else match split_slash r with
           | [] => [String c EmptyString]
           | p :: ps => String c p :: ps
           end
  end.

(** The block of [main] that reads the country from the first descriptor
    when neither [--aip] nor the auto-detection gave one: [None] is the
    exit with "No se pudo determinar el AIP". *)
Definition aip_from_documents (docs : list DocInfo) : option string :=
  match docs with
  | [] => None
  | first :: _ =>
      let output_folder := default "" (di_output_folder first) in
      if PyStr.truthy output_folder then
        match split_slash output_folder with
        | [p0; p1] =>
            if String.eqb p0 "_AIPs" then (if PyStr.truthy p1 then Some p1 else None)
            else None
        | _ => None
        end
      else None
  end.

(* ===================================================================== *)
(** ** The ways an executor ends *)
(* ===================================================================== *)

(** The step whose completion an executor requires. *)
Definition previous_step (n : StepName) : option StepName :=
  match n with
  | Download => None
  | AgenticProcess => Some Download
  | Transform => Some AgenticProcess
  end.

(** The path at which the executor of a step looks for, and writes, its
    artifact. *)
Definition artifact_path `{Ext : External} (n : StepName) (doc : Document) : string :=
  match n with
  | Download => pdf_path_of doc
  | AgenticProcess => output_json_path_of doc
  | Transform => pdf_processed_path_of doc
  end.

(** The head of the message that the [except] branch of an executor
    records. *)
Definition error_prefix (n : StepName) : string :=
  match n with
  | Download => "Error descargando PDF: "
  | AgenticProcess => "Error procesando con Agentic-doc: "
  | Transform => "Error transformando: "
  end.

(** The world [w1] in which an executor entered at [w] calls
    [update_step_status], or returns without calling it: the ledger and
    the state file are those of [w], no file that existed has changed. *)
Definition entered (n : StepName) (doc_id : string) (w w1 : World) : Prop :=
  trace w1 = (trace w ++ [Invoked n doc_id])%list ∧
  state w1 = state w ∧
  state_file w1 = state_file w ∧
  files_kept w w1 ∧
  (tick w ≤ tick w1)%nat.

(** The executor of a step. *)
Definition run_stage `{Ext : External} (n : StepName) : string -> M bool :=
  match n with
  | Download => download_pdf
  | AgenticProcess => process_with_agentic_doc
  | Transform => transform_to_pdf_processed
  end.

(** The record lets the executor of step [n] start: the step before is
    completed and the path of its artifact is in the ledger. *)
Definition ready (n : StepName) (doc : Document) : Prop :=
  ∀ m, previous_step n = Some m →
    st_status (get_step m (steps doc)) = COMPLETED ∧
    is_Some (files doc !! step_key m).

(** The ways the executor of step [n] ends on [doc_id], read off the three
    executors: unknown document; step before not completed; path of the
    input missing in the ledger (the [KeyError] is not caught); step
    recorded completed, at once when the artifact is found, else after it
    was written; for the last step, step recorded completed after the
    artifact was written and document marked completed; step recorded
    failed with a message. *)
Inductive stage_run `{Ext : External} (n : StepName) (doc_id : string) (w : World)
    : Result bool -> Prop :=
  | run_unknown :
      documents (state w) !! doc_id = None →
      stage_run n doc_id w (Ok false (with_event (Invoked n doc_id) w))
  | run_not_ready doc m :
      documents (state w) !! doc_id = Some doc →
      previous_step n = Some m →
      st_status (get_step m (steps doc)) ≠ COMPLETED →
      stage_run n doc_id w (Ok false (with_event (Invoked n doc_id) w))
  | run_no_input doc m :
      documents (state w) !! doc_id = Some doc →
      previous_step n = Some m →
      st_status (get_step m (steps doc)) = COMPLETED →
      files doc !! step_key m = None →
      stage_run n doc_id w (Raise (KeyError (step_key m)) (with_event (Invoked n doc_id) w))
  | run_completed doc w1 :
      documents (state w) !! doc_id = Some doc →
      ready n doc →
      entered n doc_id w w1 →
      is_Some (fs w1 !! artifact_path n doc) →
      (is_Some (fs w !! artifact_path n doc) → w1 = with_event (Invoked n doc_id) w) →
      (fs w !! artifact_path n doc = None → n ≠ Transform) →
      stage_run n doc_id w
        (Ok true (after_update w1 doc_id (step_key n) n COMPLETED
                    (Some (artifact_path n doc)) None doc))
  | run_marked doc w1 :
      n = Transform →
      documents (state w) !! doc_id = Some doc →
      ready n doc →
      entered n doc_id w w1 →
      fs w !! artifact_path n doc = None →
      is_Some (fs w1 !! artifact_path n doc) →
      stage_run n doc_id w
        (Ok true
           (after_mark_completed
              (after_update w1 doc_id (step_key n) n COMPLETED
                 (Some (artifact_path n doc)) None doc)
              doc_id
              (updated_document doc (step_key n) n COMPLETED
                 (Some (artifact_path n doc)) None (tick w1))))
  | run_failed doc w1 msg :
      documents (state w) !! doc_id = Some doc →
      ready n doc →
      entered n doc_id w w1 →
      fs w !! artifact_path n doc = None →
      (∃ m, msg = error_prefix n +:+ m) →
      stage_run n doc_id w
        (Ok false (after_update w1 doc_id (step_key n) n FAILED None (Some msg) doc)).

(** A record as the executors leave it: the three step statuses are
    among pending, completed and failed; the overall status is the one
    that the recomputation gives; a completed step has the path of its
    artifact in the ledger. *)
Definition sound (d : Document) : Prop :=
  three_valued (steps d) ∧
  status d = recompute_status (status d) (all_steps (steps d)) ∧
  ∀ n, st_status (get_step n (steps d)) = COMPLETED → is_Some (files d !! step_key n).

Definition sound_ledger (w : World) : Prop :=
  ∀ doc_id d, documents (state w) !! doc_id = Some d → sound d.

(** An entry of the summary agrees with a record of the ledger. *)
Definition agrees (r : DocResult) (d : Document) : Prop :=
  match r with
  | ResCompleted _ => status d = COMPLETED
  | ResFailed step =>
      ∃ n, step = step_key n ∧
           st_status (get_step n (steps d)) = FAILED ∧
           status d = FAILED
  end.

(** Every entry of a summary agrees with the ledger. *)
Definition summary_agrees (results : gmap string DocResult) (w : World) : Prop :=
  ∀ doc_id r, results !! doc_id = Some r →
    ∃ d, documents (state w) !! doc_id = Some d ∧ agrees r d.

(** The list [doc_ids] of [process_all_documents_from_json]. *)
Definition descriptor_ids `{Ext : External} (docs : list DocInfo)
    : list (string * DocInfo) :=
  omap (fun doc_info => (fun i => (i, doc_info)) <$> descriptor_id doc_info) docs.

(** Every record of [w] is in [w'] under its identifier, with its
    locator, its file name, its metadata and its creation time. *)
Definition identity_kept (w w' : World) : Prop :=
  ∀ doc_id d, documents (state w) !! doc_id = Some d →
    ∃ d', documents (state w') !! doc_id = Some d' ∧
          url d' = url d ∧
          original_filename d' = original_filename d ∧
          metadata d' = metadata d ∧
          created_at d' = created_at d.

(** A manager started on the files of [w'] has the state of [w'], unless
    nothing of the state and of the state file changed from [w] to [w']. *)
Definition durable (w w' : World) : Prop :=
  restart w' = Ok tt w' ∨ (state w' = state w ∧ state_file w' = state_file w).

(** A registration whose caller gives the file name: the third argument
    of [add_document]. *)
Definition named_by_caller (r : Registration) : Prop :=
  match r with
  | ByLocator _ _ (Some _) => True
  | _ => False
  end.

(** [c not in s] for the character ['/'] *)
Fixpoint no_slash (s : string) : bool :=
  match s with
  | EmptyString => true
  | String c r => negb (Ascii.eqb c "/"%char) && no_slash r
  end.

(* ===================================================================== *)
(** ** More worlds of the examples *)
(* ===================================================================== *)

(** The record that a world holds under an identifier (a blank record
    when it holds none). *)
Definition record_of (w : World) (doc_id : string) : Document :=
  default (mkDocument "" "" empty_metadata PENDING 0 pending_steps ∅ [])
          (documents (state w) !! doc_id).

(** The world of the examples after the registration of the descriptor. *)
Definition registered_world : World :=
  final (add_document_from_json (Ext := demo_external) demo_info fresh_world).

(** The download step recorded completed by hand, without a path. *)
Definition pathless_world : World :=
  final (update_step_status "http://aip/a" "download" COMPLETED None None
           registered_world).


(** The executors that a round of [process_all_documents] has called when
    it leaves the entry [r] in the summary. *)
Definition stages_of (r : DocResult) : list StepName :=
  match r with
  | ResCompleted _ => [Download; AgenticProcess; Transform]
  | ResFailed step =>
      if String.eqb step "download" then [Download]
      else if String.eqb step "agentic_process" then [Download; AgenticProcess]
      else [Download; AgenticProcess; Transform]
  end.

(** The calls of a batch over [doc_ids] whose summary is [results]. *)
Definition calls_of (results : gmap string DocResult) (doc_ids : list string)
    : list Event :=
  doc_id ← doc_ids;
  match results !! doc_id with
  | Some r => (fun n => Invoked n doc_id) <$> stages_of r
  | None => []
  end.


Definition skip_record `{Ext : External} (n : StepName) (doc : Document) (w : World)
    : Document :=
  updated_document doc (step_key n) n COMPLETED (Some (artifact_path n doc)) None (tick w).


(** The steps of [l] that the record does not have as completed. *)
Definition left_of (doc : Document) (l : list StepName) : list StepName :=
  filter (fun n => st_status (get_step n (steps doc)) ≠ COMPLETED) l.

(* ===================================================================== *)
(** ** Facts about the state store *)
(* ===================================================================== *)

Section StoreFacts.

Context `{Ext : External}.

Lemma step_of_key_step_key n : step_of_key (step_key n) = Some n.
Proof. by destruct n. Qed.

Lemma step_of_key_inv step n : step_of_key step = Some n → step = step_key n.
Proof.
  unfold step_of_key. intros H.
  destruct (String.eqb_spec step "download"); [by simplify_eq|].
  destruct (String.eqb_spec step "agentic_process"); [by simplify_eq|].
  destruct (String.eqb_spec step "transform"); [by simplify_eq|done].
Qed.

(** [update_step_status] returns for a registered document and a step of
    the ledger, in the world [after_update]. *)
Lemma update_step_status_eq w doc_id step n st file_path error d :
  documents (state w) !! doc_id = Some d →
  step_of_key step = Some n →
  update_step_status doc_id step st file_path error w
  = Ok tt (after_update w doc_id step n st file_path error d).
Proof.
  intros Hd Hn.
  unfold update_step_status, bind, get. rewrite Hd, Hn.
  unfold after_update, updated_document, saved_world.
  destruct (truthy_opt error), (truthy_opt file_path); reflexivity.
Qed.

Lemma update_step_status_unknown w doc_id step st file_path error :
  documents (state w) !! doc_id = None →
  update_step_status doc_id step st file_path error w
  = Raise (ValueError ("Documento no encontrado: " +:+ doc_id)) w.
Proof. intros Hd. unfold update_step_status, bind, get. by rewrite Hd. Qed.

Lemma update_step_status_bad_step w doc_id step st file_path error d :
  documents (state w) !! doc_id = Some d →
  step_of_key step = None →
  update_step_status doc_id step st file_path error w = Raise (KeyError step) w.
Proof. intros Hd Hn. unfold update_step_status, bind, get. by rewrite Hd, Hn. Qed.

End StoreFacts.

(* ===================================================================== *)
(** ** Status derivation *)
(* ===================================================================== *)

Section Derivation.

Context `{Ext : External}.

(** The recomputation on three statuses taken among pending, completed and
    failed. *)
Lemma recompute_status_three_valued cur a b c :
  Forall (fun x => x ∈ [PENDING; COMPLETED; FAILED]) [a; b; c] →
  let r := recompute_status cur [a; b; c] in
  (r = COMPLETED ↔ Forall (fun x => x = COMPLETED) [a; b; c]) ∧
  (r = FAILED ↔ Exists (fun x => x = FAILED) [a; b; c]) ∧
  r ∈ [COMPLETED; FAILED; PENDING] .
Proof.
  intros H3.
  assert (Hin : ∀ x, x ∈ [PENDING; COMPLETED; FAILED] →
                x = PENDING ∨ x = COMPLETED ∨ x = FAILED).
  { intros x Hx. rewrite !elem_of_cons, elem_of_nil in Hx. tauto. }
  apply Forall_cons in H3 as [Ha H3]. apply Forall_cons in H3 as [Hb H3].
  apply Forall_cons in H3 as [Hc _].
  apply Hin in Ha, Hb, Hc.
  destruct Ha as [-> | [-> | ->]], Hb as [-> | [-> | ->]], Hc as [-> | [-> | ->]];
    cbv zeta; compute_done.
Qed.

Lemma recompute_status_failed cur l :
  Exists (fun x => x = FAILED) l → recompute_status cur l = FAILED.
Proof.
  intros He. unfold recompute_status.
  destruct (forallb _ l) eqn:Hall.
  - exfalso. rewrite forallb_forall in Hall.
    apply Exists_exists in He as (x & Hx & ->).
    apply list_elem_of_In, Hall in Hx. by apply bool_decide_eq_true in Hx.
  - assert (existsb (λ s, bool_decide (s = FAILED)) l = true) as ->; [|done].
    apply existsb_exists. apply Exists_exists in He as (x & Hx & ->).
    exists FAILED. split; [by apply list_elem_of_In|done].
Qed.

Lemma recompute_status_completed cur l :
  Forall (fun x => x = COMPLETED) l → recompute_status cur l = COMPLETED.
Proof.
  intros Ha. unfold recompute_status.
  assert (forallb (λ s, bool_decide (s = COMPLETED)) l = true) as ->; [|done].
  apply forallb_forall. intros x Hx%list_elem_of_In.
  rewrite Forall_forall in Ha. apply bool_decide_eq_true. by apply Ha.
Qed.

(** A status outside the three leaves the overall status as it was, unless
    some step has failed. *)
Lemma recompute_status_stale cur l :
  ¬ Forall (fun x => x ∈ [PENDING; COMPLETED; FAILED]) l →
  ¬ Exists (fun x => x = FAILED) l →
  recompute_status cur l = cur.
Proof.
  intros H3 HF. unfold recompute_status.
  destruct (forallb (λ s, bool_decide (s = COMPLETED)) l) eqn:Hall.
  { exfalso. apply H3. apply Forall_forall. intros x Hx.
    rewrite forallb_forall in Hall. apply list_elem_of_In, Hall in Hx.
    apply bool_decide_eq_true in Hx. subst. rewrite !elem_of_cons. tauto. }
  destruct (existsb _ l) eqn:Hex.
  { exfalso. apply HF. apply existsb_exists in Hex as (x & Hx & Hb).
    apply Exists_exists. exists x. split; [by apply list_elem_of_In|].
    by apply bool_decide_eq_true in Hb. }
  destruct (forallb (λ s, bool_decide (s ∈ [PENDING; COMPLETED])) l) eqn:Hpc; [|done].
  exfalso. apply H3. apply Forall_forall. intros x Hx.
  rewrite forallb_forall in Hpc. apply list_elem_of_In, Hpc in Hx.
  apply bool_decide_eq_true in Hx. rewrite !elem_of_cons in *. tauto.
Qed.

Lemma all_steps_three s :
  all_steps s = [st_status (download s); st_status (agentic_process s);
                 st_status (transform s)].
Proof. reflexivity. Qed.

(** C1 (amended): after [update_step_status] on a registered document,
    when the three step statuses all lie among pending, completed and
    failed, the overall status is completed iff all three steps are
    completed, failed iff some step is failed, and pending otherwise
    (never downloaded).  Whatever the statuses, a failed step gives failed
    and three completed steps give completed; when some step carries
    another status and none is failed, the overall status is left as it
    was before the call. *)
Theorem update_step_status_derivation w doc_id step st file_path error d :
  documents (state w) !! doc_id = Some d →
  is_Some (step_of_key step) →
  ∃ w' d',
    update_step_status doc_id step st file_path error w = Ok tt w' ∧
    documents (state w') !! doc_id = Some d' ∧
    (three_valued (steps d') → derivation_rule d' ∧ status d' ≠ DOWNLOADED) ∧
    (Exists (fun x => x = FAILED) (all_steps (steps d')) → status d' = FAILED) ∧
    (Forall (fun x => x = COMPLETED) (all_steps (steps d')) → status d' = COMPLETED) ∧
    (¬ three_valued (steps d') →
     ¬ Exists (fun x => x = FAILED) (all_steps (steps d')) →
     status d' = status d).
Proof.
  intros Hd [n Hn].
  eexists _, _. split; [by apply update_step_status_eq|].
  split; [apply lookup_insert_eq|]. simpl.
  set (s1 := set_step n _ (steps d)).
  split_and!.
  - intros H3. unfold derivation_rule. simpl. fold s1.
    rewrite all_steps_three in *.
    destruct (recompute_status_three_valued (status d) _ _ _ H3) as (H1 & H2 & H4).
    split_and!; [done|done| |].
    + revert H4. rewrite !elem_of_cons, !elem_of_nil. tauto.
    + intros Heq. rewrite Heq in H4. revert H4.
      rewrite !elem_of_cons, !elem_of_nil. intros [?|[?|[?|[]]]]; discriminate.
  - apply recompute_status_failed.
  - apply recompute_status_completed.
  - apply recompute_status_stale.
Qed.

End Derivation.

(** The rule holds on a fresh record whose download is recorded as
    completed. *)
Lemma update_step_status_derivation_witness :
  ∃ w' d',
    update_step_status "a" "download" COMPLETED (Some "work/pdfs/a.pdf") None
      (final (add_document (Ext := demo_external) "a" None None fresh_world)) = Ok tt w' ∧
    documents (state w') !! "a" = Some d' ∧
    derivation_rule d' ∧ status d' = PENDING.
Proof.
  destruct (update_step_status_derivation
              (final (add_document (Ext := demo_external) "a" None None fresh_world))
              "a" "download" COMPLETED (Some "work/pdfs/a.pdf") None
              (mkDocument "a" "a.pdf" empty_metadata PENDING 1 pending_steps ∅ []))
    as (w' & d' & Hr & Hl & H3 & _).
  - vm_compute. reflexivity.
  - vm_compute. eauto.
  - exists w', d'. split; [exact Hr|]. split; [exact Hl|].
    assert (Some d' = Some (mkDocument "a" "a.pdf" empty_metadata PENDING 1
              (mkSteps (mkStepEntry COMPLETED (Some 3)) (mkStepEntry PENDING None)
                       (mkStepEntry PENDING None))
              {["download" := "work/pdfs/a.pdf"]} [])) as Hd'.
    { rewrite <- Hl.
      assert (Ok tt w' = Ok tt (after_update
                (final (add_document (Ext := demo_external) "a" None None fresh_world))
                "a" "download" Download COMPLETED (Some "work/pdfs/a.pdf") None
                (mkDocument "a" "a.pdf" empty_metadata PENDING 1 pending_steps ∅ []))) as Hw.
      { rewrite <- Hr. apply update_step_status_eq; vm_compute; reflexivity. }
      injection Hw as ->. vm_compute. reflexivity. }
    injection Hd' as ->.
    split; [apply H3; unfold three_valued; simpl; repeat constructor|reflexivity].
Defined.

(** C1 (as stated) fails: after a failed download, recording the status
    [DOWNLOADED] for the same step leaves the overall status at failed
    although no step is failed any more. *)
Lemma update_step_status_stale_failed :
  ∃ w1 w2 d2,
    update_step_status "a" "download" FAILED None (Some "timeout")
      (final (add_document (Ext := demo_external) "a" None None fresh_world)) = Ok tt w1 ∧
    update_step_status "a" "download" DOWNLOADED None None w1 = Ok tt w2 ∧
    documents (state w2) !! "a" = Some d2 ∧
    all_steps (steps d2) = [DOWNLOADED; PENDING; PENDING] ∧
    status d2 = FAILED ∧
    ¬ derivation_rule d2.
Proof.
  eexists _, _, _. split; [vm_compute; reflexivity|].
  split; [vm_compute; reflexivity|].
  split; [vm_compute; reflexivity|].
  split; [reflexivity|]. split; [reflexivity|].
  intros (_ & [H _] & _). specialize (H eq_refl).
  apply Exists_cons in H as [?|H]; [done|].
  apply Exists_cons in H as [?|H]; [done|].
  apply Exists_cons in H as [?|H]; [done|].
  by apply Exists_nil in H.
Qed.

(* ===================================================================== *)
(** ** Registration and persistence *)
(* ===================================================================== *)

Section Registry.

Context `{Ext : External}.

Lemma _get_filename_from_url_pure u w :
  ∃ f, _get_filename_from_url u w = Ok f w.
Proof.
  unfold _get_filename_from_url.
  destruct (negb (PyStr.truthy _)); [by eexists|].
  destruct (negb (PyStr.endswith _ _)); by eexists.
Qed.

(** The record that [add_document] creates. *)
Lemma add_document_eq u doc_id filename w :
  let i := default (_get_document_id u) doc_id in
  ∃ f,
    add_document u doc_id filename w =
    match documents (state w) !! i with
    | Some _ => Ok i w
    | None =>
        Ok i (saved_world w
                (<[i := mkDocument u f empty_metadata PENDING (tick w) pending_steps ∅ []]>
                   (documents (state w)))
                (S (tick w)))
    end.
Proof.
  intros i. unfold add_document. fold i.
  assert (∃ f, (match filename with
                | Some f => ret f
                | None => _get_filename_from_url u
                end) w = Ok f w) as [f Hf].
  { destruct filename; [by eexists|]. apply _get_filename_from_url_pure. }
  exists f. unfold bind at 1. rewrite Hf.
  unfold bind, get. destruct (documents (state w) !! i); reflexivity.
Qed.


(** The result of [add_document_from_json] on a descriptor with a locator
    and a name. *)
Lemma add_document_from_json_eq doc_info u name w :
  truthy_opt (di_source doc_info) = Some u →
  truthy_opt (di_name doc_info) = Some name →
  let i := _get_document_id u in
  ∃ d,
    url d = u ∧
    add_document_from_json doc_info w =
    match documents (state w) !! i with
    | Some _ => Ok (Some i) w
    | None => Ok (Some i) (saved_world w (<[i := d]> (documents (state w))) (S (tick w)))
    end.
Proof.
  intros Hu Hn i. unfold add_document_from_json. rewrite Hu, Hn. fold i.
  unfold bind, get. eexists (mkDocument u _ _ PENDING (tick w) pending_steps ∅ []).
  split; [reflexivity|].
  destruct (documents (state w) !! i); reflexivity.
Qed.

Lemma add_document_from_json_refused doc_info w :
  truthy_opt (di_source doc_info) = None ∨ truthy_opt (di_name doc_info) = None →
  add_document_from_json doc_info w = Ok None w.
Proof.
  unfold add_document_from_json. intros [->| ->]; [done|].
  by destruct (truthy_opt (di_source doc_info)).
Qed.

Lemma saved_world_saved w docs t : saved w (saved_world w docs t).
Proof. by left. Qed.

Lemma saved_refl w : saved w w.
Proof. by right. Qed.

(** C2: each of [add_document], [add_document_from_json] and
    [update_step_status] returns in a world whose state file holds the
    whole state of that world, unless the call changed nothing of the
    state; the two registrations always return, a step update returns (and
    has written the state file) for every registered document and step of
    the ledger, and raises without any change otherwise. *)
Theorem mutations_are_saved w :
  (∀ u doc_id filename, ∃ i w',
      add_document u doc_id filename w = Ok i w' ∧ saved w w') ∧
  (∀ doc_info, ∃ r w',
      add_document_from_json doc_info w = Ok r w' ∧ saved w w') ∧
  (∀ doc_id step st file_path error,
      saved w (final (update_step_status doc_id step st file_path error w)) ∧
      (is_Some (documents (state w) !! doc_id) → is_Some (step_of_key step) →
       ∃ w', update_step_status doc_id step st file_path error w = Ok tt w' ∧
             state_file w' = Some (state w'))).
Proof.
  split_and!.
  - intros u doc_id filename.
    destruct (add_document_eq u doc_id filename w) as [f ->].
    destruct (documents (state w) !! _); eexists _, _;
      (split; [reflexivity|]); [apply saved_refl|apply saved_world_saved].
  - intros doc_info.
    destruct (truthy_opt (di_source doc_info)) as [u|] eqn:Hu; last first.
    { rewrite add_document_from_json_refused by auto.
      eexists _, _. split; [reflexivity|apply saved_refl]. }
    destruct (truthy_opt (di_name doc_info)) as [name|] eqn:Hn; last first.
    { rewrite add_document_from_json_refused by auto.
      eexists _, _. split; [reflexivity|apply saved_refl]. }
    destruct (add_document_from_json_eq doc_info u name w Hu Hn) as (d & _ & ->).
    destruct (documents (state w) !! _); eexists _, _;
      (split; [reflexivity|]); [apply saved_refl|apply saved_world_saved].
  - intros doc_id step st file_path error.
    destruct (documents (state w) !! doc_id) as [d|] eqn:Hd; last first.
    { rewrite update_step_status_unknown by done.
      split; [apply saved_refl|]. by intros [? ?]. }
    destruct (step_of_key step) as [n|] eqn:Hn; last first.
    { rewrite (update_step_status_bad_step _ _ _ _ _ _ d) by done.
      split; [apply saved_refl|]. by intros _ [? ?]. }
    rewrite (update_step_status_eq _ _ _ n _ _ _ d) by done.
    split; [apply saved_world_saved|].
    intros _ _. eexists. split; reflexivity.
Qed.


End Registry.

(** The default file name of [download_pdf] is computed and dropped. *)
Ltac drop_default_filename :=
  unfold bind at 1;
  match goal with
  | |- context [_get_filename_from_url ?u ?w0] =>
      destruct (_get_filename_from_url_pure u w0) as [? ->]
  end.



(* ===================================================================== *)
(** ** The extraction stage *)
(* ===================================================================== *)

Section Extraction.

Context `{Ext : External}.

Lemma _get_output_dirs_eq doc_id doc w :
  documents (state w) !! doc_id = Some doc →
  _get_output_dirs doc_id w = Ok (output_dirs doc) w.
Proof.
  intros Hd. unfold _get_output_dirs, get_document_status, bind, get, ret.
  by rewrite Hd.
Qed.

(** The paths of the artifacts are not empty. *)
Lemma path_join_truthy a b : PyStr.truthy (PyStr.path_join a b) = true.
Proof. unfold PyStr.path_join. by destruct a. Qed.

Lemma grounding_list_lookup gs k g :
  gs !! k = Some g →
  ∃ l, grounding_list gs = Some l ∧ l !! k = Some (grounding_data g).
Proof.
  intros Hk. destruct gs as [|g0 gs]; [done|].
  eexists. split; [reflexivity|].
  change (map grounding_data (g0 :: gs)) with (grounding_data <$> (g0 :: gs)).
  by rewrite list_lookup_fmap, Hk.
Qed.

(** A page [p] of the service is written as [p + 1]. *)
Lemma written_page_grounding_list gs k g p :
  gs !! k = Some g → g_page g = Some p →
  written_page (grounding_list gs) k = Some (p + 1)%Z.
Proof.
  intros Hk Hp. destruct (grounding_list_lookup gs k g Hk) as (l & -> & Hl).
  unfold written_page. simpl. rewrite Hl. simpl. by rewrite Hp.
Qed.

(** The loop over the chunks extends both accumulators; each chunk lands
    in one of them, under its index in the whole list. *)
Lemma split_chunks_acc cs : ∀ i ac af,
  ∃ l1 l2,
    split_chunks i cs ac af = ((ac ++ l1)%list, (af ++ l2)%list) ∧
    ∀ k c, cs !! k = Some c →
      if is_figure c then c ∈ l2 else chunk_data (i + k) c ∈ l1.
Proof.
  induction cs as [|c0 cs IH]; intros i ac af; simpl.
  - exists [], []. rewrite !app_nil_r. split; [done|]. intros k c Hk. done.
  - destruct (is_figure c0) eqn:Hf.
    + destruct (IH (S i) ac (af ++ [c0])%list) as (l1 & l2 & -> & Hl).
      exists l1, (c0 :: l2). rewrite <- app_assoc. split; [done|].
      intros [|k] c Hk; simpl in Hk.
      * injection Hk as <-. rewrite Hf. apply elem_of_cons. by left.
      * specialize (Hl k c Hk). replace (i + S k) with (S i + k) by lia.
        destruct (is_figure c); [apply elem_of_cons; by right|done].
    + destruct (IH (S i) (ac ++ [chunk_data i c0])%list af) as (l1 & l2 & -> & Hl).
      exists (chunk_data i c0 :: l1), l2. rewrite <- app_assoc. split; [done|].
      intros [|k] c Hk; simpl in Hk.
      * injection Hk as <-. rewrite Hf. rewrite Nat.add_0_r.
        apply elem_of_cons. by left.
      * specialize (Hl k c Hk). replace (i + S k) with (S i + k) by lia.
        destruct (is_figure c); [done|apply elem_of_cons; by right].
Qed.

Lemma figures_list_acc fs : ∀ i acc,
  ∃ l,
    figures_list i fs acc = (acc ++ l)%list ∧
    ∀ c, c ∈ fs → ∃ j, figure_data j c ∈ l.
Proof.
  induction fs as [|f fs IH]; intros i acc; simpl.
  - exists []. rewrite app_nil_r. split; [done|]. intros c Hc.
    by apply elem_of_nil in Hc.
  - destruct (IH (S i) (acc ++ [figure_data i f])%list) as (l & -> & Hl).
    exists (figure_data i f :: l). rewrite <- app_assoc. split; [done|].
    intros c [->|Hc]%elem_of_cons.
    + exists i. apply elem_of_cons. by left.
    + destruct (Hl c Hc) as [j Hj]. exists j. apply elem_of_cons. by right.
Qed.

(** Every grounded unit of the first parsed document is in the artifact,
    with its page shifted by one. *)
Lemma build_agentic_output_pages doc_id doc pdf_path r rest t i c k g p :
  pd_chunks r !! i = Some c →
  chunk_grounding c !! k = Some g →
  g_page g = Some p →
  let a := build_agentic_output doc_id doc pdf_path (r :: rest) t in
  if is_figure c then
    ∃ fd, fd ∈ ad_figures (ao_document a) ∧
          fd_text fd = default "" (chunk_text c) ∧
          fd_type fd = chunk_type c ∧
          written_page (fd_grounding fd) k = Some (p + 1)%Z
  else
    ∃ cd, cd ∈ ad_chunks (ao_document a) ∧
          cd_id cd = "chunk_" +:+ PyStr.of_nat i ∧
          cd_content cd = default (chunk_repr c) (chunk_text c) ∧
          written_page (cd_grounding cd) k = Some (p + 1)%Z.
Proof.
  intros Hi Hk Hp a. subst a. unfold build_agentic_output.
  destruct (split_chunks_acc (pd_chunks r) 0 [] []) as (l1 & l2 & Hs & Hl).
  rewrite Hs. simpl. specialize (Hl i c Hi).
  destruct (is_figure c).
  - destruct (figures_list_acc l2 0 []) as (l & -> & Hfl). simpl.
    destruct (Hfl c Hl) as [j Hj].
    exists (figure_data j c). split; [done|]. split; [done|]. split; [done|].
    simpl. by eapply written_page_grounding_list.
  - exists (chunk_data i c). split; [done|]. split; [done|]. split; [done|].
    simpl. by eapply written_page_grounding_list.
Qed.

(** The run of [process_with_agentic_doc] that calls the service and
    writes its output. *)
Lemma process_with_agentic_doc_run doc_id doc pdf_path result w :
  documents (state w) !! doc_id = Some doc →
  st_status (download (steps doc)) = COMPLETED →
  files doc !! "download" = Some pdf_path →
  fs w !! output_json_path_of doc = None →
  parse (tick w) pdf_path = Parsed result →
  write_outcome (S (S (tick w))) (output_json_path_of doc) = WriteDone →
  let a := build_agentic_output doc_id doc pdf_path result (S (tick w)) in
  process_with_agentic_doc doc_id w =
  Ok true
    (after_update
       (with_file (output_json_path_of doc) (AgenticFile a)
          (with_tick (S (S (S (tick w))))
             (with_event (Invoked AgenticProcess doc_id) w)))
       doc_id "agentic_process" AgenticProcess COMPLETED
       (Some (output_json_path_of doc)) None doc).
Proof.
  intros Hd Hst Hf Hfs Hp Hw a.
  unfold process_with_agentic_doc.
  unfold bind at 1. unfold record_event.
  unfold bind at 1. unfold get_document_status at 1, bind at 1, get, ret.
  simpl. rewrite Hd, Hst.
  rewrite bool_decide_eq_false_2 by (by intros ?).
  unfold bind at 1. unfold files_item. rewrite Hf. unfold ret at 1.
  unfold bind at 1. rewrite (_get_output_dirs_eq doc_id doc) by done.
  fold (output_json_path_of doc).
  unfold bind at 1. unfold path_exists. simpl. rewrite Hfs.
  rewrite bool_decide_eq_false_2 by (by intros [? ?]).
  unfold try_except, bind at 1, external_call, now. simpl. rewrite Hp.
  unfold bind at 1. simpl.
  unfold bind at 1. unfold write_file, bind at 1, external_call, now. simpl.
  unfold bind at 1, get. rewrite Hw. unfold set_fs.
  unfold bind at 1.
  erewrite update_step_status_eq; [|simpl; exact Hd|reflexivity].
  reflexivity.
Qed.

End Extraction.

Section ExtractionPages.

Context `{Ext : External}.

(** C8: when [process_with_agentic_doc] calls the extraction service and
    writes its output, every unit of the parsed document that carries a
    grounding with the 0-indexed page [p] is in the artifact at the output
    path, among the figures or among the chunks according to its type,
    and the grounding at the same position carries the page [p + 1]. *)
Theorem extract_pages_one_indexed doc_id doc pdf_path r rest w i c k g p :
  documents (state w) !! doc_id = Some doc →
  st_status (download (steps doc)) = COMPLETED →
  files doc !! "download" = Some pdf_path →
  fs w !! output_json_path_of doc = None →
  parse (tick w) pdf_path = Parsed (r :: rest) →
  write_outcome (S (S (tick w))) (output_json_path_of doc) = WriteDone →
  pd_chunks r !! i = Some c →
  chunk_grounding c !! k = Some g →
  g_page g = Some p →
  ∃ w' a,
    process_with_agentic_doc doc_id w = Ok true w' ∧
    fs w' !! output_json_path_of doc = Some (AgenticFile a) ∧
    if is_figure c then
      ∃ fd, fd ∈ ad_figures (ao_document a) ∧
            fd_text fd = default "" (chunk_text c) ∧
            fd_type fd = chunk_type c ∧
            written_page (fd_grounding fd) k = Some (p + 1)%Z
    else
      ∃ cd, cd ∈ ad_chunks (ao_document a) ∧
            cd_id cd = "chunk_" +:+ PyStr.of_nat i ∧
            cd_content cd = default (chunk_repr c) (chunk_text c) ∧
            written_page (cd_grounding cd) k = Some (p + 1)%Z.
Proof.
  intros Hd Hst Hf Hfs Hp Hw Hi Hk Hpg.
  eexists _, _. split; [by eapply process_with_agentic_doc_run|].
  split; [simpl; apply lookup_insert_eq|].
  by eapply build_agentic_output_pages.
Qed.

End ExtractionPages.

(** The first chunk of the examples has page 0 at the service and page 1
    in the artifact. *)
Lemma extract_pages_one_indexed_witness :
  ∃ w' a cd,
    process_with_agentic_doc (Ext := demo_external) "http://aip/a"
      (final (download_pdf (Ext := demo_external) "http://aip/a"
         (final (add_document_from_json (Ext := demo_external) demo_info fresh_world))))
      = Ok true w' ∧
    fs w' !! "work/_AIPs/argentina/agentic_outputs/AD2.json" = Some (AgenticFile a) ∧
    cd ∈ ad_chunks (ao_document a) ∧
    cd_id cd = "chunk_0" ∧
    written_page (cd_grounding cd) 0 = Some 1%Z.
Proof.
  edestruct (extract_pages_one_indexed (Ext := demo_external) "http://aip/a"
               (mkDocument "http://aip/ad2.pdf" "AD2.pdf"
                  (mkMetadata (Some "AIP") (Some "public") (Some ["english"; "spanish"])
                     (Some "argentina") (Some "unknown") (Some "GEN")
                     (Some "_AIPs/argentina"))
                  PENDING 1
                  (mkSteps (mkStepEntry COMPLETED (Some 5)) (mkStepEntry PENDING None)
                     (mkStepEntry PENDING None))
                  {["download" := "work/_AIPs/argentina/pdfs/AD2.pdf"]} [])
               "work/_AIPs/argentina/pdfs/AD2.pdf"
               (mkParsedDocument (Some "# AD 2") demo_chunks) []
               (final (download_pdf (Ext := demo_external) "http://aip/a"
                  (final (add_document_from_json (Ext := demo_external) demo_info fresh_world))))
               0 (mkChunk "ChunkType.text" (Some "Runway 09/27") "chunk"
                    [mkGrounding (Some 0%Z) None])
               0 (mkGrounding (Some 0%Z) None) 0%Z)
    as (w' & a & Hrun & Hfs & cd & Hin & Hid & _ & Hpage);
    try (vm_compute; reflexivity).
  exists w', a, cd. split; [exact Hrun|].
  split; [exact Hfs|]. split; [exact Hin|]. split; [exact Hid|exact Hpage].
Defined.

(* ===================================================================== *)
(** ** Grouping by page *)
(* ===================================================================== *)

Section Grouping.

Context {A : Type} (grounding : A → option (list GroundingData)).

Lemma append_at_lookup (d : gmap Z (list A)) q x p :
  default [] (append_at d q x !! p) =
  if decide (q = p) then (default [] (d !! p) ++ [x])%list else default [] (d !! p).
Proof.
  unfold append_at. destruct (decide (q = p)) as [->|Hne].
  - by rewrite lookup_insert_eq.
  - by rewrite lookup_insert_ne.
Qed.

Lemma append_at_dom (d : gmap Z (list A)) q x :
  dom (append_at d q x) = {[q]} ∪ dom d.
Proof. unfold append_at. apply dom_insert_L. Qed.

(** The inner loop, over the groundings of one item. *)
Lemma file_item_lookup (gs : list GroundingData) (item : A) p : ∀ d : gmap Z (list A),
  default [] (fold_left (λ d ground, append_at d (default 1%Z (gd_page ground)) item) gs d !! p) =
  (default [] (d !! p) ++
   ((λ _, item) <$> filter (λ q, q = p) (map (λ ground, default 1%Z (gd_page ground)) gs)))%list.
Proof.
  induction gs as [|g gs IH]; intros d; simpl.
  - by rewrite app_nil_r.
  - rewrite IH, append_at_lookup. rewrite filter_cons.
    destruct (decide (default 1%Z (gd_page g) = p)); simpl.
    + by rewrite <- app_assoc.
    + done.
Qed.

Lemma file_item_dom (gs : list GroundingData) (item : A) : ∀ d : gmap Z (list A),
  dom (fold_left (λ d ground, append_at d (default 1%Z (gd_page ground)) item) gs d) =
  list_to_set (map (λ ground, default 1%Z (gd_page ground)) gs) ∪ dom d.
Proof.
  induction gs as [|g gs IH]; intros d; simpl.
  - set_solver.
  - rewrite IH, append_at_dom. set_solver.
Qed.

Lemma file_item_step_lookup d item p :
  default [] (file_item grounding d item !! p) =
  (default [] (d !! p) ++ copies_on grounding p item)%list.
Proof.
  unfold file_item, copies_on, item_pages.
  destruct (default [] (grounding item)) as [|g gs] eqn:Hg.
  - rewrite append_at_lookup. rewrite filter_cons, filter_nil.
    destruct (decide (1%Z = p)); simpl; [done|by rewrite app_nil_r].
  - apply file_item_lookup.
Qed.

Lemma file_item_step_dom d item :
  dom (file_item grounding d item) = list_to_set (item_pages (grounding item)) ∪ dom d.
Proof.
  unfold file_item, item_pages.
  destruct (default [] (grounding item)) as [|g gs] eqn:Hg.
  - rewrite append_at_dom. set_solver.
  - apply file_item_dom.
Qed.

Lemma group_by_page_fold items :
  group_by_page grounding items = fold_left (file_item grounding) items ∅.
Proof. reflexivity. Qed.

Lemma fold_file_item_lookup items p : ∀ d,
  default [] (fold_left (file_item grounding) items d !! p) =
  (default [] (d !! p) ++ (items ≫= copies_on grounding p))%list.
Proof.
  induction items as [|x items IH]; intros d; simpl.
  - by rewrite app_nil_r.
  - rewrite IH, file_item_step_lookup. by rewrite <- app_assoc.
Qed.

Lemma fold_file_item_dom items : ∀ d,
  dom (fold_left (file_item grounding) items d) =
  list_to_set (items ≫= (λ x, item_pages (grounding x))) ∪ dom d.
Proof.
  induction items as [|x items IH]; intros d; simpl.
  - set_solver.
  - rewrite IH, file_item_step_dom. set_solver.
Qed.

(** The list filed under a page: the copies of the items, in order. *)
Lemma group_by_page_lookup items p :
  default [] (group_by_page grounding items !! p) = items ≫= copies_on grounding p.
Proof. rewrite group_by_page_fold, fold_file_item_lookup. by rewrite lookup_empty. Qed.

(** The keys of the dictionary: the pages of the items. *)
Lemma group_by_page_dom items p :
  p ∈ dom (group_by_page grounding items) ↔
  ∃ x, x ∈ items ∧ p ∈ item_pages (grounding x).
Proof.
  rewrite group_by_page_fold, fold_file_item_dom, dom_empty_L.
  rewrite elem_of_union, elem_of_list_to_set, list_elem_of_bind.
  split.
  - intros [(x & Hp & Hx)|Hp]; [eauto|by apply elem_of_empty in Hp].
  - intros (x & Hx & Hp). left. eauto.
Qed.

Lemma item_pages_nonempty g : item_pages g ≠ [].
Proof. unfold item_pages. by destruct (default [] g). Qed.

Lemma group_by_page_empty items :
  group_by_page grounding items = ∅ ↔ items = [].
Proof.
  split; [|by intros ->].
  intros He. destruct items as [|x items]; [done|]. exfalso.
  destruct (item_pages (grounding x)) as [|p ps] eqn:Hp.
  { by apply item_pages_nonempty in Hp. }
  assert (p ∈ dom (group_by_page grounding (x :: items))) as Hin.
  { apply group_by_page_dom. exists x. split; [apply elem_of_cons; by left|].
    rewrite Hp. apply elem_of_cons. by left. }
  rewrite He, dom_empty_L in Hin. by apply elem_of_empty in Hin.
Qed.

End Grouping.

Lemma foldr_max_in k ks : foldr Z.max k ks ∈ k :: ks.
Proof.
  induction ks as [|x ks IH]; simpl.
  - apply elem_of_cons. by left.
  - destruct (Z.max_spec x (foldr Z.max k ks)) as [[_ ->]|[_ ->]].
    + apply elem_of_cons in IH as [IH|IH].
      * rewrite IH. apply elem_of_cons. by left.
      * apply elem_of_cons. right. apply elem_of_cons. by right.
    + apply elem_of_cons. right. apply elem_of_cons. by left.
Qed.

Lemma foldr_max_ge k ks x : x ∈ k :: ks → (x ≤ foldr Z.max k ks)%Z.
Proof.
  induction ks as [|y ks IH]; simpl.
  - intros [->|H]%elem_of_cons; [lia|by apply elem_of_nil in H].
  - intros [->|[->|H]%elem_of_cons]%elem_of_cons.
    + assert (k ≤ foldr Z.max k ks)%Z by (apply IH, elem_of_cons; by left). lia.
    + lia.
    + assert (x ≤ foldr Z.max k ks)%Z by (apply IH, elem_of_cons; by right). lia.
Qed.

(** [total_pages] is 1 for an empty dictionary and the greatest key
    otherwise. *)
Lemma total_pages_of_empty {A} : total_pages_of (∅ : gmap Z (list A)) = 1%Z.
Proof. unfold total_pages_of. by rewrite map_to_list_empty. Qed.

Lemma total_pages_of_max {A} (d : gmap Z (list A)) :
  d ≠ ∅ →
  total_pages_of d ∈ dom d ∧ ∀ k, k ∈ dom d → (k ≤ total_pages_of d)%Z.
Proof.
  intros Hne. unfold total_pages_of.
  assert (Hkeys : ∀ k, k ∈ (map_to_list d).*1 ↔ k ∈ dom d).
  { intros k. rewrite elem_of_dom. split.
    - intros ((k' & v) & -> & Hin)%list_elem_of_fmap.
      apply elem_of_map_to_list in Hin. simpl. eauto.
    - intros [v Hv]. apply list_elem_of_fmap. exists (k, v).
      split; [done|]. by apply elem_of_map_to_list. }
  destruct ((map_to_list d).*1) as [|k ks] eqn:Hl.
  { exfalso. apply Hne. apply map_to_list_empty_iff.
    by apply fmap_nil_inv in Hl. }
  split.
  - apply Hkeys, foldr_max_in.
  - intros x Hx. apply foldr_max_ge. by apply Hkeys.
Qed.

(* ===================================================================== *)
(** ** The structuring calls *)
(* ===================================================================== *)

Section StructuringFacts.

Context `{Ext : External}.

Lemma with_tick_id w : with_tick (tick w) w = w.
Proof. by destruct w. Qed.

(** The [try] block never raises: it returns the outcome of the call made
    at the current clock. *)
Lemma chat_json_eq prompt max_tokens fallback w :
  chat_json prompt max_tokens fallback w =
  Ok (chat_outcome (tick w) prompt max_tokens fallback) (with_tick (S (tick w)) w).
Proof.
  unfold chat_json, chat_outcome, try_except, bind, external_call, now. simpl.
  destruct (chat_complete (tick w) prompt max_tokens) as [c|msg]; [|done].
  by destruct (json_loads c).
Qed.

(** [_mistral_structure_page]: no call for a blank text, else the outcome
    of the call made at the current clock. *)
Lemma _mistral_structure_page_eq doc_name page_text doc_metadata source_url w :
  _mistral_structure_page doc_name page_text doc_metadata source_url w =
  Ok (if PyStr.blank page_text then empty_page_record doc_name doc_metadata
      else chat_outcome (tick w) (ocr_prompt "pages" page_text) 4000
             (page_fallback doc_name page_text doc_metadata))
     (with_tick (if PyStr.blank page_text then tick w else S (tick w)) w).
Proof.
  unfold _mistral_structure_page.
  destruct (PyStr.blank page_text).
  - by rewrite with_tick_id.
  - by rewrite chat_json_eq.
Qed.

(** The loop over the figures of a page. *)
Lemma structure_figures_eq page_num doc_metadata page_figures :
  ∀ i structured_images w,
    structure_figures i page_figures page_num doc_metadata structured_images w =
    Ok (structured_images ++ figure_records page_num doc_metadata (tick w) i page_figures)%list
       (with_tick (tick w + figure_calls page_figures) w).
Proof.
  induction page_figures as [|fig r IH]; intros i acc w; simpl.
  - unfold figure_calls. simpl. by rewrite app_nil_r, Nat.add_0_r, with_tick_id.
  - unfold bind at 1. unfold _mistral_structure_image. unfold figure_calls.
    rewrite fmap_cons. cbn [sum_list sum_list_with].
    destruct (PyStr.blank (fd_text fig)) eqn:Hb.
    + unfold ret at 1. simpl. rewrite IH. done.
    + unfold bind at 1. rewrite chat_json_eq. unfold ret at 1.
      rewrite IH. simpl.
      set (j := chat_outcome (tick w) _ _ _).
      f_equal.
      * destruct (json_truthy j); simpl; [by rewrite <- app_assoc|done].
      * unfold with_tick. simpl. f_equal. unfold figure_calls. lia.
Qed.

(** The body of the loop over the pages. *)
Lemma structure_page_eq doc agentic_json page_num w :
  structure_page (PyStr.rsplit_dot_head (original_filename doc)) (metadata doc)
    (default "unknown" (aj_source_url agentic_json))
    (group_by_page cd_grounding (aj_chunks agentic_json))
    (group_by_page fd_grounding (aj_figures agentic_json)) page_num w
  = Ok (page_at doc agentic_json (tick w) page_num)
       (with_tick (tick w + page_calls agentic_json page_num) w).
Proof.
  unfold structure_page. rewrite !group_by_page_lookup.
  fold (page_text_of agentic_json page_num). fold (page_figures_of agentic_json page_num).
  unfold bind at 1. rewrite _mistral_structure_page_eq.
  unfold bind at 1. rewrite structure_figures_eq.
  unfold ret, page_at, page_calls. simpl.
  destruct (PyStr.blank (page_text_of agentic_json page_num)); simpl; [done|].
  unfold with_tick. simpl. do 2 f_equal. lia.
Qed.

(** The loop over the pages. *)
Lemma structure_pages_eq doc agentic_json pages : ∀ w,
  map_m (structure_page (PyStr.rsplit_dot_head (original_filename doc)) (metadata doc)
           (default "unknown" (aj_source_url agentic_json))
           (group_by_page cd_grounding (aj_chunks agentic_json))
           (group_by_page fd_grounding (aj_figures agentic_json))) pages w
  = Ok (pages_from doc agentic_json (tick w) pages)
       (with_tick (tick w + sum_list (page_calls agentic_json <$> pages)) w).
Proof.
  induction pages as [|p pages IH]; intros w; simpl.
  - by rewrite Nat.add_0_r, with_tick_id.
  - unfold bind at 1. rewrite structure_page_eq.
    unfold bind at 1. rewrite IH. unfold ret. simpl.
    unfold with_tick. simpl. rewrite Nat.add_assoc. done.
Qed.

(** [_mistral_transform] always returns a dictionary; it only advances the
    clock; the pages are those from 1 to [total_pages]. *)
Lemma _mistral_transform_spec doc_id agentic_json doc w :
  ∃ pp t,
    _mistral_transform doc_id agentic_json doc w = Ok (Some pp) (with_tick t w) ∧
    pm_total_pages (pp_metadata pp)
      = total_pages_of (group_by_page cd_grounding (aj_chunks agentic_json)) ∧
    pm_total_figures (pp_metadata pp) = length (aj_figures agentic_json) ∧
    pp_content pp =
      pages_from doc agentic_json (tick w)
        (seqZ 1 (total_pages_of (group_by_page cd_grounding (aj_chunks agentic_json)))).
Proof.
  unfold _mistral_transform. unfold bind at 1.
  rewrite structure_pages_eq.
  unfold bind, now, ret. simpl.
  eexists _, _. split; [reflexivity|]. simpl. done.
Qed.

(** The pages built carry the numbers of the pages. *)
Lemma pages_from_number doc agentic_json pages : ∀ t,
  page_number <$> pages_from doc agentic_json t pages = pages.
Proof.
  induction pages as [|p pages IH]; intros t; simpl; [done|]. by rewrite IH.
Qed.

(** The page at a position is built at the clock reached after the pages
    before it. *)
Lemma pages_from_lookup doc agentic_json pages : ∀ t k p,
  pages !! k = Some p →
  pages_from doc agentic_json t pages !! k =
  Some (page_at doc agentic_json
          (t + sum_list (page_calls agentic_json <$> take k pages)) p).
Proof.
  induction pages as [|q pages IH]; intros t k p Hk; [done|].
  destruct k as [|k]; simpl in *.
  - injection Hk as ->. by rewrite Nat.add_0_r.
  - rewrite (IH _ _ _ Hk). by rewrite Nat.add_assoc.
Qed.

Lemma take_seqZ (k : nat) (n : Z) :
  (Z.of_nat k ≤ n)%Z → take k (seqZ 1 n) = seqZ 1 (Z.of_nat k).
Proof.
  intros Hk.
  replace n with (Z.of_nat k + (n - Z.of_nat k))%Z by lia.
  rewrite seqZ_app by lia.
  rewrite take_app_length'; [done|]. rewrite length_seqZ. lia.
Qed.

(** The page object of the page [p] of the range is built at the clock
    [page_clock]. *)
Lemma pages_from_page doc agentic_json t (total p : Z) :
  (1 ≤ p ≤ total)%Z →
  pages_from doc agentic_json t (seqZ 1 total) !! Z.to_nat (p - 1) =
  Some (page_at doc agentic_json (page_clock agentic_json t p) p).
Proof.
  intros Hp.
  rewrite (pages_from_lookup doc agentic_json (seqZ 1 total) t (Z.to_nat (p - 1)) p).
  - unfold page_clock. rewrite take_seqZ by lia.
    by rewrite Z2Nat.id by lia.
  - apply lookup_seqZ. lia.
Qed.

Lemma figure_calls_app l1 l2 :
  figure_calls (l1 ++ l2) = (figure_calls l1 + figure_calls l2)%nat.
Proof. unfold figure_calls. by rewrite fmap_app, sum_list_with_app. Qed.

Lemma figure_records_app page_num doc_metadata figs1 : ∀ t i figs2,
  figure_records page_num doc_metadata t i (figs1 ++ figs2) =
  (figure_records page_num doc_metadata t i figs1 ++
   figure_records page_num doc_metadata (t + figure_calls figs1) (i + length figs1) figs2)%list.
Proof.
  induction figs1 as [|fig r IH]; intros t i figs2; simpl.
  - unfold figure_calls. simpl. by rewrite !Nat.add_0_r.
  - unfold figure_calls. rewrite fmap_cons. cbn [sum_list sum_list_with].
    destruct (PyStr.blank (fd_text fig)) eqn:Hb.
    + rewrite IH. do 2 f_equal. lia.
    + rewrite IH. simpl.
      rewrite <- app_assoc. do 3 f_equal; unfold figure_calls; lia.
Qed.

Lemma figure_records_middle page_num doc_metadata t pre fig post :
  PyStr.blank (fd_text fig) = false →
  let j := chat_outcome (t + figure_calls pre)
             (ocr_prompt "image" (fd_text fig)) 3000
             (image_fallback (fd_text fig) (length pre) page_num doc_metadata) in
  json_truthy j = true →
  figure_records page_num doc_metadata t 0 (pre ++ fig :: post)
    !! length (figure_records page_num doc_metadata t 0 pre) = Some j.
Proof.
  intros Hb j Hj.
  rewrite figure_records_app. simpl.
  rewrite Hb. fold j. rewrite Hj.
  rewrite lookup_app_r by lia.
  by rewrite Nat.sub_diag.
Qed.

(** The record kept for the figure with text at the index [k] of a page:
    the outcome of the call made at its clock, when that outcome is
    truthy. *)
Lemma figure_records_lookup page_num doc_metadata t figs k fig :
  figs !! k = Some fig →
  PyStr.blank (fd_text fig) = false →
  let j := chat_outcome (t + figure_calls (take k figs))
             (ocr_prompt "image" (fd_text fig)) 3000
             (image_fallback (fd_text fig) k page_num doc_metadata) in
  json_truthy j = true →
  figure_records page_num doc_metadata t 0 figs
    !! length (figure_records page_num doc_metadata t 0 (take k figs)) = Some j.
Proof.
  intros Hk Hb.
  pose proof (figure_records_middle page_num doc_metadata t (take k figs) fig
                (drop (S k) figs) Hb) as Hmid.
  rewrite take_drop_middle in Hmid by done.
  rewrite length_take_le in Hmid by (apply lookup_lt_Some in Hk; lia).
  exact Hmid.
Qed.

End StructuringFacts.

(* ===================================================================== *)
(** ** Page count and page range of the final artifact *)
(* ===================================================================== *)

Section PageRange.

Context `{Ext : External}.

Lemma map_m_ext {A B} (f g : A → M B) l :
  (∀ x, x ∈ l → ∀ w, f x w = g x w) →
  ∀ w, map_m f l w = map_m g l w.
Proof.
  induction l as [|x l IH]; intros Hfg w; simpl; [done|].
  unfold bind. rewrite Hfg by (apply elem_of_cons; by left).
  destruct (g x w) as [y w'|e w']; [|done].
  rewrite IH; [done|].
  intros z Hz. apply Hfg. apply elem_of_cons. by right.
Qed.

(** A figure filed under no page of the range is never looked at. *)
Lemma copies_on_beyond (f : FigureData) (total p : Z) :
  (∀ q, q ∈ item_pages (fd_grounding f) → (total < q)%Z) →
  (p ≤ total)%Z →
  copies_on fd_grounding p f = [].
Proof.
  intros Hf Hp. unfold copies_on.
  assert (filter (λ q, q = p) (item_pages (fd_grounding f)) = []) as ->; [|done].
  induction (item_pages (fd_grounding f)) as [|q qs IH]; [done|].
  rewrite filter_cons. destruct (decide (q = p)) as [->|_].
  - specialize (Hf p (list_elem_of_here _ _)). lia.
  - apply IH. intros q' Hq'. apply Hf. apply elem_of_cons. by right.
Qed.

Lemma elem_of_seqZ_le (p m : Z) : p ∈ seqZ 1 m → (p ≤ m)%Z.
Proof. intros Hp%elem_of_seqZ. lia. Qed.

(** C9: the page count of the final artifact is the greatest page under
    which a chunk is filed (1 for every chunk without grounding, and 1
    when there is no chunk), whatever the figures; the page objects are
    those of the pages from 1 to that count; and a figure all of whose
    pages exceed the count leaves no trace in the content: the content is
    the one built without that figure. *)
Theorem pages_from_chunks_only doc_id agentic_json doc w :
  let total := total_pages_of (group_by_page cd_grounding (aj_chunks agentic_json)) in
  (aj_chunks agentic_json = [] → total = 1%Z) ∧
  (aj_chunks agentic_json ≠ [] →
     (∃ c, c ∈ aj_chunks agentic_json ∧ total ∈ item_pages (cd_grounding c)) ∧
     (∀ c p, c ∈ aj_chunks agentic_json → p ∈ item_pages (cd_grounding c) → (p ≤ total)%Z)) ∧
  (∃ pp w',
     _mistral_transform doc_id agentic_json doc w = Ok (Some pp) w' ∧
     pm_total_pages (pp_metadata pp) = total ∧
     page_number <$> pp_content pp = seqZ 1 total) ∧
  (∀ l1 f l2,
     aj_figures agentic_json = (l1 ++ f :: l2)%list →
     (∀ q, q ∈ item_pages (fd_grounding f) → (total < q)%Z) →
     ∃ pp pp' w',
       _mistral_transform doc_id agentic_json doc w = Ok (Some pp) w' ∧
       _mistral_transform doc_id
         (mkAgenticJson (aj_source_url agentic_json) (aj_chunks agentic_json) (l1 ++ l2)%list)
         doc w = Ok (Some pp') w' ∧
       pp_content pp' = pp_content pp).
Proof.
  intros total. split_and!.
  - intros Hc. subst total. rewrite Hc. apply total_pages_of_empty.
  - intros Hc.
    assert (group_by_page cd_grounding (aj_chunks agentic_json) ≠ ∅) as Hne.
    { intros He. by apply group_by_page_empty in He. }
    destruct (total_pages_of_max _ Hne) as [Hin Hmax]. split.
    + by apply group_by_page_dom in Hin.
    + intros c p Hcin Hp. apply Hmax. apply group_by_page_dom. eauto.
  - destruct (_mistral_transform_spec doc_id agentic_json doc w)
      as (pp & t & Hrun & Htot & _ & Hpages).
    exists pp, (with_tick t w). split; [done|]. split; [done|].
    rewrite Hpages. apply pages_from_number.
  - intros l1 f l2 Hfig Hbeyond.
    destruct (_mistral_transform_spec doc_id agentic_json doc w)
      as (pp & t & Hrun & _ & _ & _).
    exists pp. revert Hrun. unfold _mistral_transform. simpl. fold total.
    unfold bind.
    rewrite (map_m_ext
      (structure_page (PyStr.rsplit_dot_head (original_filename doc)) (metadata doc)
         (default "unknown" (aj_source_url agentic_json))
         (group_by_page cd_grounding (aj_chunks agentic_json))
         (group_by_page fd_grounding (l1 ++ l2)))
      (structure_page (PyStr.rsplit_dot_head (original_filename doc)) (metadata doc)
         (default "unknown" (aj_source_url agentic_json))
         (group_by_page cd_grounding (aj_chunks agentic_json))
         (group_by_page fd_grounding (aj_figures agentic_json)))).
    + destruct (map_m _ (seqZ 1 total) w) as [content w1|e w1]; [|done].
      unfold now, ret. simpl. intros Heq.
      assert (Hpp : ∀ (a b : option PdfProcessed) w1 w2, Ok a w1 = Ok b w2 → a = b)
        by (by intros ???? [= -> _]).
      apply Hpp in Heq. injection Heq as <-.
      eexists _, _. split; [reflexivity|]. split; reflexivity.
    + intros p Hp w0. unfold structure_page.
      rewrite !group_by_page_lookup, Hfig, !bind_app, bind_cons.
      rewrite (copies_on_beyond f total p Hbeyond (elem_of_seqZ_le _ _ Hp)).
      done.
Qed.

End PageRange.

(* ===================================================================== *)
(** ** The structuring stage *)
(* ===================================================================== *)

Section StructuringStage.

Context `{Ext : External}.

Lemma chat_outcome_raises n prompt max_tokens fallback msg :
  chat_complete n prompt max_tokens = ChatRaises msg →
  chat_outcome n prompt max_tokens fallback = fallback.
Proof. unfold chat_outcome. by intros ->. Qed.

Lemma chat_outcome_undecodable n prompt max_tokens fallback c :
  chat_complete n prompt max_tokens = ChatContent c →
  json_loads c = None →
  chat_outcome n prompt max_tokens fallback = fallback.
Proof. unfold chat_outcome. by intros -> ->. Qed.

Lemma chat_outcome_reply n prompt max_tokens fallback c j :
  chat_complete n prompt max_tokens = ChatContent c →
  json_loads c = Some j →
  chat_outcome n prompt max_tokens fallback = j.
Proof. unfold chat_outcome. by intros -> ->. Qed.

Lemma mark_completed_eq doc_id d w :
  documents (state w) !! doc_id = Some d →
  mark_completed doc_id w = Ok tt (after_mark_completed w doc_id d).
Proof. intros Hd. unfold mark_completed, bind, get. by rewrite Hd. Qed.

(** The run of [transform_to_pdf_processed] that reads the extract
    artifact, structures it and writes the final artifact. *)
Lemma transform_to_pdf_processed_run doc_id doc path d agentic_json w :
  documents (state w) !! doc_id = Some doc →
  st_status (agentic_process (steps doc)) = COMPLETED →
  files doc !! "agentic_process" = Some path →
  fs w !! path = Some d →
  (∀ w0, json_load d w0 = Ok agentic_json w0) →
  fs w !! pdf_processed_path_of doc = None →
  (∀ n, write_outcome n (pdf_processed_path_of doc) = WriteDone) →
  ∃ pp t,
    _mistral_transform doc_id agentic_json doc
      (with_event (Invoked Transform doc_id) w) =
      Ok (Some pp) (with_tick t (with_event (Invoked Transform doc_id) w)) ∧
    transform_to_pdf_processed doc_id w =
    Ok true
      (let w1 := with_file (pdf_processed_path_of doc) (ProcessedFile pp)
                   (with_tick (S t) (with_event (Invoked Transform doc_id) w)) in
       after_mark_completed
         (after_update w1 doc_id "transform" Transform COMPLETED
            (Some (pdf_processed_path_of doc)) None doc)
         doc_id
         (updated_document doc "transform" Transform COMPLETED
            (Some (pdf_processed_path_of doc)) None (S t))).
Proof.
  intros Hd Hst Hf Hfs Hload Hout Hw.
  destruct (_mistral_transform_spec doc_id agentic_json doc
              (with_event (Invoked Transform doc_id) w)) as (pp & t & Hrun & _).
  exists pp, t. split; [exact Hrun|].
  unfold transform_to_pdf_processed.
  unfold bind at 1. unfold record_event.
  unfold bind at 1. unfold get_document_status at 1, bind at 1, get, ret.
  simpl. rewrite Hd, Hst.
  rewrite bool_decide_eq_false_2 by (by intros ?).
  unfold bind at 1. unfold files_item. rewrite Hf. unfold ret at 1.
  unfold bind at 1. rewrite (_get_output_dirs_eq doc_id doc) by done.
  fold (pdf_processed_path_of doc).
  unfold bind at 1. unfold path_exists. simpl. rewrite Hout.
  rewrite bool_decide_eq_false_2 by (by intros [? ?]).
  unfold try_except, bind at 1, read_file. simpl. rewrite Hfs.
  unfold bind at 1. rewrite Hload.
  unfold bind at 1.
  change (mkWorld (state w) (state_file w) (fs w) (tick w)
            (trace w ++ [Invoked Transform doc_id])%list)
    with (with_event (Invoked Transform doc_id) w).
  rewrite Hrun.
  unfold bind at 1. unfold write_file, bind at 1, external_call, now. simpl.
  unfold bind at 1, get. rewrite Hw. unfold set_fs.
  unfold bind at 1.
  erewrite update_step_status_eq; [|simpl; exact Hd|reflexivity].
  unfold bind at 1.
  erewrite mark_completed_eq; [|simpl; apply lookup_insert_eq].
  reflexivity.
Qed.

(** C5: a run of the structuring stage that has read the extract artifact
    and can write its output returns [True] whatever the chat model does:
    the step is recorded completed, no error is recorded, and the artifact
    written holds the page objects of the pages from 1 to the page count,
    each built at the clock at which the loop reaches it.  For a page with
    text: when the call made for it raises, or its reply cannot be
    decoded, the record of that page is the placeholder (the name of the
    document, the generic topics, the first 500 characters of the text);
    when the call answers a decodable reply, the record is that reply.
    For a figure with text on the page: when the call made for it raises,
    its record is the placeholder of the figure (a name built from the
    page and the index, the generic topics, the first 200 characters of
    the text); when the call answers a truthy reply, its record is that
    reply. *)
Theorem structuring_falls_back doc_id doc path d agentic_json w :
  documents (state w) !! doc_id = Some doc →
  st_status (agentic_process (steps doc)) = COMPLETED →
  files doc !! "agentic_process" = Some path →
  fs w !! path = Some d →
  (∀ w0, json_load d w0 = Ok agentic_json w0) →
  fs w !! pdf_processed_path_of doc = None →
  (∀ n, write_outcome n (pdf_processed_path_of doc) = WriteDone) →
  let total := total_pages_of (group_by_page cd_grounding (aj_chunks agentic_json)) in
  let doc_name := PyStr.rsplit_dot_head (original_filename doc) in
  ∃ w' d' pp,
    transform_to_pdf_processed doc_id w = Ok true w' ∧
    documents (state w') !! doc_id = Some d' ∧
    st_status (transform (steps d')) = COMPLETED ∧
    files d' !! "transform" = Some (pdf_processed_path_of doc) ∧
    errors d' = errors doc ∧
    fs w' !! pdf_processed_path_of doc = Some (ProcessedFile pp) ∧
    pp_content pp = pages_from doc agentic_json (tick w) (seqZ 1 total) ∧
    ∀ p, (1 ≤ p ≤ total)%Z →
      ∃ pg,
        pp_content pp !! Z.to_nat (p - 1) = Some pg ∧
        page_number pg = p ∧
        text pg = page_text_of agentic_json p ∧
        (PyStr.blank (text pg) = true →
           structured_page_content pg = empty_page_record doc_name (metadata doc)) ∧
        (PyStr.blank (text pg) = false →
           (∀ msg,
              chat_complete (page_clock agentic_json (tick w) p)
                (ocr_prompt "pages" (text pg)) 4000 = ChatRaises msg →
              structured_page_content pg =
              JObj [("file_name", JStr doc_name);
                    ("topics", JArr [JStr "aviation"; JStr "navigation"; JStr "charts"]);
                    ("languages", languages (metadata doc));
                    ("description", JStr "Page content from aeronautical document");
                    ("ocr_contents",
                     JObj [("raw_content", JStr (PyStr.take 500 (text pg)))])]) ∧
           (∀ c,
              chat_complete (page_clock agentic_json (tick w) p)
                (ocr_prompt "pages" (text pg)) 4000 = ChatContent c →
              json_loads c = None →
              structured_page_content pg =
              page_fallback doc_name (text pg) (metadata doc)) ∧
           (∀ c j,
              chat_complete (page_clock agentic_json (tick w) p)
                (ocr_prompt "pages" (text pg)) 4000 = ChatContent c →
              json_loads c = Some j →
              structured_page_content pg = j)) ∧
        ∀ k fig,
          page_figures_of agentic_json p !! k = Some fig →
          PyStr.blank (fd_text fig) = false →
          (∀ msg,
             chat_complete (figure_clock agentic_json (tick w) p k)
               (ocr_prompt "image" (fd_text fig)) 3000 = ChatRaises msg →
             structured_image_content pg !! figure_slot doc agentic_json (tick w) p k =
             Some (JObj [("file_name",
                          JStr ("imagen_p" +:+ PyStr.of_Z p +:+ "_i" +:+
                                PyStr.of_nat k +:+ ".jpg"));
                         ("topics", JArr [JStr "aeronautical_charts"; JStr "navigation"]);
                         ("languages", languages (metadata doc));
                         ("description", JStr "Image from aeronautical document");
                         ("ocr_contents",
                          JObj [("raw_content", JStr (PyStr.take 200 (fd_text fig)))])])) ∧
          (∀ c j,
             chat_complete (figure_clock agentic_json (tick w) p k)
               (ocr_prompt "image" (fd_text fig)) 3000 = ChatContent c →
             json_loads c = Some j →
             json_truthy j = true →
             structured_image_content pg !! figure_slot doc agentic_json (tick w) p k =
             Some j).
Proof.
  intros Hd Hst Hf Hfs Hload Hout Hw total doc_name.
  destruct (transform_to_pdf_processed_run doc_id doc path d agentic_json w)
    as (pp & t & Hrun & ->); try done.
  destruct (_mistral_transform_spec doc_id agentic_json doc
              (with_event (Invoked Transform doc_id) w))
    as (pp' & t' & Hrun' & _ & _ & Hpages).
  rewrite Hrun in Hrun'.
  assert (pp' = pp) as -> by congruence.
  simpl in Hpages. fold total in Hpages.
  eexists _, _, pp. split; [reflexivity|].
  split; [simpl; apply lookup_insert_eq|]. simpl.
  split_and!; try done.
  - unfold pdf_processed_path_of. rewrite path_join_truthy. apply lookup_insert_eq.
  - apply lookup_insert_eq.
  - intros p Hp.
    exists (page_at doc agentic_json (page_clock agentic_json (tick w) p) p).
    split; [rewrite Hpages; by apply pages_from_page|].
    split; [done|]. split; [done|]. simpl.
    fold doc_name.
    split; [by intros ->|]. split.
    + intros ->. split_and!.
      * intros msg Hc. by rewrite (chat_outcome_raises _ _ _ _ _ Hc).
      * intros c Hc Hl. by rewrite (chat_outcome_undecodable _ _ _ _ _ Hc Hl).
      * intros c j Hc Hl. by rewrite (chat_outcome_reply _ _ _ _ _ _ Hc Hl).
    + intros k fig Hk Hb. unfold figure_slot, figure_clock.
      unfold figures_clock.
      assert (Heq : (if PyStr.blank (page_text_of agentic_json p)
                     then page_clock agentic_json (tick w) p
                     else S (page_clock agentic_json (tick w) p)) =
                    (page_clock agentic_json (tick w) p +
                     (if PyStr.blank (page_text_of agentic_json p) then 0 else 1))%nat)
        by (destruct (PyStr.blank (page_text_of agentic_json p)); lia).
      rewrite Heq.
      pose proof (figure_records_lookup p (metadata doc)
        (page_clock agentic_json (tick w) p +
         (if PyStr.blank (page_text_of agentic_json p) then 0 else 1))
        (page_figures_of agentic_json p) k fig Hk Hb) as Hrec.
      simpl in Hrec. split.
      * intros msg Hc.
        rewrite (chat_outcome_raises _ _ _ _ _ Hc) in Hrec.
        by apply Hrec.
      * intros c j Hc Hl Hj.
        rewrite (chat_outcome_reply _ _ _ _ _ _ Hc Hl) in Hrec.
        by apply Hrec.
Qed.

End StructuringStage.

(* ===================================================================== *)
(** ** Failures of the extraction stage *)
(* ===================================================================== *)

Section ExtractionFailure.

Context `{Ext : External}.

(** C4 (amended): when the [try] block of [process_with_agentic_doc]
    raises, the call returns [False], the step and the document are
    recorded failed and the message is appended to the errors; no other
    file changes.  When the extraction call raises, or [open] does, no
    file is at the output path; when the writer raises after [open], the
    file that [open] created stays at the output path. *)
Theorem extract_failure_recorded doc_id doc pdf_path w msg opened :
  documents (state w) !! doc_id = Some doc →
  st_status (download (steps doc)) = COMPLETED →
  files doc !! "download" = Some pdf_path →
  fs w !! output_json_path_of doc = None →
  extract_raises w doc pdf_path = Some (msg, opened) →
  ∃ w' d',
    process_with_agentic_doc doc_id w = Ok false w' ∧
    documents (state w') !! doc_id = Some d' ∧
    st_status (agentic_process (steps d')) = FAILED ∧
    status d' = FAILED ∧
    (∃ t, errors d' =
          (errors doc ++
           [mkErrorEntry "agentic_process" ("Error procesando con Agentic-doc: " +:+ msg) t])%list) ∧
    files d' = files doc ∧
    fs w' !! output_json_path_of doc = (if opened then Some Truncated else None) ∧
    (∀ p, p ≠ output_json_path_of doc → fs w' !! p = fs w !! p).
Proof.
  intros Hd Hst Hf Hfs Hraise.
  unfold process_with_agentic_doc.
  unfold bind at 1. unfold record_event.
  unfold bind at 1. unfold get_document_status at 1, bind at 1, get, ret.
  simpl. rewrite Hd, Hst.
  rewrite bool_decide_eq_false_2 by (by intros ?).
  unfold bind at 1. unfold files_item. rewrite Hf. unfold ret at 1.
  unfold bind at 1. rewrite (_get_output_dirs_eq doc_id doc) by done.
  fold (output_json_path_of doc).
  unfold bind at 1. unfold path_exists. simpl. rewrite Hfs.
  rewrite bool_decide_eq_false_2 by (by intros [? ?]).
  unfold extract_raises in Hraise.
  unfold try_except, bind at 1, external_call, now. simpl.
  destruct (parse (tick w) pdf_path) as [result|m] eqn:Hp.
  - unfold bind at 1. simpl.
    unfold bind at 1. unfold write_file, bind at 1, external_call, now. simpl.
    unfold bind at 1, get.
    destruct (write_outcome (S (S (tick w))) (output_json_path_of doc)) as [|m|m] eqn:Hw;
      [done| |]; injection Hraise as <- <-.
    + unfold raise. unfold bind at 1.
      erewrite update_step_status_eq; [|simpl; exact Hd|reflexivity].
      eexists _, _. split; [reflexivity|].
      split; [simpl; apply lookup_insert_eq|]. simpl.
      split_and!; try done.
      * apply recompute_status_failed. simpl. apply Exists_cons. right.
        apply Exists_cons. by left.
      * eexists. reflexivity.
    + unfold set_fs, bind at 1, raise. unfold bind at 1.
      erewrite update_step_status_eq; [|simpl; exact Hd|reflexivity].
      eexists _, _. split; [reflexivity|].
      split; [simpl; apply lookup_insert_eq|]. simpl.
      split_and!; try done.
      * apply recompute_status_failed. simpl. apply Exists_cons. right.
        apply Exists_cons. by left.
      * eexists. reflexivity.
      * apply lookup_insert_eq.
      * intros p Hne. by rewrite lookup_insert_ne.
  - injection Hraise as <- <-. unfold raise. unfold bind at 1.
    erewrite update_step_status_eq; [|simpl; exact Hd|reflexivity].
    eexists _, _. split; [reflexivity|].
    split; [simpl; apply lookup_insert_eq|]. simpl.
    split_and!; try done.
    + apply recompute_status_failed. simpl. apply Exists_cons. right.
      apply Exists_cons. by left.
    + eexists. reflexivity.
Qed.

End ExtractionFailure.

(** On the examples, the service fails once the document is downloaded. *)
Lemma extract_failure_recorded_witness :
  ∃ w' d',
    process_with_agentic_doc
      (Ext := mkExternal "work" (λ u, u) (λ u, u) (λ _ _, HttpContent "%PDF-1.4")
                (λ _ _, ParseRaises "503 Service Unavailable")
                (λ _ _ _, ChatContent "{}") (λ _, None) (λ _, "Expecting value")
                (λ _ _, WriteDone))
      "http://aip/a" (downloaded_world (Ext := demo_external)) = Ok false w' ∧
    documents (state w') !! "http://aip/a" = Some d' ∧
    st_status (agentic_process (steps d')) = FAILED ∧
    fs w' !! "work/_AIPs/argentina/agentic_outputs/AD2.json" = None.
Proof.
  edestruct (extract_failure_recorded
               (Ext := mkExternal "work" (λ u, u) (λ u, u) (λ _ _, HttpContent "%PDF-1.4")
                         (λ _ _, ParseRaises "503 Service Unavailable")
                         (λ _ _ _, ChatContent "{}") (λ _, None) (λ _, "Expecting value")
                         (λ _ _, WriteDone))
               "http://aip/a"
               (mkDocument "http://aip/ad2.pdf" "AD2.pdf"
                  (mkMetadata (Some "AIP") (Some "public") (Some ["english"; "spanish"])
                     (Some "argentina") (Some "unknown") (Some "GEN")
                     (Some "_AIPs/argentina"))
                  PENDING 1
                  (mkSteps (mkStepEntry COMPLETED (Some 5)) (mkStepEntry PENDING None)
                     (mkStepEntry PENDING None))
                  {["download" := "work/_AIPs/argentina/pdfs/AD2.pdf"]} [])
               "work/_AIPs/argentina/pdfs/AD2.pdf"
               (downloaded_world (Ext := demo_external))
               "503 Service Unavailable" false)
    as (w' & d' & Hrun & Hdoc & Hst & _ & _ & _ & Hfs & _);
    try (vm_compute; reflexivity).
  exists w', d'. split; [exact Hrun|]. split; [exact Hdoc|].
  split; [exact Hst|exact Hfs].
Defined.

(** C4 (as stated) fails: when the serialization raises, the failed run
    leaves a truncated file at the output path, and the next run takes
    that file for the artifact and records the step as completed. *)
Lemma extract_failure_leaves_partial_file :
  ∃ w1 w2 d1 d2,
    process_with_agentic_doc (Ext := faulty_external) "http://aip/a"
      (downloaded_world (Ext := faulty_external)) = Ok false w1 ∧
    documents (state w1) !! "http://aip/a" = Some d1 ∧
    st_status (agentic_process (steps d1)) = FAILED ∧
    fs w1 !! "work/_AIPs/argentina/agentic_outputs/AD2.json" = Some Truncated ∧
    process_with_agentic_doc (Ext := faulty_external) "http://aip/a" w1 = Ok true w2 ∧
    documents (state w2) !! "http://aip/a" = Some d2 ∧
    st_status (agentic_process (steps d2)) = COMPLETED ∧
    files d2 !! "agentic_process" = Some "work/_AIPs/argentina/agentic_outputs/AD2.json" ∧
    fs w2 !! "work/_AIPs/argentina/agentic_outputs/AD2.json" = Some Truncated.
Proof.
  eexists _, _, _, _.
  split; [vm_compute; reflexivity|].
  split; [vm_compute; reflexivity|].
  split; [reflexivity|].
  split; [vm_compute; reflexivity|].
  split; [vm_compute; reflexivity|].
  split; [vm_compute; reflexivity|].
  split; [reflexivity|].
  split; vm_compute; reflexivity.
Qed.

(* ===================================================================== *)
(** ** What a stage executor changes *)
(* ===================================================================== *)

Section StageEffects.

Context `{Ext : External}.

Lemma doc_effect_updated d step n st file_path error t :
  step_of_key step = Some n →
  doc_effect n d (updated_document d step n st file_path error t).
Proof.
  intros Hn. unfold doc_effect, updated_document. simpl.
  split_and!; try done.
  - destruct (truthy_opt error); [by apply prefix_app_r|done].
  - intros m Hm. split.
    + by destruct n, m.
    + destruct (truthy_opt file_path); [|done].
      rewrite lookup_insert_ne; [done|].
      apply step_of_key_inv in Hn. subst step.
      by destruct n, m.
Qed.

Lemma doc_effect_completed n d d' :
  doc_effect n d d' → doc_effect n d (completed_document d').
Proof. unfold doc_effect, completed_document. simpl. tauto. Qed.

(** An executor that returns after [update_step_status]. *)
Lemma stage_effect_after_update n doc_id step st file_path error d w w1 :
  trace w1 = (trace w ++ [Invoked n doc_id])%list →
  documents (state w1) = documents (state w) →
  files_kept w w1 →
  documents (state w) !! doc_id = Some d →
  step_of_key step = Some n →
  stage_effect n doc_id w (after_update w1 doc_id step n st file_path error d).
Proof.
  intros Ht Hdocs Hfs Hd Hn. unfold stage_effect. simpl.
  rewrite Hdocs, Hd. split_and!; try done.
  - intros j Hj. by rewrite lookup_insert_ne.
  - eexists. split; [apply lookup_insert_eq|]. by apply doc_effect_updated.
Qed.

(** An executor that returns without touching the ledger. *)
Lemma stage_effect_idle n doc_id w w1 :
  trace w1 = (trace w ++ [Invoked n doc_id])%list →
  documents (state w1) = documents (state w) →
  files_kept w w1 →
  stage_effect n doc_id w w1.
Proof.
  intros Ht Hdocs Hfs. unfold stage_effect. rewrite Hdocs.
  split_and!; try done.
  destruct (documents (state w) !! doc_id) as [d|]; [|done].
  exists d. split; [done|]. unfold doc_effect. split_and!; done.
Qed.

Lemma files_kept_refl w : files_kept w w.
Proof. by intros p c. Qed.

Lemma files_kept_new p c w w1 :
  fs w !! p = None → fs w1 = <[p := c]> (fs w) → files_kept w w1.
Proof.
  intros Hp Hf q x Hq. rewrite Hf, lookup_insert_ne; [done|].
  intros ->. congruence.
Qed.

Ltac effect_idle :=
  apply stage_effect_idle; [reflexivity|reflexivity|by intros ? ?].

Ltac effect_update Hd :=
  erewrite update_step_status_eq; [|simpl; exact Hd|reflexivity];
  apply stage_effect_after_update;
    [reflexivity|reflexivity|try (by intros ? ?)|exact Hd|reflexivity].

(** [download_pdf] *)
Lemma download_pdf_effect doc_id w :
  stage_effect Download doc_id w (final (download_pdf doc_id w)).
Proof.
  unfold download_pdf.
  unfold bind at 1. unfold record_event.
  unfold bind at 1. unfold get_document_status at 1, bind at 1, get, ret. simpl.
  destruct (documents (state w) !! doc_id) as [doc|] eqn:Hd.
  2:{ effect_idle. }
  drop_default_filename.
  unfold bind at 1. rewrite (_get_output_dirs_eq doc_id doc) by done.
  fold (pdf_path_of doc).
  unfold bind at 1. unfold path_exists. simpl.
  destruct (fs w !! pdf_path_of doc) as [c|] eqn:Hfs.
  { rewrite bool_decide_eq_true_2 by eauto.
    unfold bind at 1.
    effect_update Hd. }
  rewrite bool_decide_eq_false_2 by (by intros [? ?]).
  unfold try_except, bind at 1, external_call, now. simpl.
  destruct (requests_get (tick w) (url doc)) as [content|msg].
  - unfold bind at 1. unfold write_file, bind at 1, external_call, now. simpl.
    unfold bind at 1, get.
    destruct (write_outcome (S (tick w)) (pdf_path_of doc)) as [|msg|msg].
    + unfold set_fs. unfold bind at 1.
      effect_update Hd.
      eapply (files_kept_new (pdf_path_of doc)); [exact Hfs|reflexivity].
    + unfold raise. unfold bind at 1.
      effect_update Hd.
    + unfold set_fs, bind at 1, raise. unfold bind at 1.
      effect_update Hd.
      eapply (files_kept_new (pdf_path_of doc)); [exact Hfs|reflexivity].
  - unfold raise. unfold bind at 1.
    effect_update Hd.
Qed.

(** [process_with_agentic_doc] *)
Lemma process_with_agentic_doc_effect doc_id w :
  stage_effect AgenticProcess doc_id w (final (process_with_agentic_doc doc_id w)).
Proof.
  unfold process_with_agentic_doc.
  unfold bind at 1. unfold record_event.
  unfold bind at 1. unfold get_document_status at 1, bind at 1, get, ret. simpl.
  destruct (documents (state w) !! doc_id) as [doc|] eqn:Hd.
  2:{ effect_idle. }
  destruct (bool_decide (st_status (download (steps doc)) ≠ COMPLETED)).
  { effect_idle. }
  unfold bind at 1. unfold files_item.
  destruct (files doc !! "download") as [pdf_path|].
  2:{ effect_idle. }
  unfold ret at 1.
  unfold bind at 1. rewrite (_get_output_dirs_eq doc_id doc) by done.
  fold (output_json_path_of doc).
  unfold bind at 1. unfold path_exists. simpl.
  destruct (fs w !! output_json_path_of doc) as [c|] eqn:Hfs.
  { rewrite bool_decide_eq_true_2 by eauto.
    unfold bind at 1.
    effect_update Hd. }
  rewrite bool_decide_eq_false_2 by (by intros [? ?]).
  unfold try_except, bind at 1, external_call, now. simpl.
  destruct (parse (tick w) pdf_path) as [result|msg].
  - unfold bind at 1. simpl.
    unfold bind at 1. unfold write_file, bind at 1, external_call, now. simpl.
    unfold bind at 1, get.
    destruct (write_outcome (S (S (tick w))) (output_json_path_of doc)) as [|msg|msg].
    + unfold set_fs. unfold bind at 1.
      effect_update Hd.
      eapply (files_kept_new (output_json_path_of doc)); [exact Hfs|reflexivity].
    + unfold raise. unfold bind at 1.
      effect_update Hd.
    + unfold set_fs, bind at 1, raise. unfold bind at 1.
      effect_update Hd.
      eapply (files_kept_new (output_json_path_of doc)); [exact Hfs|reflexivity].
  - unfold raise. unfold bind at 1.
    effect_update Hd.
Qed.

(** An executor that returns after the marking that follows the update. *)
Lemma stage_effect_after_mark n doc_id step st file_path error d w w1 :
  trace w1 = (trace w ++ [Invoked n doc_id])%list →
  documents (state w1) = documents (state w) →
  files_kept w w1 →
  documents (state w) !! doc_id = Some d →
  step_of_key step = Some n →
  stage_effect n doc_id w
    (after_mark_completed (after_update w1 doc_id step n st file_path error d) doc_id
       (updated_document d step n st file_path error (tick w1))).
Proof.
  intros Ht Hdocs Hfs Hd Hn. unfold stage_effect. simpl.
  rewrite Hdocs, Hd. split_and!; try done.
  - intros j Hj. by rewrite !lookup_insert_ne.
  - eexists. split; [apply lookup_insert_eq|].
    apply doc_effect_completed. by apply doc_effect_updated.
Qed.

(** [transform_to_pdf_processed] *)
Lemma transform_to_pdf_processed_effect doc_id w :
  stage_effect Transform doc_id w (final (transform_to_pdf_processed doc_id w)).
Proof.
  unfold transform_to_pdf_processed.
  unfold bind at 1. unfold record_event.
  unfold bind at 1. unfold get_document_status at 1, bind at 1, get, ret. simpl.
  destruct (documents (state w) !! doc_id) as [doc|] eqn:Hd.
  2:{ effect_idle. }
  destruct (bool_decide (st_status (agentic_process (steps doc)) ≠ COMPLETED)).
  { effect_idle. }
  unfold bind at 1. unfold files_item.
  destruct (files doc !! "agentic_process") as [path|].
  2:{ effect_idle. }
  unfold ret at 1.
  unfold bind at 1. rewrite (_get_output_dirs_eq doc_id doc) by done.
  fold (pdf_processed_path_of doc).
  unfold bind at 1. unfold path_exists. simpl.
  destruct (fs w !! pdf_processed_path_of doc) as [c|] eqn:Hfs.
  { rewrite bool_decide_eq_true_2 by eauto.
    unfold bind at 1. effect_update Hd. }
  rewrite bool_decide_eq_false_2 by (by intros [? ?]).
  unfold try_except, bind at 1, read_file. simpl.
  destruct (fs w !! path) as [d|].
  2:{ unfold bind at 1. effect_update Hd. }
  unfold bind at 1.
  assert ((∃ aj, ∀ w0, json_load d w0 = Ok aj w0) ∨
          (∃ e, ∀ w0, json_load d w0 = Raise e w0)) as [[aj Hl]|[e Hl]].
  { destruct d; simpl; eauto. }
  2:{ rewrite Hl. unfold bind at 1. effect_update Hd. }
  rewrite Hl. unfold bind at 1.
  change (mkWorld (state w) (state_file w) (fs w) (tick w)
            (trace w ++ [Invoked Transform doc_id])%list)
    with (with_event (Invoked Transform doc_id) w).
  destruct (_mistral_transform_spec doc_id aj doc
              (with_event (Invoked Transform doc_id) w)) as (pp & t & -> & _).
  unfold bind at 1. unfold write_file, bind at 1, external_call, now. simpl.
  unfold bind at 1, get.
  destruct (write_outcome t (pdf_processed_path_of doc)) as [|msg|msg].
  - unfold set_fs. unfold bind at 1.
    erewrite update_step_status_eq; [|simpl; exact Hd|reflexivity].
    unfold bind at 1.
    erewrite mark_completed_eq; [|simpl; apply lookup_insert_eq].
    unfold bind, ret, final.
    apply stage_effect_after_mark; [reflexivity|reflexivity| |exact Hd|reflexivity].
    eapply (files_kept_new (pdf_processed_path_of doc)); [exact Hfs|reflexivity].
  - unfold raise. unfold bind at 1. effect_update Hd.
  - unfold set_fs, bind at 1, raise. unfold bind at 1. effect_update Hd.
    eapply (files_kept_new (pdf_processed_path_of doc)); [exact Hfs|reflexivity].
Qed.

End StageEffects.

(* ===================================================================== *)
(** ** Relations kept by every run *)
(* ===================================================================== *)

Section Keeps.

Context (R : relation World) `{!PreOrder R}.

Lemma keeps_ret {A} (a : A) : keeps R (ret a).
Proof. intros w. simpl. reflexivity. Qed.

Lemma keeps_raise {A} e : keeps R (raise (A := A) e).
Proof. intros w. simpl. reflexivity. Qed.

Lemma keeps_bind {A B} (m : M A) (f : A → M B) :
  keeps R m → (∀ a, keeps R (f a)) → keeps R (bind m f).
Proof.
  intros Hm Hf w. unfold bind. specialize (Hm w).
  destruct (m w) as [a w'|e w']; simpl in *; [|done].
  etransitivity; [exact Hm|apply Hf].
Qed.

Lemma keeps_fold_m {A B} (body : B → A → M B) l :
  (∀ acc x, keeps R (body acc x)) → ∀ acc, keeps R (fold_m body l acc).
Proof.
  intros Hb. induction l as [|x l IH]; intros acc; simpl.
  - apply keeps_ret.
  - apply keeps_bind; [apply Hb|apply IH].
Qed.

Lemma keeps_map_m {A B} (f : A → M B) l :
  (∀ x, keeps R (f x)) → keeps R (map_m f l).
Proof.
  intros Hf. induction l as [|x l IH]; simpl.
  - apply keeps_ret.
  - apply keeps_bind; [apply Hf|]. intros y.
    apply keeps_bind; [apply IH|]. intros ys. apply keeps_ret.
Qed.

Lemma keeps_if {A} (b : bool) (m1 m2 : M A) :
  keeps R m1 → keeps R m2 → keeps R (if b then m1 else m2).
Proof. by destruct b. Qed.

(** A computation that leaves the world as it is. *)
Lemma keeps_same {A} (m : M A) :
  (∀ w, final (m w) = w) → keeps R m.
Proof. intros Hm w. rewrite Hm. reflexivity. Qed.

Lemma doc_status_same doc_id w : final (doc_status doc_id w) = w.
Proof.
  unfold doc_status, bind, get. by destruct (documents (state w) !! doc_id).
Qed.

Lemma keeps_now :
  (∀ w t, R w (with_tick t w)) → keeps R now.
Proof. intros Ht w. apply Ht. Qed.

(** The orchestrators keep what the registrations, the executors and the
    clock keep. *)
Lemma keeps_process_all_documents `{Ext : External} urls :
  (∀ w t, R w (with_tick t w)) →
  (∀ u, keeps R (add_document u None None)) →
  (∀ i, keeps R (download_pdf i)) →
  (∀ i, keeps R (process_with_agentic_doc i)) →
  (∀ i, keeps R (transform_to_pdf_processed i)) →
  keeps R (process_all_documents urls).
Proof.
  intros Ht Ha Hd He Hs. unfold process_all_documents.
  apply keeps_bind; [by apply keeps_map_m|]. intros doc_ids.
  apply keeps_bind; [by apply keeps_now|]. intros t0.
  apply keeps_bind.
  { apply keeps_fold_m. intros acc i. unfold process_document.
    apply keeps_bind; [apply Hd|]. intros ok1.
    apply keeps_if; [apply keeps_ret|].
    apply keeps_bind; [apply He|]. intros ok2.
    apply keeps_if; [apply keeps_ret|].
    apply keeps_bind; [apply Hs|]. intros ok3.
    apply keeps_if; apply keeps_ret. }
  intros docs. apply keeps_bind; [by apply keeps_now|]. intros t1.
  apply keeps_ret.
Qed.

Lemma keeps_process_document_from_json `{Ext : External} acc item :
  keeps R (download_pdf item.1) →
  keeps R (process_with_agentic_doc item.1) →
  keeps R (transform_to_pdf_processed item.1) →
  keeps R (process_document_from_json acc item).
Proof.
  intros Hd He Hs. unfold process_document_from_json.
  apply keeps_bind; [apply keeps_same, doc_status_same|]. intros d.
  apply keeps_if; [apply keeps_ret|].
  apply keeps_bind; [apply keeps_if; [apply Hd|apply keeps_ret]|]. intros ok1.
  apply keeps_if; [apply keeps_ret|].
  apply keeps_bind; [apply keeps_same, doc_status_same|]. intros d1.
  apply keeps_bind; [apply keeps_if; [apply He|apply keeps_ret]|]. intros ok2.
  apply keeps_if; [apply keeps_ret|].
  apply keeps_bind; [apply keeps_same, doc_status_same|]. intros d2.
  apply keeps_bind; [apply keeps_if; [apply Hs|apply keeps_ret]|]. intros ok3.
  apply keeps_if; apply keeps_ret.
Qed.

(** The orchestrator over descriptors keeps what the registrations, the
    rounds of its loop and the clock keep. *)
Lemma keeps_rounds_from_json `{Ext : External} docs :
  (∀ w t, R w (with_tick t w)) →
  (∀ info, keeps R (add_document_from_json info)) →
  (∀ acc item, keeps R (process_document_from_json acc item)) →
  keeps R (process_all_documents_from_json docs).
Proof.
  intros Ht Ha Hr. unfold process_all_documents_from_json.
  apply keeps_bind.
  { apply keeps_fold_m. intros acc info. unfold register_from_json.
    apply keeps_bind; [apply Ha|]. intros [i|]; apply keeps_ret. }
  intros doc_ids.
  apply keeps_bind; [by apply keeps_now|]. intros t0.
  apply keeps_bind; [by apply keeps_fold_m|].
  intros rs. apply keeps_bind; [by apply keeps_now|]. intros t1.
  apply keeps_ret.
Qed.

Lemma keeps_process_all_documents_from_json `{Ext : External} docs :
  (∀ w t, R w (with_tick t w)) →
  (∀ info, keeps R (add_document_from_json info)) →
  (∀ i, keeps R (download_pdf i)) →
  (∀ i, keeps R (process_with_agentic_doc i)) →
  (∀ i, keeps R (transform_to_pdf_processed i)) →
  keeps R (process_all_documents_from_json docs).
Proof.
  intros Ht Ha Hd He Hs. apply keeps_rounds_from_json; [done|done|].
  intros acc item.
  apply keeps_process_document_from_json; [apply Hd|apply He|apply Hs].
Qed.

End Keeps.

(* ===================================================================== *)
(** ** The error list *)
(* ===================================================================== *)

Section Errors.

Context `{Ext : External}.

#[local] Instance errors_kept_preorder : PreOrder errors_kept.
Proof.
  split.
  - intros w i d Hd. by exists d.
  - intros w1 w2 w3 H12 H23 i d Hd.
    destruct (H12 i d Hd) as (d2 & Hd2 & Hp2).
    destruct (H23 i d2 Hd2) as (d3 & Hd3 & Hp3).
    exists d3. split; [done|]. by etransitivity.
Qed.

Lemma errors_kept_same_documents w w' :
  documents (state w') = documents (state w) → errors_kept w w'.
Proof. intros He i d Hd. exists d. by rewrite He. Qed.

Lemma errors_kept_new_document w w' i d0 :
  documents (state w) !! i = None →
  documents (state w') = <[i := d0]> (documents (state w)) →
  errors_kept w w'.
Proof.
  intros Hi He j d Hd. exists d. split; [|done].
  rewrite He, lookup_insert_ne; [done|]. intros ->. congruence.
Qed.

Lemma stage_effect_errors_kept n i w w' :
  stage_effect n i w w' → errors_kept w w'.
Proof.
  intros (_ & Hother & Hdoc & _) j d Hd.
  destruct (decide (j = i)) as [->|Hne].
  - rewrite Hd in Hdoc. destruct Hdoc as (d' & Hd' & Heff).
    exists d'. split; [done|]. apply Heff.
  - exists d. by rewrite Hother.
Qed.

Lemma update_step_status_errors_kept doc_id step st file_path error :
  keeps errors_kept (update_step_status doc_id step st file_path error).
Proof.
  intros w.
  destruct (documents (state w) !! doc_id) as [d|] eqn:Hd; last first.
  { rewrite update_step_status_unknown by done. reflexivity. }
  destruct (step_of_key step) as [n|] eqn:Hn; last first.
  { rewrite (update_step_status_bad_step _ _ _ _ _ _ d) by done. reflexivity. }
  rewrite (update_step_status_eq _ _ _ n _ _ _ d) by done.
  intros j dj Hj. simpl.
  destruct (decide (j = doc_id)) as [->|Hne].
  - rewrite lookup_insert_eq. eexists. split; [done|]. simpl.
    assert (dj = d) as -> by congruence.
    destruct (truthy_opt error); [by apply prefix_app_r|done].
  - rewrite lookup_insert_ne by done. by exists dj.
Qed.

Lemma add_document_errors_kept u doc_id filename :
  keeps errors_kept (add_document u doc_id filename).
Proof.
  intros w. destruct (add_document_eq u doc_id filename w) as [f ->].
  destruct (documents (state w) !! _) eqn:Hd; simpl; [reflexivity|].
  by eapply errors_kept_new_document.
Qed.

Lemma add_document_from_json_errors_kept doc_info :
  keeps errors_kept (add_document_from_json doc_info).
Proof.
  intros w.
  destruct (truthy_opt (di_source doc_info)) as [u|] eqn:Hu; last first.
  { rewrite add_document_from_json_refused by auto. reflexivity. }
  destruct (truthy_opt (di_name doc_info)) as [name|] eqn:Hn; last first.
  { rewrite add_document_from_json_refused by auto. reflexivity. }
  destruct (add_document_from_json_eq doc_info u name w Hu Hn) as (d & _ & ->).
  destruct (documents (state w) !! _) eqn:Hd; simpl; [reflexivity|].
  by eapply errors_kept_new_document.
Qed.

(** C10: [update_step_status] on a registered document leaves the error
    list as it was, with one entry appended when an error message is
    given; and every run of every method of the manager, returning or
    raising, keeps every record with all the errors it had, in order, at
    the head of its error list. *)
Theorem errors_append_only w :
  (∀ doc_id step st file_path error d,
     documents (state w) !! doc_id = Some d →
     is_Some (step_of_key step) →
     ∃ w' d',
       update_step_status doc_id step st file_path error w = Ok tt w' ∧
       documents (state w') !! doc_id = Some d' ∧
       errors d' =
         (errors d ++
          match truthy_opt error with
          | Some e => [mkErrorEntry step e (S (tick w))]
          | None => []
          end)%list) ∧
  (∀ doc_id step st file_path error,
     errors_kept w (final (update_step_status doc_id step st file_path error w))) ∧
  (∀ u doc_id filename, errors_kept w (final (add_document u doc_id filename w))) ∧
  (∀ doc_info, errors_kept w (final (add_document_from_json doc_info w))) ∧
  (∀ doc_id, errors_kept w (final (download_pdf doc_id w))) ∧
  (∀ doc_id, errors_kept w (final (process_with_agentic_doc doc_id w))) ∧
  (∀ doc_id, errors_kept w (final (transform_to_pdf_processed doc_id w))) ∧
  (∀ urls, errors_kept w (final (process_all_documents urls w))) ∧
  (∀ docs, errors_kept w (final (process_all_documents_from_json docs w))).
Proof.
  assert (Hd : ∀ i, keeps errors_kept (download_pdf i)).
  { intros i w0. eapply stage_effect_errors_kept, download_pdf_effect. }
  assert (He : ∀ i, keeps errors_kept (process_with_agentic_doc i)).
  { intros i w0. eapply stage_effect_errors_kept, process_with_agentic_doc_effect. }
  assert (Hs : ∀ i, keeps errors_kept (transform_to_pdf_processed i)).
  { intros i w0. eapply stage_effect_errors_kept, transform_to_pdf_processed_effect. }
  assert (Ht : ∀ w0 t, errors_kept w0 (with_tick t w0)).
  { intros w0 t. by apply errors_kept_same_documents. }
  split_and!.
  - intros doc_id step st file_path error d Hdoc [n Hn].
    eexists _, _. split; [by apply update_step_status_eq|].
    split; [apply lookup_insert_eq|]. simpl.
    destruct (truthy_opt error); [done|by rewrite app_nil_r].
  - intros. apply update_step_status_errors_kept.
  - intros. apply add_document_errors_kept.
  - intros. apply add_document_from_json_errors_kept.
  - intros. apply Hd.
  - intros. apply He.
  - intros. apply Hs.
  - intros urls. apply (keeps_process_all_documents errors_kept); try done.
    intros. apply add_document_errors_kept.
  - intros docs. apply (keeps_process_all_documents_from_json errors_kept); try done.
    intros. apply add_document_from_json_errors_kept.
Qed.

End Errors.

(* ===================================================================== *)
(** ** Resuming a document *)
(* ===================================================================== *)

Section Resume.

Context `{Ext : External}.
Context (doc_id : string) (v : StepEntry * StepEntry * option string * option string).

#[local] Instance files_kept_preorder : PreOrder files_kept.
Proof.
  split; [intros w; apply files_kept_refl|].
  intros w1 w2 w3 H12 H23 p c Hp. by apply H23, H12.
Qed.

Lemma quiet_refl w : quiet doc_id w w.
Proof.
  exists []. rewrite app_nil_r. split; [done|]. split; apply not_elem_of_nil.
Qed.

Lemma quiet_trans w1 w2 w3 :
  quiet doc_id w1 w2 → quiet doc_id w2 w3 → quiet doc_id w1 w3.
Proof.
  intros (e1 & H1 & Hd1 & Ha1) (e2 & H2 & Hd2 & Ha2).
  exists (e1 ++ e2)%list. rewrite H2, H1, app_assoc.
  split; [done|]. rewrite !elem_of_app. tauto.
Qed.

#[local] Instance resumed_preorder : PreOrder (resumed doc_id v).
Proof.
  split.
  - intros w Hw. split; [done|]. split; [apply quiet_refl|apply files_kept_refl].
  - intros w1 w2 w3 H12 H23 Hw.
    destruct (H12 Hw) as (Hw2 & Hq12 & Hf12).
    destruct (H23 Hw2) as (Hw3 & Hq23 & Hf23).
    split; [done|]. split; [by eapply quiet_trans|by etransitivity].
Qed.

#[local] Instance untouched_preorder : PreOrder (untouched doc_id).
Proof.
  split.
  - intros w. by split.
  - intros w1 w2 w3 [H12 Hp12] [H23 Hp23]. split; [|by etransitivity].
    intros Hs. rewrite H23, H12; [done|done|]. by rewrite H12.
Qed.

(** A call of an executor on another document, or of the structuring
    executor on this one, resumes. *)
Lemma stage_effect_resumed n j w w' :
  j ≠ doc_id ∨ n = Transform →
  stage_effect n j w w' → resumed doc_id v w w'.
Proof.
  intros Hcase (Ht & Hother & Hdoc & Hfs) (d & Hd & Hv).
  split_and!; [|exists [Invoked n j]|done].
  - destruct (decide (j = doc_id)) as [->|Hne].
    + destruct Hcase as [? | ->]; [done|].
      rewrite Hd in Hdoc. destruct Hdoc as (d' & Hd' & Heff).
      exists d'. split; [done|]. rewrite <- Hv.
      destruct Heff as (_ & _ & _ & _ & _ & Hsteps).
      destruct (Hsteps Download ltac:(done)) as [Hs1 Hf1].
      destruct (Hsteps AgenticProcess ltac:(done)) as [Hs2 Hf2].
      simpl in *. unfold ledger_view. by rewrite Hs1, Hs2, Hf1, Hf2.
    + exists d. split; [|done]. by rewrite Hother.
  - split; [done|]. rewrite !list_elem_of_singleton.
    destruct Hcase as [? | ->]; split; congruence.
Qed.

Lemma stage_effect_untouched n j w w' :
  j ≠ doc_id → stage_effect n j w w' → untouched doc_id w w'.
Proof.
  intros Hne (Ht & Hother & _ & _). split; [intros _; by apply Hother|].
  rewrite Ht. by apply prefix_app_r.
Qed.

Lemma stage_effect_trace_grows n j w w' :
  stage_effect n j w w' → (trace w) `prefix_of` (trace w').
Proof. intros (Ht & _). rewrite Ht. by apply prefix_app_r. Qed.

(** Registrations never touch a record that exists. *)
Lemma add_document_from_json_frame doc_info w :
  let w' := final (add_document_from_json doc_info w) in
  trace w' = trace w ∧ fs w' = fs w ∧
  ∀ j, is_Some (documents (state w) !! j) →
       documents (state w') !! j = documents (state w) !! j.
Proof.
  destruct (truthy_opt (di_source doc_info)) as [u|] eqn:Hu; last first.
  { by rewrite add_document_from_json_refused by auto. }
  destruct (truthy_opt (di_name doc_info)) as [name|] eqn:Hn; last first.
  { by rewrite add_document_from_json_refused by auto. }
  destruct (add_document_from_json_eq doc_info u name w Hu Hn) as (d & _ & ->).
  destruct (documents (state w) !! _) eqn:Hd; simpl; [done|].
  split; [done|]. split; [done|].
  intros j [dj Hj]. rewrite lookup_insert_ne; [done|]. intros <-. congruence.
Qed.

Lemma add_document_from_json_resumed doc_info :
  keeps (resumed doc_id v) (add_document_from_json doc_info).
Proof.
  intros w (d & Hd & Hv).
  destruct (add_document_from_json_frame doc_info w) as (Ht & Hf & Hdocs).
  split_and!.
  - exists d. split; [|done]. rewrite Hdocs; [done|eauto].
  - exists []. rewrite app_nil_r. split; [done|]. split; apply not_elem_of_nil.
  - intros p c. by rewrite Hf.
Qed.

Lemma with_tick_resumed w t : resumed doc_id v w (with_tick t w).
Proof.
  intros Hw. split; [exact Hw|]. split; [|by intros ? ?].
  exists []. simpl. rewrite app_nil_r. split; [done|]. split; apply not_elem_of_nil.
Qed.

Lemma resumed_intro w w' :
  (stands doc_id v w → resumed doc_id v w w') → resumed doc_id v w w'.
Proof. intros H Hs. exact (H Hs Hs). Qed.

(** One round of the loop resumes: on this document only the structuring
    executor can be called, since the first two steps are completed. *)
Lemma process_document_from_json_resumed acc item :
  st_status v.1.1.1 = COMPLETED →
  st_status v.1.1.2 = COMPLETED →
  keeps (resumed doc_id v) (process_document_from_json acc item).
Proof.
  intros Hv1 Hv2. destruct (decide (item.1 = doc_id)) as [Heq|Hne].
  - intros w. apply resumed_intro. intros (d & Hd & Hv).
    assert (st_status (download (steps d)) = COMPLETED) as Hs1.
    { by rewrite <- Hv in Hv1. }
    assert (st_status (agentic_process (steps d)) = COMPLETED) as Hs2.
    { by rewrite <- Hv in Hv2. }
    unfold process_document_from_json. rewrite Heq.
    unfold bind at 1. unfold doc_status at 1, bind at 1, get. rewrite Hd.
    unfold ret at 1.
    destruct (bool_decide (status d = COMPLETED)).
    { simpl. reflexivity. }
    rewrite Hs1. rewrite (bool_decide_eq_false_2 (COMPLETED ≠ COMPLETED)) by (by intros ?).
    unfold bind at 1. unfold ret at 1. change (negb true) with false. cbv iota.
    unfold bind at 1. unfold doc_status at 1, bind at 1, get. rewrite Hd.
    unfold ret at 1. rewrite Hs2.
    rewrite (bool_decide_eq_false_2 (COMPLETED ≠ COMPLETED)) by (by intros ?).
    unfold bind at 1. unfold ret at 1. change (negb true) with false. cbv iota.
    unfold bind at 1. unfold doc_status at 1, bind at 1, get. rewrite Hd.
    unfold ret at 1.
    destruct (bool_decide (st_status (transform (steps d)) ≠ COMPLETED)).
    + unfold bind at 1.
      pose proof (transform_to_pdf_processed_effect doc_id w) as Heff.
      apply (stage_effect_resumed Transform doc_id) in Heff; [|by right].
      destruct (transform_to_pdf_processed doc_id w) as [ok w'|e w']; simpl in *.
      * by destruct (negb ok).
      * done.
    + simpl. reflexivity.
  - apply (keeps_process_document_from_json (resumed doc_id v)).
    + intros w. eapply stage_effect_resumed; [by left|apply download_pdf_effect].
    + intros w. eapply stage_effect_resumed; [by left|apply process_with_agentic_doc_effect].
    + intros w. eapply stage_effect_resumed; [by left|apply transform_to_pdf_processed_effect].
Qed.

(** The whole run resumes. *)
Lemma process_all_documents_from_json_resumed docs :
  st_status v.1.1.1 = COMPLETED →
  st_status v.1.1.2 = COMPLETED →
  keeps (resumed doc_id v) (process_all_documents_from_json docs).
Proof.
  intros Hv1 Hv2. apply (keeps_rounds_from_json (resumed doc_id v)).
  - apply with_tick_resumed.
  - apply add_document_from_json_resumed.
  - intros acc item. by apply process_document_from_json_resumed.
Qed.

Lemma add_document_from_json_untouched doc_info :
  keeps (untouched doc_id) (add_document_from_json doc_info).
Proof.
  intros w. destruct (add_document_from_json_frame doc_info w) as (Ht & _ & Hdocs).
  split; [apply Hdocs|]. by rewrite Ht.
Qed.

Lemma with_tick_untouched w t : untouched doc_id w (with_tick t w).
Proof. by split. Qed.

(** A round on another document leaves this one untouched. *)
Lemma process_document_from_json_untouched acc item :
  item.1 ≠ doc_id →
  keeps (untouched doc_id) (process_document_from_json acc item).
Proof.
  intros Hne. apply (keeps_process_document_from_json (untouched doc_id)).
  - intros w. eapply stage_effect_untouched; [done|apply download_pdf_effect].
  - intros w. eapply stage_effect_untouched; [done|apply process_with_agentic_doc_effect].
  - intros w. eapply stage_effect_untouched; [done|apply transform_to_pdf_processed_effect].
Qed.

(** Any round only adds to the trace. *)
Lemma process_document_from_json_trace acc item w :
  (trace w) `prefix_of` (trace (final (process_document_from_json acc item w))).
Proof.
  revert w.
  change (keeps (λ w w', (trace w) `prefix_of` (trace w'))
            (process_document_from_json acc item)).
  assert (PreOrder (λ w w' : World, (trace w) `prefix_of` (trace w'))).
  { split; [by intros w|]. intros w1 w2 w3 ??. by etransitivity. }
  apply (keeps_process_document_from_json _).
  - intros w. eapply stage_effect_trace_grows, download_pdf_effect.
  - intros w. eapply stage_effect_trace_grows, process_with_agentic_doc_effect.
  - intros w. eapply stage_effect_trace_grows, transform_to_pdf_processed_effect.
Qed.

Lemma fold_process_trace l : ∀ acc w,
  (trace w) `prefix_of`
    (trace (final (fold_m process_document_from_json l acc w))).
Proof.
  induction l as [|x l IH]; intros acc w; simpl; [done|].
  unfold bind. pose proof (process_document_from_json_trace acc x w) as Hx.
  destruct (process_document_from_json acc x w) as [acc1 w1|e w1]; simpl in *; [|done].
  etransitivity; [exact Hx|apply IH].
Qed.

(** The round on a resumable record calls the structuring executor and
    nothing else. *)
Lemma process_document_from_json_structures acc info w d :
  documents (state w) !! doc_id = Some d →
  resumable d →
  trace (final (process_document_from_json acc (doc_id, info) w))
  = (trace w ++ [Invoked Transform doc_id])%list.
Proof.
  intros Hd (Hs1 & Hs2 & Hs3 & Hst).
  unfold process_document_from_json. simpl.
  unfold bind at 1. unfold doc_status at 1, bind at 1, get. rewrite Hd.
  unfold ret at 1.
  rewrite (bool_decide_eq_false_2 (status d = COMPLETED)) by done.
  rewrite Hs1. rewrite (bool_decide_eq_false_2 (COMPLETED ≠ COMPLETED)) by (by intros ?).
  unfold bind at 1. unfold ret at 1. change (negb true) with false. cbv iota.
  unfold bind at 1. unfold doc_status at 1, bind at 1, get. rewrite Hd.
  unfold ret at 1. rewrite Hs2.
  rewrite (bool_decide_eq_false_2 (COMPLETED ≠ COMPLETED)) by (by intros ?).
  unfold bind at 1. unfold ret at 1. change (negb true) with false. cbv iota.
  unfold bind at 1. unfold doc_status at 1, bind at 1, get. rewrite Hd.
  unfold ret at 1.
  rewrite (bool_decide_eq_true_2 (st_status (transform (steps d)) ≠ COMPLETED)) by done.
  unfold bind at 1.
  destruct (transform_to_pdf_processed_effect doc_id w) as (Ht & _).
  destruct (transform_to_pdf_processed doc_id w) as [ok w'|e w']; simpl in *; [|done].
  by destruct (negb ok).
Qed.

(** A loop that returns has called the structuring executor on every
    resumable record among its items. *)
Lemma fold_process_structures l : ∀ acc w res w' d info,
  (doc_id, info) ∈ l →
  documents (state w) !! doc_id = Some d →
  resumable d →
  fold_m process_document_from_json l acc w = Ok res w' →
  ∃ evs, trace w' = (trace w ++ evs)%list ∧ Invoked Transform doc_id ∈ evs.
Proof.
  induction l as [|[j info_j] l IH]; intros acc w res w' d info Hin Hd Hres Hrun.
  { by apply elem_of_nil in Hin. }
  simpl in Hrun. unfold bind in Hrun.
  destruct (decide (j = doc_id)) as [->|Hne].
  - pose proof (process_document_from_json_structures acc info_j w d Hd Hres) as Ht.
    destruct (process_document_from_json acc (doc_id, info_j) w) as [acc1 w1|e w1];
      [|done]. simpl in Ht.
    pose proof (fold_process_trace l acc1 w1) as [k Hk].
    rewrite Hrun in Hk. simpl in Hk.
    exists (Invoked Transform doc_id :: k). split.
    + rewrite Hk, Ht, <- app_assoc. done.
    + apply elem_of_cons. by left.
  - apply elem_of_cons in Hin as [Heq|Hin]; [congruence|].
    pose proof (process_document_from_json_untouched acc (j, info_j) Hne w) as [Hu [k Hk]].
    destruct (process_document_from_json acc (j, info_j) w) as [acc1 w1|e w1];
      [|done]. simpl in *.
    destruct (IH acc1 w1 res w' d info Hin) as (evs & Hevs & Hin'); try done.
    { rewrite Hu; [done|eauto]. }
    exists (k ++ evs)%list. split.
    + by rewrite Hevs, Hk, app_assoc.
    + apply elem_of_app. by right.
Qed.

(** The registration loop returns, with every accepted descriptor in its
    list, under the digest of its locator. *)
Lemma register_all docs : ∀ acc w,
  ∃ ids w1,
    fold_m register_from_json docs acc w = Ok ids w1 ∧
    untouched doc_id w w1 ∧
    (∀ x, x ∈ acc → x ∈ ids) ∧
    (∀ info u, info ∈ docs →
       truthy_opt (di_source info) = Some u →
       is_Some (truthy_opt (di_name info)) →
       (_get_document_id u, info) ∈ ids).
Proof.
  induction docs as [|info docs IH]; intros acc w; simpl.
  - exists acc, w. split; [done|]. split; [reflexivity|]. split; [done|].
    intros ?? Hin. by apply elem_of_nil in Hin.
  - unfold bind at 1. unfold register_from_json at 1. unfold bind at 1.
    pose proof (add_document_from_json_untouched info w) as Hun.
    assert (∃ r w0, add_document_from_json info w = Ok r w0 ∧
              (∀ u, truthy_opt (di_source info) = Some u →
                    is_Some (truthy_opt (di_name info)) →
                    r = Some (_get_document_id u))) as (r & w0 & Hr & Hacc).
    { destruct (truthy_opt (di_source info)) as [u|] eqn:Hu; last first.
      { rewrite add_document_from_json_refused by auto.
        eexists _, _. split; [done|]. intros ? [=]. }
      destruct (truthy_opt (di_name info)) as [name|] eqn:Hn; last first.
      { rewrite add_document_from_json_refused by auto.
        eexists _, _. split; [done|]. intros ? _ [? [=]]. }
      destruct (add_document_from_json_eq info u name w Hu Hn) as (d & _ & ->).
      destruct (documents (state w) !! _); eexists _, _;
        (split; [done|]); by intros ? [= ->] _. }
    rewrite Hr in Hun |- *. simpl in Hun.
    destruct r as [i|]; unfold ret at 1.
    + destruct (IH (acc ++ [(i, info)])%list w0) as (ids & w1 & -> & Hu1 & Hsub & Hall).
      exists ids, w1. split; [done|]. split; [by etransitivity|].
      split.
      * intros x Hx. apply Hsub. apply elem_of_app. by left.
      * intros info' u [->|Hin]%elem_of_cons Hs Hn.
        -- apply Hsub. apply elem_of_app. right.
           specialize (Hacc u Hs Hn). injection Hacc as ->.
           by apply list_elem_of_singleton.
        -- by apply Hall.
    + destruct (IH acc w0) as (ids & w1 & -> & Hu1 & Hsub & Hall).
      exists ids, w1. split; [done|]. split; [by etransitivity|].
      split; [done|].
      intros info' u [->|Hin]%elem_of_cons Hs Hn.
      * by specialize (Hacc u Hs Hn).
      * by apply Hall.
Qed.

End Resume.

(* ===================================================================== *)
(** ** Completed documents *)
(* ===================================================================== *)

Section Skip.

Context `{Ext : External}.
Context (doc_id : string).

#[local] Instance skipped_preorder : PreOrder (skipped doc_id).
Proof.
  split.
  - intros w _. split; [done|]. exists []. rewrite app_nil_r.
    split; [done|]. intros n. apply not_elem_of_nil.
  - intros w1 w2 w3 H12 H23 Hc.
    destruct (H12 Hc) as (Hd2 & e1 & He1 & Hn1).
    destruct H23 as (Hd3 & e2 & He2 & Hn2); [by rewrite Hd2|].
    split; [congruence|]. exists (e1 ++ e2)%list.
    rewrite He2, He1, app_assoc. split; [done|].
    intros n. rewrite elem_of_app. intros [?|?]; [by eapply Hn1|by eapply Hn2].
Qed.

Lemma stage_effect_skipped n j w w' :
  j ≠ doc_id → stage_effect n j w w' → skipped doc_id w w'.
Proof.
  intros Hne (Ht & Hother & _ & _) _. split; [by apply Hother|].
  exists [Invoked n j]. split; [done|].
  intros m. rewrite list_elem_of_singleton. congruence.
Qed.

Lemma with_tick_skipped w t : skipped doc_id w (with_tick t w).
Proof.
  intros _. split; [done|]. exists []. simpl. rewrite app_nil_r.
  split; [done|]. intros n. apply not_elem_of_nil.
Qed.

Lemma add_document_from_json_skipped doc_info :
  keeps (skipped doc_id) (add_document_from_json doc_info).
Proof.
  intros w (d & Hd & _).
  destruct (add_document_from_json_frame doc_info w) as (Ht & _ & Hdocs).
  split; [apply Hdocs; eauto|]. exists []. rewrite app_nil_r.
  split; [done|]. intros n. apply not_elem_of_nil.
Qed.

(** A round of [process_all_documents_from_json] on a completed document
    returns at once. *)
Lemma process_document_from_json_skipped acc item :
  keeps (skipped doc_id) (process_document_from_json acc item).
Proof.
  destruct (decide (item.1 = doc_id)) as [Heq|Hne].
  - intros w Hc. pose proof Hc as (d & Hd & Hst).
    revert Hc. change (skipped doc_id w (final (process_document_from_json acc item w))).
    unfold process_document_from_json. rewrite Heq.
    unfold bind at 1. unfold doc_status at 1, bind at 1, get. rewrite Hd.
    unfold ret at 1. rewrite bool_decide_eq_true_2 by done.
    simpl. reflexivity.
  - apply (keeps_process_document_from_json (skipped doc_id)).
    + intros w. eapply stage_effect_skipped; [done|apply download_pdf_effect].
    + intros w. eapply stage_effect_skipped; [done|apply process_with_agentic_doc_effect].
    + intros w. eapply stage_effect_skipped; [done|apply transform_to_pdf_processed_effect].
Qed.

(** The orchestrator over descriptors skips a completed document: its
    record is left as it is and no executor is called on it. *)
Lemma process_all_documents_from_json_skips docs w d :
  documents (state w) !! doc_id = Some d →
  status d = COMPLETED →
  documents (state (final (process_all_documents_from_json docs w))) !! doc_id = Some d ∧
  ∃ evs,
    trace (final (process_all_documents_from_json docs w)) = (trace w ++ evs)%list ∧
    ∀ n, Invoked n doc_id ∉ evs.
Proof.
  intros Hd Hst.
  assert (keeps (skipped doc_id) (process_all_documents_from_json docs)) as Hk.
  { apply (keeps_rounds_from_json (skipped doc_id)).
    - apply with_tick_skipped.
    - apply add_document_from_json_skipped.
    - apply process_document_from_json_skipped. }
  destruct (Hk w) as [Hdoc Hev]; [by exists d|].
  split; [by rewrite Hdoc|done].
Qed.

End Skip.

(** C7 (code against claim): a document completed by a first run of
    [process_all_documents] is not skipped by a second run over the same
    locator: the three executors are called on it again, and the entries
    of its steps get new timestamps. *)
Lemma completed_document_is_reprocessed :
  ∃ d1 d2,
    documents (state (first_run_world (Ext := demo_external))) !! "http://aip/a" = Some d1 ∧
    status d1 = COMPLETED ∧
    trace (final (process_all_documents (Ext := demo_external) ["http://aip/ad2.pdf"]
                    (first_run_world (Ext := demo_external))))
    = (trace (first_run_world (Ext := demo_external)) ++
       [Invoked Download "http://aip/a"; Invoked AgenticProcess "http://aip/a";
        Invoked Transform "http://aip/a"])%list ∧
    documents (state (final (process_all_documents (Ext := demo_external)
                               ["http://aip/ad2.pdf"]
                               (first_run_world (Ext := demo_external)))))
      !! "http://aip/a" = Some d2 ∧
    st_timestamp (download (steps d1)) = Some 6 ∧
    st_timestamp (download (steps d2)) = Some 23.
Proof.
  eexists _, _.
  split; [vm_compute; reflexivity|]. split; [reflexivity|].
  split; [vm_compute; reflexivity|].
  split; [vm_compute; reflexivity|].
  split; reflexivity.
Qed.

(* ===================================================================== *)
(** ** Examples on the concrete manager *)
(* ===================================================================== *)

(** A step update on a registered document writes the state file. *)
Lemma mutations_are_saved_witness :
  ∃ w',
    update_step_status "a" "download" COMPLETED (Some "work/pdfs/a.pdf") None
      (final (add_document (Ext := demo_external) "a" None None fresh_world)) = Ok tt w' ∧
    state_file w' = Some (state w').
Proof.
  destruct (mutations_are_saved (Ext := demo_external)
              (final (add_document (Ext := demo_external) "a" None None fresh_world)))
    as (_ & _ & Hupd).
  destruct (Hupd "a" "download" COMPLETED (Some "work/pdfs/a.pdf") None) as [_ Hok].
  apply Hok.
  - vm_compute. eauto.
  - vm_compute. eauto.
Defined.

(** The figure of page 5 leaves no trace in a content of two pages. *)
Lemma pages_from_chunks_only_witness :
  total_pages_of (group_by_page cd_grounding (aj_chunks demo_agentic_json)) = 2%Z ∧
  ∃ pp pp' w',
    _mistral_transform (Ext := demo_external) "http://aip/a" demo_agentic_json
      demo_extracted_document (extracted_world (Ext := demo_external)) = Ok (Some pp) w' ∧
    _mistral_transform (Ext := demo_external) "http://aip/a"
      (mkAgenticJson (aj_source_url demo_agentic_json) (aj_chunks demo_agentic_json)
         [mkFigureData "figure_0" "Aerodrome chart" "ChunkType.figure"
            (Some [mkGroundingData (Some 1%Z) (Some "box")])])
      demo_extracted_document (extracted_world (Ext := demo_external)) = Ok (Some pp') w' ∧
    pp_content pp' = pp_content pp.
Proof.
  split; [vm_compute; reflexivity|].
  destruct (pages_from_chunks_only (Ext := demo_external) "http://aip/a" demo_agentic_json
              demo_extracted_document (extracted_world (Ext := demo_external)))
    as (_ & _ & _ & Hdrop).
  apply (Hdrop
           [mkFigureData "figure_0" "Aerodrome chart" "ChunkType.figure"
              (Some [mkGroundingData (Some 1%Z) (Some "box")])]
           (mkFigureData "figure_1" "Approach chart" "ChunkType.figure"
              (Some [mkGroundingData (Some 5%Z) None]))
           []).
  - reflexivity.
  - intros q Hq. apply list_elem_of_singleton in Hq. subst q.
    vm_compute. reflexivity.
Defined.

(** The entry of a failed download is still there once the download is
    recorded as completed. *)
Lemma errors_append_only_witness :
  ∃ w' d',
    update_step_status "a" "download" COMPLETED (Some "work/pdfs/a.pdf") None
      failed_download_world = Ok tt w' ∧
    documents (state w') !! "a" = Some d' ∧
    errors d' = ([mkErrorEntry "download" "timeout" 4] ++ [])%list.
Proof.
  destruct (errors_append_only (Ext := demo_external) failed_download_world) as (Happ & _).
  apply (Happ "a" "download" COMPLETED (Some "work/pdfs/a.pdf") None
           (mkDocument "a" "a.pdf" empty_metadata FAILED 1
              (mkSteps (mkStepEntry FAILED (Some 3)) (mkStepEntry PENDING None)
                 (mkStepEntry PENDING None))
              ∅ [mkErrorEntry "download" "timeout" 4])).
  - vm_compute. reflexivity.
  - vm_compute. eauto.
Defined.

(** On the examples the call for the page "Frequencies" raises and the
    other calls answer: the step is completed, the first page and its
    figure carry the reply, and the second page carries the placeholder
    with the text of the page as its excerpt. *)
Lemma structuring_falls_back_witness :
  ∃ w' d' pp,
    transform_to_pdf_processed (Ext := demo_external) "http://aip/a"
      (extracted_world (Ext := demo_external)) = Ok true w' ∧
    documents (state w') !! "http://aip/a" = Some d' ∧
    st_status (transform (steps d')) = COMPLETED ∧
    fs w' !! "work/_AIPs/argentina/pdf_processed/AD2.json" = Some (ProcessedFile pp) ∧
    pp_content pp =
      [ mkPageObj 1 "Runway 09/27" (JObj [("description", JStr "ok")])
          [JObj [("description", JStr "ok")]] [];
        mkPageObj 2 "Frequencies"
          (JObj [("file_name", JStr "AD2");
                 ("topics", JArr [JStr "aviation"; JStr "navigation"; JStr "charts"]);
                 ("languages", JArr [JStr "english"; JStr "spanish"]);
                 ("description", JStr "Page content from aeronautical document");
                 ("ocr_contents", JObj [("raw_content", JStr "Frequencies")])])
          [] [] ].
Proof.
  edestruct (structuring_falls_back (Ext := demo_external) "http://aip/a"
               demo_extracted_document
               "work/_AIPs/argentina/agentic_outputs/AD2.json"
               demo_artifact demo_agentic_json (extracted_world (Ext := demo_external)))
    as (w' & d' & pp & Hrun & Hd' & Hst & _ & _ & Hfs & Hpages & _).
  - vm_compute. reflexivity.
  - reflexivity.
  - reflexivity.
  - vm_compute. reflexivity.
  - intros w0. vm_compute. reflexivity.
  - vm_compute. reflexivity.
  - intros n. reflexivity.
  - exists w', d', pp. split; [exact Hrun|]. split; [exact Hd'|].
    split; [exact Hst|]. split; [exact Hfs|].
    etransitivity; [exact Hpages|]. vm_compute. reflexivity.
Defined.

(* ===================================================================== *)
(** ** How each executor ends *)
(* ===================================================================== *)

Section StageRuns.

Context `{Ext : External}.

(** [_mistral_transform] never moves the clock back. *)
Lemma map_m_clock_le {A B} (f : A → M B) l :
  (∀ x w, ∃ y t, f x w = Ok y (with_tick t w) ∧ (tick w ≤ t)%nat) →
  ∀ w, ∃ ys t, map_m f l w = Ok ys (with_tick t w) ∧ (tick w ≤ t)%nat.
Proof.
  intros Hf. induction l as [|x l IH]; intros w; simpl.
  - exists [], (tick w). by rewrite with_tick_id.
  - unfold bind at 1. destruct (Hf x w) as (y & t & -> & Hy).
    unfold bind at 1. destruct (IH (with_tick t w)) as (ys & t' & -> & Hys).
    exists (y :: ys), t'. split; [done|]. simpl in Hys. lia.
Qed.

Lemma structure_figures_clock page_num doc_metadata page_figures :
  ∀ i acc w,
  ∃ l t, structure_figures i page_figures page_num doc_metadata acc w
           = Ok l (with_tick t w) ∧ (tick w ≤ t)%nat.
Proof.
  induction page_figures as [|fig r IH]; intros i acc w; simpl.
  - exists acc, (tick w). by rewrite with_tick_id.
  - unfold bind at 1. unfold _mistral_structure_image.
    destruct (PyStr.blank (fd_text fig)).
    + unfold ret at 1. apply IH.
    + unfold bind at 1. rewrite chat_json_eq. unfold ret at 1.
      destruct (IH (S i) (append_if_truthy acc
                  (Some (chat_outcome (tick w) (ocr_prompt "image" (fd_text fig)) 3000
                           (image_fallback (fd_text fig) i page_num doc_metadata))))
                  (with_tick (S (tick w)) w)) as (l & t & -> & Ht).
      exists l, t. split; [done|]. simpl in Ht. lia.
Qed.

Lemma _mistral_transform_clock doc_id agentic_json doc w :
  ∃ pp t,
    _mistral_transform doc_id agentic_json doc w = Ok (Some pp) (with_tick t w) ∧
    (tick w < t)%nat.
Proof.
  unfold _mistral_transform. unfold bind at 1.
  edestruct (map_m_clock_le
               (structure_page (PyStr.rsplit_dot_head (original_filename doc)) (metadata doc)
                  (default "unknown" (aj_source_url agentic_json))
                  (group_by_page cd_grounding (aj_chunks agentic_json))
                  (group_by_page fd_grounding (aj_figures agentic_json))))
    as (ys & t & -> & Ht).
  { intros p w0. unfold structure_page. unfold bind at 1.
    unfold _mistral_structure_page.
    destruct (PyStr.blank _).
    - unfold ret at 1. unfold bind at 1.
      edestruct (structure_figures_clock p (metadata doc)) as (l & t & -> & Ht).
      eexists _, t. split; [reflexivity|done].
    - rewrite chat_json_eq. unfold bind at 1.
      edestruct (structure_figures_clock p (metadata doc)) as (l & t & -> & Ht).
      eexists _, t. split; [reflexivity|]. simpl in Ht. lia. }
  unfold bind, now, ret. simpl.
  eexists _, _. split; [reflexivity|]. lia.
Qed.

Lemma entered_event n doc_id w :
  entered n doc_id w (with_event (Invoked n doc_id) w).
Proof. unfold entered. simpl. split_and!; try done. by intros ? ?. Qed.

Ltac entered_now :=
  unfold entered; simpl; split_and!; [reflexivity|reflexivity|reflexivity| |lia].

(** [download_pdf] *)
Lemma download_pdf_run doc_id w :
  stage_run Download doc_id w (download_pdf doc_id w).
Proof.
  unfold download_pdf.
  unfold bind at 1. unfold record_event.
  unfold bind at 1. unfold get_document_status at 1, bind at 1, get, ret. simpl.
  destruct (documents (state w) !! doc_id) as [doc|] eqn:Hd.
  2:{ by apply run_unknown. }
  drop_default_filename.
  unfold bind at 1. rewrite (_get_output_dirs_eq doc_id doc) by done.
  fold (pdf_path_of doc).
  unfold bind at 1. unfold path_exists. simpl.
  destruct (fs w !! pdf_path_of doc) as [c|] eqn:Hfs.
  { rewrite bool_decide_eq_true_2 by eauto.
    unfold bind at 1.
    erewrite update_step_status_eq; [|simpl; exact Hd|reflexivity].
    apply (run_completed Download doc_id w doc); [done|by intros ? [=]| | |done|].
    - apply entered_event.
    - simpl. rewrite Hfs. eauto.
    - intros Hn. exfalso. unfold artifact_path in Hn. congruence. }
  rewrite bool_decide_eq_false_2 by (by intros [? ?]).
  unfold try_except, bind at 1, external_call, now.
  cbn [tick state state_file fs trace].
  destruct (requests_get (tick w) (url doc)) as [content|msg].
  - unfold bind at 1. unfold write_file, bind at 1, external_call, now.
    cbn [tick state state_file fs trace].
    unfold bind at 1, get.
    destruct (write_outcome (S (tick w)) (pdf_path_of doc)) as [|msg|msg].
    + unfold set_fs. unfold bind at 1.
      erewrite update_step_status_eq; [|simpl; exact Hd|reflexivity].
      apply (run_completed Download doc_id w doc); [done|by intros ? [=]| | | |done].
      * entered_now. eapply (files_kept_new (pdf_path_of doc)); [exact Hfs|reflexivity].
      * simpl. rewrite lookup_insert_eq. eauto.
      * intros [? Hs]. unfold artifact_path in Hs. congruence.
    + unfold raise. unfold bind at 1.
      erewrite update_step_status_eq; [|simpl; exact Hd|reflexivity].
      apply (run_failed Download doc_id w doc); [done|by intros ? [=]| |done|].
      * entered_now. by intros ? ?.
      * eexists. reflexivity.
    + unfold set_fs, bind at 1, raise. unfold bind at 1.
      erewrite update_step_status_eq; [|simpl; exact Hd|reflexivity].
      apply (run_failed Download doc_id w doc); [done|by intros ? [=]| |done|].
      * entered_now. eapply (files_kept_new (pdf_path_of doc)); [exact Hfs|reflexivity].
      * eexists. reflexivity.
  - unfold raise. unfold bind at 1.
    erewrite update_step_status_eq; [|simpl; exact Hd|reflexivity].
    apply (run_failed Download doc_id w doc); [done|by intros ? [=]| |done|].
    + entered_now. by intros ? ?.
    + eexists. reflexivity.
Qed.

(** [process_with_agentic_doc] *)
Lemma process_with_agentic_doc_run_cases doc_id w :
  stage_run AgenticProcess doc_id w (process_with_agentic_doc doc_id w).
Proof.
  unfold process_with_agentic_doc.
  unfold bind at 1. unfold record_event.
  unfold bind at 1. unfold get_document_status at 1, bind at 1, get, ret. simpl.
  destruct (documents (state w) !! doc_id) as [doc|] eqn:Hd.
  2:{ by apply run_unknown. }
  destruct (decide (st_status (download (steps doc)) = COMPLETED)) as [Hst|Hst].
  2:{ rewrite bool_decide_eq_true_2 by done.
      by apply (run_not_ready AgenticProcess doc_id w doc Download). }
  rewrite bool_decide_eq_false_2 by (by intros ?).
  unfold bind at 1. unfold files_item.
  destruct (files doc !! "download") as [pdf_path|] eqn:Hf.
  2:{ by apply (run_no_input AgenticProcess doc_id w doc Download). }
  assert (Hprev : ready AgenticProcess doc).
  { intros m [= <-]. split; [done|]. simpl. rewrite Hf. eauto. }
  unfold ret at 1.
  unfold bind at 1. rewrite (_get_output_dirs_eq doc_id doc) by done.
  fold (output_json_path_of doc).
  unfold bind at 1. unfold path_exists. simpl.
  destruct (fs w !! output_json_path_of doc) as [c|] eqn:Hfs.
  { rewrite bool_decide_eq_true_2 by eauto.
    unfold bind at 1.
    erewrite update_step_status_eq; [|simpl; exact Hd|reflexivity].
    apply (run_completed AgenticProcess doc_id w doc); [done|done| | |done|].
    - apply entered_event.
    - simpl. rewrite Hfs. eauto.
    - intros Hn. exfalso. unfold artifact_path in Hn. congruence. }
  rewrite bool_decide_eq_false_2 by (by intros [? ?]).
  unfold try_except, bind at 1, external_call, now.
  cbn [tick state state_file fs trace].
  destruct (parse (tick w) pdf_path) as [result|msg].
  - unfold bind at 1. cbn [tick state state_file fs trace].
    unfold bind at 1. unfold write_file, bind at 1, external_call, now.
    cbn [tick state state_file fs trace].
    unfold bind at 1, get.
    destruct (write_outcome (S (S (tick w))) (output_json_path_of doc)) as [|msg|msg].
    + unfold set_fs. unfold bind at 1.
      erewrite update_step_status_eq; [|simpl; exact Hd|reflexivity].
      apply (run_completed AgenticProcess doc_id w doc); [done|done| | | |done].
      * entered_now.
        eapply (files_kept_new (output_json_path_of doc)); [exact Hfs|reflexivity].
      * simpl. rewrite lookup_insert_eq. eauto.
      * intros [? Hs]. unfold artifact_path in Hs. congruence.
    + unfold raise. unfold bind at 1.
      erewrite update_step_status_eq; [|simpl; exact Hd|reflexivity].
      apply (run_failed AgenticProcess doc_id w doc); [done|done| |done|].
      * entered_now. by intros ? ?.
      * eexists. reflexivity.
    + unfold set_fs, bind at 1, raise. unfold bind at 1.
      erewrite update_step_status_eq; [|simpl; exact Hd|reflexivity].
      apply (run_failed AgenticProcess doc_id w doc); [done|done| |done|].
      * entered_now.
        eapply (files_kept_new (output_json_path_of doc)); [exact Hfs|reflexivity].
      * eexists. reflexivity.
  - unfold raise. unfold bind at 1.
    erewrite update_step_status_eq; [|simpl; exact Hd|reflexivity].
    apply (run_failed AgenticProcess doc_id w doc); [done|done| |done|].
    + entered_now. by intros ? ?.
    + eexists. reflexivity.
Qed.

(** [transform_to_pdf_processed] *)
Lemma transform_to_pdf_processed_run_cases doc_id w :
  stage_run Transform doc_id w (transform_to_pdf_processed doc_id w).
Proof.
  unfold transform_to_pdf_processed.
  unfold bind at 1. unfold record_event.
  unfold bind at 1. unfold get_document_status at 1, bind at 1, get, ret. simpl.
  destruct (documents (state w) !! doc_id) as [doc|] eqn:Hd.
  2:{ by apply run_unknown. }
  destruct (decide (st_status (agentic_process (steps doc)) = COMPLETED)) as [Hst|Hst].
  2:{ rewrite bool_decide_eq_true_2 by done.
      by apply (run_not_ready Transform doc_id w doc AgenticProcess). }
  rewrite bool_decide_eq_false_2 by (by intros ?).
  unfold bind at 1. unfold files_item.
  destruct (files doc !! "agentic_process") as [path|] eqn:Hf.
  2:{ by apply (run_no_input Transform doc_id w doc AgenticProcess). }
  assert (Hprev : ready Transform doc).
  { intros m [= <-]. split; [done|]. simpl. rewrite Hf. eauto. }
  unfold ret at 1.
  unfold bind at 1. rewrite (_get_output_dirs_eq doc_id doc) by done.
  fold (pdf_processed_path_of doc).
  unfold bind at 1. unfold path_exists. simpl.
  destruct (fs w !! pdf_processed_path_of doc) as [c|] eqn:Hfs.
  { rewrite bool_decide_eq_true_2 by eauto.
    unfold bind at 1.
    erewrite update_step_status_eq; [|simpl; exact Hd|reflexivity].
    apply (run_completed Transform doc_id w doc); [done|done| | |done|].
    - apply entered_event.
    - simpl. rewrite Hfs. eauto.
    - intros Hn. exfalso. unfold artifact_path in Hn. congruence. }
  rewrite bool_decide_eq_false_2 by (by intros [? ?]).
  unfold try_except, bind at 1, read_file. simpl.
  destruct (fs w !! path) as [d|].
  2:{ unfold bind at 1.
      erewrite update_step_status_eq; [|simpl; exact Hd|reflexivity].
      apply (run_failed Transform doc_id w doc); [done|done| |done|].
      - apply entered_event.
      - eexists. reflexivity. }
  unfold bind at 1.
  assert ((∃ aj, ∀ w0, json_load d w0 = Ok aj w0) ∨
          (∃ e, ∀ w0, json_load d w0 = Raise e w0)) as [[aj Hl]|[e Hl]].
  { destruct d; simpl; eauto. }
  2:{ rewrite Hl. unfold bind at 1.
      erewrite update_step_status_eq; [|simpl; exact Hd|reflexivity].
      apply (run_failed Transform doc_id w doc); [done|done| |done|].
      - apply entered_event.
      - eexists. reflexivity. }
  rewrite Hl. unfold bind at 1.
  change (mkWorld (state w) (state_file w) (fs w) (tick w)
            (trace w ++ [Invoked Transform doc_id])%list)
    with (with_event (Invoked Transform doc_id) w).
  destruct (_mistral_transform_clock doc_id aj doc
              (with_event (Invoked Transform doc_id) w)) as (pp & t & -> & Ht).
  simpl in Ht.
  unfold bind at 1. unfold write_file, bind at 1, external_call, now.
  cbn [tick state state_file fs trace with_tick with_event].
  unfold bind at 1, get.
  destruct (write_outcome t (pdf_processed_path_of doc)) as [|msg|msg].
  - unfold set_fs. unfold bind at 1.
    erewrite update_step_status_eq; [|simpl; exact Hd|reflexivity].
    unfold bind at 1.
    erewrite mark_completed_eq; [|simpl; apply lookup_insert_eq].
    unfold bind, ret.
    apply (run_marked Transform doc_id w doc); [done|done|done| |done|].
    + unfold entered; simpl; split_and!; [reflexivity|reflexivity|reflexivity| |lia].
      eapply (files_kept_new (pdf_processed_path_of doc)); [exact Hfs|reflexivity].
    + simpl. rewrite lookup_insert_eq. eauto.
  - unfold raise. unfold bind at 1.
    erewrite update_step_status_eq; [|simpl; exact Hd|reflexivity].
    apply (run_failed Transform doc_id w doc); [done|done| |done|].
    + unfold entered; simpl; split_and!; [reflexivity|reflexivity|reflexivity| |lia].
      by intros ? ?.
    + eexists. reflexivity.
  - unfold set_fs, bind at 1, raise. unfold bind at 1.
    erewrite update_step_status_eq; [|simpl; exact Hd|reflexivity].
    apply (run_failed Transform doc_id w doc); [done|done| |done|].
    + unfold entered; simpl; split_and!; [reflexivity|reflexivity|reflexivity| |lia].
      eapply (files_kept_new (pdf_processed_path_of doc)); [exact Hfs|reflexivity].
    + eexists. reflexivity.
Qed.

End StageRuns.

(* ===================================================================== *)
(** ** What the result of an executor tells *)
(* ===================================================================== *)

Section StageOutcome.

Context `{Ext : External}.

Lemma run_stage_cases n doc_id w : stage_run n doc_id w (run_stage n doc_id w).
Proof.
  destruct n; simpl.
  - apply download_pdf_run.
  - apply process_with_agentic_doc_run_cases.
  - apply transform_to_pdf_processed_run_cases.
Qed.

Lemma artifact_path_truthy n doc : PyStr.truthy (artifact_path n doc) = true.
Proof. destruct n; apply path_join_truthy. Qed.

Lemma error_prefix_truthy n m : PyStr.truthy (error_prefix n +:+ m) = true.
Proof. by destruct n. Qed.

Lemma not_ready_not_ready n doc m :
  previous_step n = Some m →
  st_status (get_step m (steps doc)) ≠ COMPLETED → ¬ ready n doc.
Proof. intros Hm Hst Hr. by destruct (Hr m Hm). Qed.

Lemma no_input_not_ready n doc m :
  previous_step n = Some m → files doc !! step_key m = None → ¬ ready n doc.
Proof. intros Hm Hf Hr. destruct (Hr m Hm) as [_ [? ?]]. congruence. Qed.

(** The result of an executor on a record that is ready. *)
Lemma stage_post n doc_id w doc :
  documents (state w) !! doc_id = Some doc →
  ready n doc →
  ∃ b w' d' t,
    run_stage n doc_id w = Ok b w' ∧
    documents (state w') !! doc_id = Some d' ∧
    (∀ j, j ≠ doc_id → documents (state w') !! j = documents (state w) !! j) ∧
    steps d' = set_step n (mkStepEntry (if b then COMPLETED else FAILED) (Some t)) (steps doc) ∧
    (∀ m, m ≠ n → files d' !! step_key m = files doc !! step_key m) ∧
    (status d' = recompute_status (status doc) (all_steps (steps d')) ∨
     (n = Transform ∧ b = true ∧ status d' = COMPLETED)) ∧
    (if b then
       files d' !! step_key n = Some (artifact_path n doc) ∧
       is_Some (fs w' !! artifact_path n doc) ∧
       errors d' = errors doc
     else
       files d' = files doc ∧
       fs w !! artifact_path n doc = None ∧
       ∃ m t', errors d' =
               (errors doc ++ [mkErrorEntry (step_key n) (error_prefix n +:+ m) t'])%list) ∧
    state_file w' = Some (state w') ∧
    files_kept w w' ∧
    trace w' = (trace w ++ [Invoked n doc_id])%list.
Proof.
  intros Hd Hready.
  pose proof (run_stage_cases n doc_id w) as Hrun.
  destruct Hrun as [Hn|doc' m Hd' Hm Hst|doc' m Hd' Hm Hst Hf|doc' w1 Hd' _ He Hfs _ _|
                    doc' w1 Hlast Hd' _ He _ Hfs|doc' w1 msg Hd' _ He Hfs [m ->]].
  - congruence.
  - assert (doc' = doc) as -> by congruence. exfalso. by apply (not_ready_not_ready n doc m Hm Hst).
  - assert (doc' = doc) as -> by congruence.
    exfalso. by apply (no_input_not_ready n doc m Hm Hf).
  - assert (doc' = doc) as -> by congruence.
    destruct He as (Ht & Hs & Hsf & Hk & _).
    eexists true, _, _, (tick w1). split; [reflexivity|].
    split; [simpl; apply lookup_insert_eq|]. simpl.
    rewrite artifact_path_truthy, Hs.
    split_and!; try done.
    + intros j Hj. by rewrite lookup_insert_ne.
    + intros m Hm. rewrite lookup_insert_ne; [done|]. by destruct n, m.
    + by left.
    + apply lookup_insert_eq.
  - assert (doc' = doc) as -> by congruence.
    destruct He as (Ht & Hs & Hsf & Hk & _).
    eexists true, _, _, (tick w1). split; [reflexivity|].
    split; [simpl; apply lookup_insert_eq|]. simpl.
    rewrite artifact_path_truthy, Hs.
    split_and!; try done.
    + intros j Hj. by rewrite !lookup_insert_ne.
    + intros m Hm. rewrite lookup_insert_ne; [done|]. by destruct n, m.
    + by right.
    + apply lookup_insert_eq.
  - assert (doc' = doc) as -> by congruence.
    destruct He as (Ht & Hs & Hsf & Hk & _).
    eexists false, _, _, (tick w1). split; [reflexivity|].
    split; [simpl; apply lookup_insert_eq|]. simpl.
    rewrite error_prefix_truthy, Hs.
    split_and!; try done.
    + intros j Hj. by rewrite lookup_insert_ne.
    + by left.
    + eauto.
Qed.

(** X1: when an executor started on a record that is ready returns, its
    result tells what it recorded: [True] goes with its step recorded
    completed, the path of its artifact in the ledger, a file at that
    path and no new error; [False] goes with its step and the document
    recorded failed, one error appended under the message head of the
    executor, and the paths of the ledger unchanged.  In both cases the
    state file holds the new ledger. *)
Theorem executor_outcome n doc_id w doc b w' :
  documents (state w) !! doc_id = Some doc →
  ready n doc →
  run_stage n doc_id w = Ok b w' →
  ∃ d',
    documents (state w') !! doc_id = Some d' ∧
    state_file w' = Some (state w') ∧
    if b then
      st_status (get_step n (steps d')) = COMPLETED ∧
      files d' !! step_key n = Some (artifact_path n doc) ∧
      is_Some (fs w' !! artifact_path n doc) ∧
      errors d' = errors doc
    else
      st_status (get_step n (steps d')) = FAILED ∧
      status d' = FAILED ∧
      files d' = files doc ∧
      ∃ m t, errors d' =
             (errors doc ++ [mkErrorEntry (step_key n) (error_prefix n +:+ m) t])%list.
Proof.
  intros Hd Hready Hret.
  destruct (stage_post n doc_id w doc Hd Hready)
    as (b0 & w0 & d' & t & Hrun & Hd' & _ & Hsteps & _ & Hstatus & Hb & Hsf & _).
  rewrite Hret in Hrun. injection Hrun as <- <-.
  exists d'. split; [done|]. split; [done|].
  destruct b.
  - destruct Hb as (Hf & Hfs & He). split_and!; try done.
    rewrite Hsteps. by destruct n.
  - destruct Hb as (Hf & _ & He).
    assert (st_status (get_step n (steps d')) = FAILED) as Hst.
    { rewrite Hsteps. by destruct n. }
    split_and!; try done.
    destruct Hstatus as [->|(_ & [=] & _)].
    apply recompute_status_failed. rewrite all_steps_three.
    destruct n; simpl in Hst; rewrite Hst;
      repeat first [by apply Exists_cons_hd | apply Exists_cons_tl].
Qed.

(** X2: an executor called on an unknown document, or on a record whose
    step before is not completed, returns [False] and records nothing:
    but for the call in the trace the world is as it was (no failure in
    the ledger, no write of the state file, no service called). *)
Theorem executor_refuses n doc_id w :
  (documents (state w) !! doc_id = None ∨
   ∃ doc m, documents (state w) !! doc_id = Some doc ∧
            previous_step n = Some m ∧
            st_status (get_step m (steps doc)) ≠ COMPLETED) →
  run_stage n doc_id w = Ok false (with_event (Invoked n doc_id) w).
Proof.
  intros Hcase.
  pose proof (run_stage_cases n doc_id w) as Hrun.
  destruct Hrun as [Hn|doc' m Hd' Hm Hst|doc' m Hd' Hm Hst Hf|doc' w1 Hd' Hr _ _ _ _|
                    doc' w1 _ Hd' Hr _ _ _|doc' w1 msg Hd' Hr _ _ _]; try done.
  - exfalso. destruct Hcase as [?|(doc & m0 & Hd & Hm0 & Hst0)]; [congruence|].
    assert (doc' = doc) as -> by congruence.
    assert (m0 = m) as -> by congruence. done.
  - exfalso. destruct Hcase as [?|(doc & m0 & Hd & Hm0 & Hst0)]; [congruence|].
    assert (doc' = doc) as -> by congruence. by destruct (Hr m0 Hm0).
  - exfalso. destruct Hcase as [?|(doc & m0 & Hd & Hm0 & Hst0)]; [congruence|].
    assert (doc' = doc) as -> by congruence. by destruct (Hr m0 Hm0).
  - exfalso. destruct Hcase as [?|(doc & m0 & Hd & Hm0 & Hst0)]; [congruence|].
    assert (doc' = doc) as -> by congruence. by destruct (Hr m0 Hm0).
Qed.

(** The executor whose input has no path in the ledger. *)
Lemma run_stage_no_input n m doc_id doc w :
  documents (state w) !! doc_id = Some doc →
  previous_step n = Some m →
  st_status (get_step m (steps doc)) = COMPLETED →
  files doc !! step_key m = None →
  run_stage n doc_id w = Raise (KeyError (step_key m)) (with_event (Invoked n doc_id) w).
Proof.
  intros Hd Hm Hst Hf.
  pose proof (run_stage_cases n doc_id w) as Hrun.
  destruct Hrun as [Hn|doc' m' Hd' Hm' Hst'|doc' m' Hd' Hm' Hst' Hf'|doc' w1 Hd' Hr _ _ _ _|
                    doc' w1 _ Hd' Hr _ _ _|doc' w1 msg Hd' Hr _ _ _].
  - congruence.
  - assert (doc' = doc) as -> by congruence. assert (m' = m) as -> by congruence. done.
  - assert (m' = m) as -> by congruence. done.
  - assert (doc' = doc) as -> by congruence. exfalso. by apply (no_input_not_ready n doc m Hm Hf).
  - assert (doc' = doc) as -> by congruence. exfalso. by apply (no_input_not_ready n doc m Hm Hf).
  - assert (doc' = doc) as -> by congruence. exfalso. by apply (no_input_not_ready n doc m Hm Hf).
Qed.

(** X3: when the step before is recorded completed but the ledger has no
    path for its artifact, the executor does not return [False]: it
    raises [KeyError] with the key of that step (the lookup is outside
    its [try]), and nothing but the call in the trace is recorded: no
    failure in the ledger, no error entry, no write of the state file. *)
Theorem missing_path_raises n m doc_id doc w :
  documents (state w) !! doc_id = Some doc →
  previous_step n = Some m →
  st_status (get_step m (steps doc)) = COMPLETED →
  files doc !! step_key m = None →
  run_stage n doc_id w = Raise (KeyError (step_key m)) (with_event (Invoked n doc_id) w).
Proof. apply run_stage_no_input. Qed.


End StageOutcome.


(* ===================================================================== *)
(** ** Sound ledgers and the rounds of the orchestrators *)
(* ===================================================================== *)

Section Rounds.

Context `{Ext : External}.

Lemma recompute_status_idempotent cur l :
  recompute_status (recompute_status cur l) l = recompute_status cur l.
Proof.
  unfold recompute_status.
  destruct (forallb _ l); [done|]. destruct (existsb _ l); [done|].
  destruct (forallb _ l); [|done]. by destruct (bool_decide _).
Qed.

Lemma sound_pending u f md t :
  sound (mkDocument u f md PENDING t pending_steps ∅ []).
Proof.
  split_and!.
  - unfold three_valued. simpl. repeat constructor.
  - reflexivity.
  - intros n. by destruct n.
Qed.

Lemma sound_all_completed d :
  sound d → Forall (fun x => x = COMPLETED) (all_steps (steps d)) → status d = COMPLETED.
Proof. intros (_ & -> & _) Hall. by apply recompute_status_completed. Qed.

Lemma sound_ready n d :
  sound d →
  (∀ m, previous_step n = Some m → st_status (get_step m (steps d)) = COMPLETED) →
  ready n d.
Proof. intros (_ & _ & Hrec) Hprev m Hm. split; [by apply Hprev|]. apply Hrec. by apply Hprev. Qed.

Lemma three_valued_set_step n (b : bool) t s :
  three_valued s →
  three_valued (set_step n (mkStepEntry (if b then COMPLETED else FAILED) (Some t)) s).
Proof.
  unfold three_valued. rewrite !all_steps_three. intros H3.
  apply Forall_cons in H3 as [H1 H3]. apply Forall_cons in H3 as [H2 H3].
  apply Forall_cons in H3 as [H3 _].
  assert ((if b then COMPLETED else FAILED) ∈ [PENDING; COMPLETED; FAILED]) as Hb.
  { destruct b; rewrite !elem_of_cons; tauto. }
  destruct n; simpl; repeat (apply Forall_cons; split); try done; apply Forall_nil.
Qed.

(** The result of an executor on a record that is ready, with what it
    means for the status of the document and for soundness. *)
Lemma stage_post_full n doc_id w doc :
  documents (state w) !! doc_id = Some doc →
  ready n doc →
  ∃ b w' d',
    run_stage n doc_id w = Ok b w' ∧
    documents (state w') !! doc_id = Some d' ∧
    (∀ j, j ≠ doc_id → documents (state w') !! j = documents (state w) !! j) ∧
    st_status (get_step n (steps d')) = (if b then COMPLETED else FAILED) ∧
    (∀ m, m ≠ n → get_step m (steps d') = get_step m (steps doc)) ∧
    (∀ m, m ≠ n → files d' !! step_key m = files doc !! step_key m) ∧
    (b = true → is_Some (files d' !! step_key n)) ∧
    (b = false → status d' = FAILED) ∧
    (Forall (fun x => x = COMPLETED) (all_steps (steps d')) → status d' = COMPLETED) ∧
    (sound doc →
     (n = Transform → st_status (download (steps doc)) = COMPLETED) →
     sound d') ∧
    files_kept w w' ∧
    trace w' = (trace w ++ [Invoked n doc_id])%list.
Proof.
  intros Hd Hready.
  destruct (stage_post n doc_id w doc Hd Hready)
    as (b & w' & d' & t & Hrun & Hd' & Hframe & Hsteps & Hfiles & Hstatus & Hb & _ & Hk & Ht).
  exists b, w', d'.
  assert (st_status (get_step n (steps d')) = (if b then COMPLETED else FAILED)) as Hst.
  { rewrite Hsteps. by destruct n. }
  assert (∀ m, m ≠ n → get_step m (steps d') = get_step m (steps doc)) as Hother.
  { intros m Hm. rewrite Hsteps. by destruct n, m. }
  split_and!; try done.
  - intros ->. destruct Hb as [-> _]. eauto.
  - intros ->. destruct Hstatus as [->|(_ & [=] & _)].
    apply recompute_status_failed. rewrite all_steps_three.
    destruct n; simpl in Hst; rewrite Hst;
      repeat first [by apply Exists_cons_hd | apply Exists_cons_tl].
  - intros Hall. destruct Hstatus as [->|(_ & _ & ->)]; [|done].
    by apply recompute_status_completed.
  - intros (H3 & Hfix & Hrec) Hdl. split_and!.
    + rewrite Hsteps. by apply three_valued_set_step.
    + destruct Hstatus as [->|(-> & -> & ->)].
      * by rewrite recompute_status_idempotent.
      * symmetry. apply recompute_status_completed. rewrite all_steps_three.
        destruct (Hready AgenticProcess eq_refl) as [Hag _].
        assert (AgenticProcess ≠ Transform) as Hn2 by done.
        assert (Download ≠ Transform) as Hn1 by done.
        pose proof (Hother AgenticProcess Hn2) as Ho2. simpl in Ho2.
        pose proof (Hother Download Hn1) as Ho1. simpl in Ho1.
        simpl in Hst, Hag. rewrite Ho1, Ho2, Hst, Hag, (Hdl eq_refl).
        repeat constructor.
    + intros k Hk'. destruct (decide (k = n)) as [->|Hne].
      * destruct b; [|rewrite Hst in Hk'; done].
        destruct Hb as [-> _]. eauto.
      * rewrite (Hfiles k Hne). apply Hrec. by rewrite <- (Hother k Hne).
Qed.

Lemma ready_download doc : ready Download doc.
Proof. by intros m [=]. Qed.

Lemma agrees_failed n d :
  st_status (get_step n (steps d)) = FAILED → status d = FAILED →
  agrees (ResFailed (step_key n)) d.
Proof. intros Hs Hst. by exists n. Qed.

(** One round of [process_all_documents] on a registered document. *)
Lemma process_document_round acc doc_id w doc :
  documents (state w) !! doc_id = Some doc →
  ∃ res w' d',
    process_document acc doc_id w = Ok (<[doc_id := res]> acc) w' ∧
    documents (state w') !! doc_id = Some d' ∧
    (∀ j, j ≠ doc_id → documents (state w') !! j = documents (state w) !! j) ∧
    agrees res d' ∧
    (sound doc → sound d') ∧
    files_kept w w' ∧
    trace w' = (trace w ++ ((λ n, Invoked n doc_id) <$> stages_of res))%list.
Proof.
  intros Hd.
  destruct (stage_post_full Download doc_id w doc Hd (ready_download doc))
    as (b1 & w1 & d1 & Hrun1 & Hd1 & Hfr1 & Hst1 & Hoth1 & Hfo1 & Hf1 & Hfail1 & _ &
        Hsound1 & Hk1 & Ht1).
  cbn [run_stage get_step] in Hrun1, Hst1.
  unfold process_document. unfold bind at 1. rewrite Hrun1.
  destruct b1; cbn [negb].
  2:{ exists (ResFailed "download"), w1, d1. split; [done|].
      split_and!; try done.
      - by apply (agrees_failed Download); [|apply Hfail1].
      - intros Hs. by apply Hsound1. }
  assert (ready AgenticProcess d1) as Hr2.
  { intros m [= <-]. split; [done|]. by apply Hf1. }
  destruct (stage_post_full AgenticProcess doc_id w1 d1 Hd1 Hr2)
    as (b2 & w2 & d2 & Hrun2 & Hd2 & Hfr2 & Hst2 & Hoth2 & Hfo2 & Hf2 & Hfail2 & _ &
        Hsound2 & Hk2 & Ht2).
  cbn [run_stage get_step] in Hrun2, Hst2.
  unfold bind at 1. rewrite Hrun2.
  assert (∀ j, j ≠ doc_id → documents (state w2) !! j = documents (state w) !! j) as Hfr12.
  { intros j Hj. by rewrite Hfr2, Hfr1. }
  assert (Hdl2 : st_status (download (steps d2)) = COMPLETED).
  { assert (Download ≠ AgenticProcess) as Hne by done.
    pose proof (Hoth2 Download Hne) as Ho. simpl in Ho. by rewrite Ho. }
  destruct b2; cbn [negb].
  2:{ exists (ResFailed "agentic_process"), w2, d2. split; [done|].
      split_and!; try done.
      - by apply (agrees_failed AgenticProcess); [|apply Hfail2].
      - intros Hs. apply Hsound2; [by apply Hsound1|done].
      - intros p c Hp. by apply Hk2, Hk1.
      - by rewrite Ht2, Ht1, <- app_assoc. }
  assert (ready Transform d2) as Hr3.
  { intros m [= <-]. split; [done|]. by apply Hf2. }
  destruct (stage_post_full Transform doc_id w2 d2 Hd2 Hr3)
    as (b3 & w3 & d3 & Hrun3 & Hd3 & Hfr3 & Hst3 & Hoth3 & Hfo3 & Hf3 & Hfail3 & Hall3 &
        Hsound3 & Hk3 & Ht3).
  cbn [run_stage get_step] in Hrun3, Hst3.
  unfold bind at 1. rewrite Hrun3.
  assert (∀ j, j ≠ doc_id → documents (state w3) !! j = documents (state w) !! j) as Hfr13.
  { intros j Hj. by rewrite Hfr3, Hfr12. }
  assert (files_kept w w3) as Hk13.
  { intros p c Hp. by apply Hk3, Hk2, Hk1. }
  assert (trace w3 = (trace w ++ [Invoked Download doc_id; Invoked AgenticProcess doc_id;
                                   Invoked Transform doc_id])%list) as Ht13.
  { by rewrite Ht3, Ht2, Ht1, <- !app_assoc. }
  assert (sound doc → sound d3) as Hs13.
  { intros Hs. apply Hsound3; [|done]. apply Hsound2; [by apply Hsound1|done]. }
  destruct b3; cbn [negb].
  2:{ exists (ResFailed "transform"), w3, d3. split; [done|].
      split_and!; try done.
      by apply (agrees_failed Transform); [|apply Hfail3]. }
  exists (ResCompleted false), w3, d3. split; [done|].
  split_and!; try done.
  simpl. apply Hall3. rewrite all_steps_three.
  assert (Download ≠ Transform) as Hne1 by done.
  assert (AgenticProcess ≠ Transform) as Hne2 by done.
  pose proof (Hoth3 Download Hne1) as Ho1. simpl in Ho1.
  pose proof (Hoth3 AgenticProcess Hne2) as Ho2. simpl in Ho2.
  rewrite Ho1, Ho2, Hdl2, Hst2, Hst3. repeat constructor.
Qed.

(** In a sound record the status completed means three completed steps. *)
Lemma sound_status_completed d :
  sound d → status d = COMPLETED → ∀ n, st_status (get_step n (steps d)) = COMPLETED.
Proof.
  intros (H3 & Hfix & _) Hc. unfold three_valued in H3. rewrite all_steps_three in *.
  destruct (recompute_status_three_valued (status d) _ _ _ H3) as (Hcomp & _).
  cbv zeta in Hcomp. rewrite <- Hfix in Hcomp. apply Hcomp in Hc.
  apply Forall_cons in Hc as [H1 Hc]. apply Forall_cons in Hc as [H2 Hc].
  apply Forall_cons in Hc as [H4 _]. intros n. by destruct n.
Qed.

Lemma left_of_one doc n :
  left_of doc [n] =
  if bool_decide (st_status (get_step n (steps doc)) ≠ COMPLETED) then [n] else [].
Proof.
  unfold left_of. rewrite filter_cons, filter_nil.
  destruct (decide (st_status (get_step n (steps doc)) ≠ COMPLETED)) as [H|H].
  - by rewrite bool_decide_eq_true_2.
  - by rewrite bool_decide_eq_false_2.
Qed.

Lemma left_of_ext d d' n :
  get_step n (steps d') = get_step n (steps d) → left_of d' [n] = left_of d [n].
Proof. intros He. by rewrite !left_of_one, He. Qed.

Lemma left_of_cons doc n l : left_of doc (n :: l) = (left_of doc [n] ++ left_of doc l)%list.
Proof. unfold left_of. by rewrite <- filter_app. Qed.

Lemma left_of_completed doc :
  (∀ n, st_status (get_step n (steps doc)) = COMPLETED) →
  left_of doc [Download; AgenticProcess; Transform] = [].
Proof.
  intros Hall.
  rewrite (left_of_cons doc Download [AgenticProcess; Transform]),
    (left_of_cons doc AgenticProcess [Transform]), !left_of_one.
  rewrite !bool_decide_eq_false_2; [done|by intros H; apply H, Hall..].
Qed.

(** A step of a round of [process_all_documents_from_json]: the executor
    is called unless the ledger has the step as completed. *)
Lemma skip_or_run n doc_id w doc :
  documents (state w) !! doc_id = Some doc →
  sound doc →
  (∀ m, previous_step n = Some m → st_status (get_step m (steps doc)) = COMPLETED) →
  (n = Transform → st_status (download (steps doc)) = COMPLETED) →
  ∃ b w' d',
    (if bool_decide (st_status (get_step n (steps doc)) ≠ COMPLETED)
     then run_stage n doc_id else ret true) w = Ok b w' ∧
    documents (state w') !! doc_id = Some d' ∧
    (∀ j, j ≠ doc_id → documents (state w') !! j = documents (state w) !! j) ∧
    st_status (get_step n (steps d')) = (if b then COMPLETED else FAILED) ∧
    (∀ m, m ≠ n → get_step m (steps d') = get_step m (steps doc)) ∧
    (b = false → status d' = FAILED) ∧
    sound d' ∧
    files_kept w w' ∧
    trace w' = (trace w ++ ((λ m, Invoked m doc_id) <$> left_of doc [n]))%list.
Proof.
  intros Hd Hs Hprev Hdl. rewrite left_of_one.
  destruct (decide (st_status (get_step n (steps doc)) = COMPLETED)) as [Hst|Hst].
  - rewrite bool_decide_eq_false_2 by (by intros ?).
    exists true, w, doc. split_and!; try done.
    + by intros ? ?.
    + simpl. by rewrite app_nil_r.
  - rewrite bool_decide_eq_true_2 by done.
    destruct (stage_post_full n doc_id w doc Hd (sound_ready n doc Hs Hprev))
      as (b & w' & d' & Hrun & Hd' & Hfr & Hst' & Hoth & _ & _ & Hfail & _ &
          Hsound & Hk & Ht).
    exists b, w', d'. split_and!; try done.
    by apply Hsound.
Qed.

(** One round of [process_all_documents_from_json] on a sound record. *)
Lemma process_document_from_json_round acc doc_id info w doc :
  documents (state w) !! doc_id = Some doc →
  sound doc →
  ∃ res w' d',
    process_document_from_json acc (doc_id, info) w = Ok (<[doc_id := res]> acc) w' ∧
    documents (state w') !! doc_id = Some d' ∧
    (∀ j, j ≠ doc_id → documents (state w') !! j = documents (state w) !! j) ∧
    agrees res d' ∧
    sound d' ∧
    files_kept w w' ∧
    (trace w) `prefix_of` (trace w') ∧
    trace w' = (trace w ++ ((λ n, Invoked n doc_id) <$> left_of doc (stages_of res)))%list.
Proof.
  intros Hd Hs.
  unfold process_document_from_json. cbn [fst].
  unfold bind at 1. unfold doc_status at 1, bind at 1, get. rewrite Hd. unfold ret at 1.
  destruct (decide (status doc = COMPLETED)) as [Hc|Hc].
  { rewrite bool_decide_eq_true_2 by done.
    exists (ResCompleted true), w, doc. split_and!; try done.
    - by intros ? ?.
    - cbn [stages_of]. rewrite left_of_completed.
      + simpl. by rewrite app_nil_r.
      + by apply (sound_status_completed doc Hs). }
  rewrite bool_decide_eq_false_2 by done.
  destruct (skip_or_run Download doc_id w doc Hd Hs)
    as (b1 & w1 & d1 & Hrun1 & Hd1 & Hfr1 & Hst1 & Hoth1 & Hfail1 & Hs1 & Hk1 & Ht1);
    [by intros ? [=]|by intros [=]|].
  cbn [run_stage get_step] in Hrun1, Hst1.
  unfold bind at 1. rewrite Hrun1.
  destruct b1; cbn [negb].
  2:{ exists (ResFailed "download"), w1, d1. split; [done|].
      split_and!; try done.
      - by apply (agrees_failed Download); [|apply Hfail1].
      - rewrite Ht1. by apply prefix_app_r. }
  unfold bind at 1. unfold doc_status at 1, bind at 1, get. rewrite Hd1. unfold ret at 1.
  destruct (skip_or_run AgenticProcess doc_id w1 d1 Hd1 Hs1)
    as (b2 & w2 & d2 & Hrun2 & Hd2 & Hfr2 & Hst2 & Hoth2 & Hfail2 & Hs2 & Hk2 & Ht2);
    [by intros ? [= <-]|by intros [=]|].
  cbn [run_stage get_step] in Hrun2, Hst2.
  unfold bind at 1. rewrite Hrun2.
  assert (∀ j, j ≠ doc_id → documents (state w2) !! j = documents (state w) !! j) as Hfr12.
  { intros j Hj. by rewrite Hfr2, Hfr1. }
  assert (Hdl2 : st_status (download (steps d2)) = COMPLETED).
  { assert (Download ≠ AgenticProcess) as Hne by done.
    pose proof (Hoth2 Download Hne) as Ho. simpl in Ho. by rewrite Ho. }
  assert (files_kept w w2) as Hk12.
  { intros p c Hp. by apply Hk2, Hk1. }
  assert (trace w2 = (trace w ++ ((λ n, Invoked n doc_id)
                        <$> left_of doc [Download; AgenticProcess]))%list) as Hx12.
  { rewrite Ht2, Ht1, (left_of_cons doc Download [AgenticProcess]), fmap_app,
      <- app_assoc.
    do 3 f_equal. apply left_of_ext. by apply Hoth1. }
  destruct b2; cbn [negb].
  2:{ exists (ResFailed "agentic_process"), w2, d2. split; [done|].
      split_and!; try done.
      - by apply (agrees_failed AgenticProcess); [|apply Hfail2].
      - rewrite Hx12. by apply prefix_app_r. }
  unfold bind at 1. unfold doc_status at 1, bind at 1, get. rewrite Hd2. unfold ret at 1.
  destruct (skip_or_run Transform doc_id w2 d2 Hd2 Hs2)
    as (b3 & w3 & d3 & Hrun3 & Hd3 & Hfr3 & Hst3 & Hoth3 & Hfail3 & Hs3 & Hk3 & Ht3);
    [by intros ? [= <-]|done|].
  cbn [run_stage get_step] in Hrun3, Hst3.
  unfold bind at 1. rewrite Hrun3.
  assert (∀ j, j ≠ doc_id → documents (state w3) !! j = documents (state w) !! j) as Hfr13.
  { intros j Hj. by rewrite Hfr3, Hfr12. }
  assert (files_kept w w3) as Hk13.
  { intros p c Hp. by apply Hk3, Hk12. }
  assert (trace w3 = (trace w ++ ((λ n, Invoked n doc_id)
                        <$> left_of doc [Download; AgenticProcess; Transform]))%list) as Hx13.
  { rewrite Ht3, Hx12, (left_of_cons doc Download [AgenticProcess; Transform]),
      (left_of_cons doc AgenticProcess [Transform]),
      (left_of_cons doc Download [AgenticProcess]), !fmap_app, <- !app_assoc.
    do 4 f_equal. apply left_of_ext.
    rewrite (Hoth2 Transform) by done. by apply Hoth1. }
  assert ((trace w) `prefix_of` (trace w3)) as Ht13.
  { rewrite Hx13. by apply prefix_app_r. }
  destruct b3; cbn [negb].
  2:{ exists (ResFailed "transform"), w3, d3. split; [done|].
      split_and!; try done.
      by apply (agrees_failed Transform); [|apply Hfail3]. }
  exists (ResCompleted false), w3, d3. split; [done|].
  split_and!; try done.
  simpl. apply sound_all_completed; [done|]. rewrite all_steps_three.
  assert (Download ≠ Transform) as Hne1 by done.
  assert (AgenticProcess ≠ Transform) as Hne2 by done.
  pose proof (Hoth3 Download Hne1) as Ho1. simpl in Ho1.
  pose proof (Hoth3 AgenticProcess Hne2) as Ho2. simpl in Ho2.
  rewrite Ho1, Ho2, Hdl2, Hst2, Hst3. repeat constructor.
Qed.

End Rounds.

(* ===================================================================== *)
(** ** The orchestrators *)
(* ===================================================================== *)

Section Orchestrators.

Context `{Ext : External}.

Lemma sound_ledger_insert w w' i d :
  sound_ledger w → sound d →
  documents (state w') = <[i := d]> (documents (state w)) →
  sound_ledger w'.
Proof.
  intros Hs Hd He j dj. rewrite He.
  destruct (decide (i = j)) as [->|Hne].
  - rewrite lookup_insert_eq. by intros [= <-].
  - rewrite lookup_insert_ne by done. apply Hs.
Qed.

(** A registration keeps the records that exist and leaves a record under
    the identifier it returns. *)
Lemma add_document_post u w :
  ∃ w',
    add_document u None None w = Ok (_get_document_id u) w' ∧
    is_Some (documents (state w') !! _get_document_id u) ∧
    (∀ j d, documents (state w) !! j = Some d → documents (state w') !! j = Some d) ∧
    (sound_ledger w → sound_ledger w') ∧
    fs w' = fs w ∧ trace w' = trace w.
Proof.
  destruct (add_document_eq u None None w) as [f Hf]. simpl in Hf. rewrite Hf.
  destruct (documents (state w) !! _get_document_id u) as [d|] eqn:Hd.
  - exists w. by split_and!.
  - eexists. split; [reflexivity|]. simpl. split_and!; try done.
    + rewrite lookup_insert_eq. eauto.
    + intros j d Hj. rewrite lookup_insert_ne; [done|]. intros <-. congruence.
    + intros Hs. eapply sound_ledger_insert; [exact Hs|apply sound_pending|reflexivity].
Qed.

Lemma add_document_from_json_post doc_info w :
  ∃ w',
    add_document_from_json doc_info w = Ok (descriptor_id doc_info) w' ∧
    (∀ i, descriptor_id doc_info = Some i → is_Some (documents (state w') !! i)) ∧
    (∀ j d, documents (state w) !! j = Some d → documents (state w') !! j = Some d) ∧
    (sound_ledger w → sound_ledger w') ∧
    (descriptor_id doc_info = None → w' = w) ∧
    fs w' = fs w ∧ trace w' = trace w.
Proof.
  unfold descriptor_id.
  destruct (truthy_opt (di_source doc_info)) as [u|] eqn:Hu; last first.
  { rewrite add_document_from_json_refused by auto. exists w. by split_and!. }
  destruct (truthy_opt (di_name doc_info)) as [name|] eqn:Hn; last first.
  { rewrite add_document_from_json_refused by auto. exists w. by split_and!. }
  pose proof Hu as Hu'. pose proof Hn as Hn'.
  unfold add_document_from_json. rewrite Hu, Hn. unfold bind at 1, get.
  destruct (documents (state w) !! _get_document_id u) as [d|] eqn:Hd.
  - exists w. split_and!; try done. intros i [= <-]. rewrite Hd. eauto.
  - eexists. split; [reflexivity|]. simpl. split_and!; try done.
    + intros i [= <-]. rewrite lookup_insert_eq. eauto.
    + intros j d Hj. rewrite lookup_insert_ne; [done|]. intros <-. congruence.
    + intros Hs. eapply sound_ledger_insert; [exact Hs|apply sound_pending|reflexivity].
Qed.

(** The registration loop of [process_all_documents]. *)
Lemma register_locators urls : ∀ w,
  ∃ w1,
    map_m (λ u, add_document u None None) urls w = Ok (_get_document_id <$> urls) w1 ∧
    (∀ i, i ∈ _get_document_id <$> urls → is_Some (documents (state w1) !! i)) ∧
    (∀ j d, documents (state w) !! j = Some d → documents (state w1) !! j = Some d) ∧
    (sound_ledger w → sound_ledger w1) ∧
    fs w1 = fs w ∧ trace w1 = trace w.
Proof.
  induction urls as [|u urls IH]; intros w; simpl.
  - exists w. split_and!; try done. intros i Hi. by apply elem_of_nil in Hi.
  - unfold bind at 1.
    destruct (add_document_post u w) as (w0 & -> & Hin & Hmono & Hs & Hfs & Ht).
    unfold bind at 1.
    destruct (IH w0) as (w1 & -> & Hall & Hmono1 & Hs1 & Hfs1 & Ht1).
    exists w1. split; [done|]. split_and!.
    + intros i [->|Hi]%elem_of_cons; [|by apply Hall].
      destruct Hin as [d Hd]. rewrite (Hmono1 _ _ Hd). eauto.
    + intros j d Hj. by apply Hmono1, Hmono.
    + intros H. by apply Hs1, Hs.
    + by rewrite Hfs1.
    + by rewrite Ht1.
Qed.

(** The registration loop of [process_all_documents_from_json]. *)
Lemma register_descriptors docs : ∀ acc w,
  ∃ w1,
    fold_m register_from_json docs acc w = Ok (acc ++ descriptor_ids docs)%list w1 ∧
    (∀ x, x ∈ descriptor_ids docs → is_Some (documents (state w1) !! x.1)) ∧
    (∀ j d, documents (state w) !! j = Some d → documents (state w1) !! j = Some d) ∧
    (sound_ledger w → sound_ledger w1) ∧
    fs w1 = fs w ∧ trace w1 = trace w.
Proof.
  induction docs as [|info docs IH]; intros acc w; simpl.
  - exists w. rewrite app_nil_r. split_and!; try done.
    intros x Hx. by apply elem_of_nil in Hx.
  - unfold bind at 1. unfold register_from_json at 1. unfold bind at 1.
    destruct (add_document_from_json_post info w)
      as (w0 & -> & Hin & Hmono & Hs & _ & Hfs & Ht).
    unfold descriptor_ids. cbn [omap list_omap].
    fold (descriptor_ids docs).
    destruct (descriptor_id info) as [i|] eqn:Hi; cbn [fmap option_fmap option_map];
      unfold ret at 1.
    + destruct (IH (acc ++ [(i, info)])%list w0) as (w1 & -> & Hall & Hmono1 & Hs1 & Hfs1 & Ht1).
      exists w1. rewrite <- app_assoc. split; [done|]. split_and!.
      * intros x [->|Hx]%elem_of_cons; [|by apply Hall].
        destruct (Hin i eq_refl) as [d Hd]. simpl. rewrite (Hmono1 _ _ Hd). eauto.
      * intros j d Hj. by apply Hmono1, Hmono.
      * intros H. by apply Hs1, Hs.
      * by rewrite Hfs1.
      * by rewrite Ht1.
    + destruct (IH acc w0) as (w1 & -> & Hall & Hmono1 & Hs1 & Hfs1 & Ht1).
      exists w1. split; [done|]. split_and!; try done.
      * intros j d Hj. by apply Hmono1, Hmono.
      * intros H. by apply Hs1, Hs.
      * by rewrite Hfs1.
      * by rewrite Ht1.
Qed.

Lemma summary_agrees_round acc i res w w' d' :
  summary_agrees acc w →
  documents (state w') !! i = Some d' →
  (∀ j, j ≠ i → documents (state w') !! j = documents (state w) !! j) →
  agrees res d' →
  summary_agrees (<[i := res]> acc) w'.
Proof.
  intros Hsum Hd' Hfr Hag j r. destruct (decide (i = j)) as [->|Hne].
  - rewrite lookup_insert_eq. intros [= <-]. eauto.
  - rewrite lookup_insert_ne by done. intros Hr.
    destruct (Hsum j r Hr) as (d & Hd & Ha). exists d. by rewrite Hfr.
Qed.

Lemma sound_ledger_round i w w' d' :
  sound_ledger w →
  documents (state w') !! i = Some d' →
  (∀ j, j ≠ i → documents (state w') !! j = documents (state w) !! j) →
  sound d' →
  sound_ledger w'.
Proof.
  intros Hs Hd' Hfr Hsd j d. destruct (decide (j = i)) as [->|Hne].
  - rewrite Hd'. by intros [= <-].
  - rewrite Hfr by done. apply Hs.
Qed.

Lemma registered_round i w w' d' :
  documents (state w') !! i = Some d' →
  (∀ j, j ≠ i → documents (state w') !! j = documents (state w) !! j) →
  ∀ j, is_Some (documents (state w) !! j) → is_Some (documents (state w') !! j).
Proof.
  intros Hd' Hfr j Hj. destruct (decide (j = i)) as [->|Hne]; [eauto|].
  by rewrite Hfr.
Qed.

(** The loop of [process_all_documents] over registered documents. *)
Lemma process_documents_fold ids : ∀ acc w,
  (∀ i, i ∈ ids → is_Some (documents (state w) !! i)) →
  summary_agrees acc w →
  ∃ acc' w',
    fold_m process_document ids acc w = Ok acc' w' ∧
    summary_agrees acc' w' ∧
    dom acc' = dom acc ∪ list_to_set ids ∧
    (sound_ledger w → sound_ledger w') ∧
    files_kept w w' ∧
    (trace w) `prefix_of` (trace w').
Proof.
  induction ids as [|i ids IH]; intros acc w Hreg Hsum; simpl.
  - exists acc, w. split_and!; try done; [set_solver|by intros ? ?].
  - destruct (Hreg i) as [doc Hd]; [apply elem_of_cons; by left|].
    destruct (process_document_round acc i w doc Hd)
      as (res & w1 & d1 & Hrun & Hd1 & Hfr & Hag & Hs & Hk & Ht).
    unfold bind at 1. rewrite Hrun.
    destruct (IH (<[i := res]> acc) w1) as (acc' & w' & -> & Hsum' & Hdom & Hs' & Hk' & Ht').
    { intros j Hj. eapply registered_round; [done|done|].
      apply Hreg. apply elem_of_cons. by right. }
    { by eapply summary_agrees_round. }
    exists acc', w'. split; [done|]. split_and!; try done.
    + rewrite Hdom, dom_insert_L. set_solver.
    + intros H. apply Hs'. eapply sound_ledger_round; [exact H|done|done|].
      apply Hs. by eapply H.
    + intros p c Hp. by apply Hk', Hk.
    + etransitivity; [|exact Ht']. rewrite Ht. by apply prefix_app_r.
Qed.

(** The loop of [process_all_documents_from_json] over registered
    documents of a sound ledger. *)
Lemma process_documents_from_json_fold ids : ∀ acc w,
  (∀ x, x ∈ ids → is_Some (documents (state w) !! x.1)) →
  sound_ledger w →
  summary_agrees acc w →
  ∃ acc' w',
    fold_m process_document_from_json ids acc w = Ok acc' w' ∧
    summary_agrees acc' w' ∧
    dom acc' = dom acc ∪ list_to_set ids.*1 ∧
    sound_ledger w' ∧
    files_kept w w' ∧
    (trace w) `prefix_of` (trace w').
Proof.
  induction ids as [|[i info] ids IH]; intros acc w Hreg Hs Hsum; simpl.
  - exists acc, w. split_and!; try done; [set_solver|by intros ? ?].
  - destruct (Hreg (i, info)) as [doc Hd]; [apply elem_of_cons; by left|].
    simpl in Hd.
    destruct (process_document_from_json_round acc i info w doc Hd (Hs _ _ Hd))
      as (res & w1 & d1 & Hrun & Hd1 & Hfr & Hag & Hs1 & Hk & Ht & _).
    unfold bind at 1. rewrite Hrun.
    destruct (IH (<[i := res]> acc) w1) as (acc' & w' & -> & Hsum' & Hdom & Hs' & Hk' & Ht').
    { intros x Hx. eapply registered_round; [done|done|].
      apply Hreg. apply elem_of_cons. by right. }
    { by eapply sound_ledger_round. }
    { by eapply summary_agrees_round. }
    exists acc', w'. split; [done|]. split_and!; try done.
    + rewrite Hdom, dom_insert_L. set_solver.
    + intros p c Hp. by apply Hk', Hk.
    + by etransitivity.
Qed.

(** The whole of [process_all_documents]. *)
Lemma process_all_documents_post urls w :
  ∃ res w',
    process_all_documents urls w = Ok res w' ∧
    total_documents res = length urls ∧
    dom (res_documents res) = list_to_set (_get_document_id <$> urls) ∧
    summary_agrees (res_documents res) w' ∧
    (sound_ledger w → sound_ledger w') ∧
    files_kept w w'.
Proof.
  unfold process_all_documents. unfold bind at 1.
  destruct (register_locators urls w) as (w1 & -> & Hreg & _ & Hs1 & Hfs1 & _).
  unfold bind at 1. unfold now at 1.
  unfold bind at 1.
  edestruct (process_documents_fold (_get_document_id <$> urls) ∅)
    as (acc' & w2 & -> & Hsum & Hdom & Hs2 & Hk2 & _).
  { intros i Hi. simpl. by apply Hreg. }
  { intros j r Hj. by rewrite lookup_empty in Hj. }
  unfold bind, now, ret.
  eexists _, _. split; [reflexivity|]. simpl. split_and!.
  - by rewrite length_fmap.
  - rewrite Hdom, dom_empty_L. set_solver.
  - exact Hsum.
  - intros H. apply (Hs2 (Hs1 H)).
  - intros p c Hp. apply Hk2. simpl. by rewrite Hfs1.
Qed.

(** The whole of [process_all_documents_from_json], from a sound ledger. *)
Lemma process_all_documents_from_json_post docs w :
  sound_ledger w →
  ∃ res w',
    process_all_documents_from_json docs w = Ok res w' ∧
    total_documents res = length (descriptor_ids docs) ∧
    dom (res_documents res) = list_to_set (descriptor_ids docs).*1 ∧
    summary_agrees (res_documents res) w' ∧
    sound_ledger w' ∧
    files_kept w w'.
Proof.
  intros Hs.
  unfold process_all_documents_from_json. unfold bind at 1.
  destruct (register_descriptors docs [] w) as (w1 & -> & Hreg & _ & Hs1 & Hfs1 & _).
  unfold bind at 1. unfold now at 1.
  unfold bind at 1. simpl app.
  edestruct (process_documents_from_json_fold (descriptor_ids docs) ∅)
    as (acc' & w2 & -> & Hsum & Hdom & Hs2 & Hk2 & _).
  { intros x Hx. simpl. by apply Hreg. }
  { apply (Hs1 Hs). }
  { intros j r Hj. by rewrite lookup_empty in Hj. }
  unfold bind, now, ret.
  eexists _, _. split; [reflexivity|]. simpl. split_and!; try done.
  - rewrite Hdom, dom_empty_L. set_solver.
  - intros p c Hp. apply Hk2. simpl. by rewrite Hfs1.
Qed.

End Orchestrators.

(* ===================================================================== *)
(** ** What the orchestrators guarantee *)
(* ===================================================================== *)

Section Guarantees.

Context `{Ext : External}.

(** X4: one record whose download step is completed but which has no
    path for the PDF stops the whole batch of
    [process_all_documents_from_json]: when it belongs to the first
    descriptor, the call raises [KeyError] from the extraction executor,
    no descriptor after it is processed (the trace has that one call
    only) and the record is left as it was. *)
Theorem missing_path_aborts_batch doc_info rest doc_id doc w :
  descriptor_id doc_info = Some doc_id →
  documents (state w) !! doc_id = Some doc →
  status doc ≠ COMPLETED →
  st_status (download (steps doc)) = COMPLETED →
  st_status (agentic_process (steps doc)) ≠ COMPLETED →
  files doc !! "download" = None →
  ∃ w',
    process_all_documents_from_json (doc_info :: rest) w = Raise (KeyError "download") w' ∧
    trace w' = (trace w ++ [Invoked AgenticProcess doc_id])%list ∧
    documents (state w') !! doc_id = Some doc.
Proof.
  intros Hid Hd Hst Hdl Hag Hf.
  unfold process_all_documents_from_json. unfold bind at 1.
  destruct (register_descriptors (doc_info :: rest) [] w)
    as (w1 & -> & _ & Hmono & _ & _ & Ht1).
  simpl app. unfold descriptor_ids. cbn [omap list_omap]. rewrite Hid.
  cbn [fmap option_fmap option_map]. fold (descriptor_ids rest).
  unfold bind at 1. unfold now at 1.
  unfold bind at 1. cbn [fold_m]. unfold bind at 1.
  pose proof (Hmono _ _ Hd) as Hd1.
  set (w2 := mkWorld (state w1) (state_file w1) (fs w1) (S (tick w1)) (trace w1)).
  assert (documents (state w2) !! doc_id = Some doc) as Hd2 by done.
  unfold process_document_from_json. cbn [fst].
  unfold bind at 1. unfold doc_status at 1. unfold bind at 1, get.
  rewrite Hd2. unfold ret at 1.
  rewrite bool_decide_eq_false_2 by done.
  rewrite (bool_decide_eq_false_2 (st_status (download (steps doc)) ≠ COMPLETED))
    by (intros H; by apply H).
  unfold bind at 1. unfold ret at 1. cbn [negb].
  unfold bind at 1. unfold doc_status at 1. unfold bind at 1, get.
  rewrite Hd2. unfold ret at 1.
  rewrite bool_decide_eq_true_2 by done.
  unfold bind at 1.
  pose proof (run_stage_no_input AgenticProcess Download doc_id doc w2 Hd2 eq_refl Hdl Hf)
    as Hrun.
  simpl in Hrun. rewrite Hrun.
  eexists. split; [reflexivity|]. simpl. by rewrite Ht1.
Qed.

(** X6: the summary that [process_all_documents] returns counts every
    locator given, has one entry for each identifier, and each entry
    agrees with the record that the ledger holds when the call returns:
    an entry "completed" is a record with the status completed, an entry
    "failed" names a step that the record has as failed, in a record
    with the status failed. *)
Theorem process_all_documents_summary urls w res w' :
  process_all_documents urls w = Ok res w' →
  total_documents res = length urls ∧
  dom (res_documents res) = list_to_set (_get_document_id <$> urls) ∧
  summary_agrees (res_documents res) w'.
Proof.
  intros Hret.
  destruct (process_all_documents_post urls w)
    as (res0 & w0 & Hrun & Htot & Hdom & Hag & _).
  rewrite Hret in Hrun. by injection Hrun as <- <-.
Qed.

(** X7: the summary that [process_all_documents_from_json] returns on a
    sound ledger counts the descriptors that were accepted (those with a
    locator and a name), has one entry for each of their identifiers,
    and each entry agrees with the record that the ledger holds when the
    call returns. *)
Theorem process_all_documents_from_json_summary docs w res w' :
  sound_ledger w →
  process_all_documents_from_json docs w = Ok res w' →
  total_documents res = length (descriptor_ids docs) ∧
  dom (res_documents res) = list_to_set (descriptor_ids docs).*1 ∧
  summary_agrees (res_documents res) w'.
Proof.
  intros Hs Hret.
  destruct (process_all_documents_from_json_post docs w Hs)
    as (res0 & w0 & Hrun & Htot & Hdom & Hag & _).
  rewrite Hret in Hrun. by injection Hrun as <- <-.
Qed.

(** What soundness says of the status of a record. *)
Lemma sound_status d :
  sound d →
  (status d = COMPLETED ↔ ∀ n, st_status (get_step n (steps d)) = COMPLETED) ∧
  (status d = FAILED ↔ ∃ n, st_status (get_step n (steps d)) = FAILED) ∧
  status d ∈ [COMPLETED; FAILED; PENDING].
Proof.
  intros (H3 & Hfix & _). unfold three_valued in H3. rewrite all_steps_three in *.
  destruct (recompute_status_three_valued (status d) _ _ _ H3) as (Hc & Hf & Hin).
  cbv zeta in Hc, Hf, Hin. rewrite <- Hfix in Hc, Hf, Hin.
  split_and!; [| |done].
  - rewrite Hc. split.
    + intros Hall n. apply Forall_cons in Hall as [H1 Hall].
      apply Forall_cons in Hall as [H2 Hall]. apply Forall_cons in Hall as [H4 _].
      by destruct n.
    + intros Hall. repeat constructor.
      * apply (Hall Download). * apply (Hall AgenticProcess). * apply (Hall Transform).
  - rewrite Hf. split.
    + intros He. apply Exists_cons in He as [H1|He]; [by exists Download|].
      apply Exists_cons in He as [H2|He]; [by exists AgenticProcess|].
      apply Exists_cons in He as [H4|He]; [by exists Transform|].
      by apply Exists_nil in He.
    + intros [n Hn]. destruct n; simpl in Hn;
        repeat first [by apply Exists_cons_hd | apply Exists_cons_tl].
Qed.

(** X8: soundness of the ledger is an invariant of the registrations and
    of both orchestrators, and the empty ledger is sound.  In a sound
    ledger the status of a record is completed exactly when its three
    steps are, failed exactly when one of them is, and pending otherwise;
    and every completed step has the path of its artifact recorded. *)
Theorem sound_ledger_preserved w :
  sound_ledger w →
  (∀ r, sound_ledger (final (register r w))) ∧
  (∀ urls, sound_ledger (final (process_all_documents urls w))) ∧
  (∀ docs, sound_ledger (final (process_all_documents_from_json docs w))) ∧
  (∀ doc_id d, documents (state w) !! doc_id = Some d →
     (status d = COMPLETED ↔ ∀ n, st_status (get_step n (steps d)) = COMPLETED) ∧
     (status d = FAILED ↔ ∃ n, st_status (get_step n (steps d)) = FAILED) ∧
     status d ∈ [COMPLETED; FAILED; PENDING] ∧
     (∀ n, st_status (get_step n (steps d)) = COMPLETED → is_Some (files d !! step_key n))).
Proof.
  intros Hs. split_and!.
  - intros [u did fn|info]; simpl.
    + unfold bind.
      destruct (add_document_eq u did fn w) as [f Hf]. simpl in Hf. rewrite Hf.
      destruct (documents (state w) !! default (_get_document_id u) did) as [d|] eqn:Hd;
        simpl; [done|].
      eapply sound_ledger_insert; [exact Hs|apply sound_pending|reflexivity].
    + destruct (add_document_from_json_post info w) as (w' & -> & _ & _ & Hs' & _).
      by apply Hs'.
  - intros urls.
    destruct (process_all_documents_post urls w) as (res & w' & -> & _ & _ & _ & Hs' & _).
    by apply Hs'.
  - intros docs.
    destruct (process_all_documents_from_json_post docs w Hs)
      as (res & w' & -> & _ & _ & _ & Hs' & _).
    done.
  - intros doc_id d Hd. pose proof (Hs _ _ Hd) as Hsd.
    destruct (sound_status d Hsd) as (Hc & Hf & Hin).
    split_and!; try done. apply Hsd.
Qed.

Lemma size_list_to_set_le (l : list string) :
  (size (list_to_set (C := gset string) l) ≤ length l)%nat.
Proof.
  induction l as [|x l IH].
  - done.
  - rewrite list_to_set_cons. simpl length.
    destruct (decide (x ∈ (list_to_set l : gset string))) as [Hin|Hnin].
    + assert ({[x]} ∪ list_to_set l = (list_to_set l : gset string)) as -> by set_solver.
      lia.
    + rewrite size_union by set_solver. rewrite size_singleton. lia.
Qed.

(** The two counts of a summary add up to the number of its entries. *)
Lemma summary_counts_size res :
  ((summary_counts res).1 + (summary_counts res).2 = size (res_documents res))%nat.
Proof.
  unfold summary_counts. simpl.
  rewrite <- length_map_to_list, <- (length_fmap snd (map_to_list (res_documents res))).
  induction ((map_to_list (res_documents res)).*2) as [|r l IH]; [done|].
  rewrite !filter_cons. destruct r; simpl;
    repeat (case_decide; try done); simpl; lia.
Qed.

(** X9: the two counts that [_print_summary] prints after a run of
    [process_all_documents] add up to the number of distinct
    identifiers, which is at most the total it prints, and is the total
    when no locator occurs twice: a locator given twice is counted twice
    in the total and once among the completed or failed. *)
Theorem summary_counts_bound urls w res w' :
  process_all_documents urls w = Ok res w' →
  ((summary_counts res).1 + (summary_counts res).2
    = size (list_to_set (C := gset string) (_get_document_id <$> urls)))%nat ∧
  ((summary_counts res).1 + (summary_counts res).2 ≤ total_documents res)%nat ∧
  total_documents res = length urls ∧
  (NoDup (_get_document_id <$> urls) →
   ((summary_counts res).1 + (summary_counts res).2 = total_documents res)%nat).
Proof.
  intros Hrun.
  destruct (process_all_documents_post urls w)
    as (res0 & w0 & Hrun0 & Htot & Hdom & _).
  rewrite Hrun in Hrun0. injection Hrun0 as <- <-.
  rewrite summary_counts_size, <- (size_dom (D := gset string)), Hdom, Htot.
  split_and!; try done.
  - etransitivity; [apply size_list_to_set_le|]. by rewrite length_fmap.
  - intros Hnd. rewrite size_list_to_set by done. by rewrite length_fmap.
Qed.

(** X10: in a sound ledger [get_final_files] lists exactly the records
    with the status completed, and every record it lists comes with its
    locator and with the three paths: none of the three values is
    [None]. *)
Theorem final_files_complete w :
  sound_ledger w →
  ∃ m,
    get_final_files w = Ok m w ∧
    (∀ doc_id, is_Some (m !! doc_id) ↔
       ∃ d, documents (state w) !! doc_id = Some d ∧ status d = COMPLETED) ∧
    (∀ doc_id ff, m !! doc_id = Some ff →
       ∃ d, documents (state w) !! doc_id = Some d ∧
            ff_url ff = url d ∧
            ff_pdf ff = files d !! "download" ∧
            ff_agentic_json ff = files d !! "agentic_process" ∧
            ff_pdf_processed_json ff = files d !! "transform" ∧
            is_Some (ff_pdf ff) ∧
            is_Some (ff_agentic_json ff) ∧
            is_Some (ff_pdf_processed_json ff)).
Proof.
  intros Hs. eexists. split; [reflexivity|]. split.
  - intros doc_id. rewrite lookup_fmap, fmap_is_Some. split.
    + intros [d Hd]. apply map_lookup_filter_Some in Hd as [Hd Hst]. by exists d.
    + intros (d & Hd & Hst). exists d. by apply map_lookup_filter_Some.
  - intros doc_id ff Hff. rewrite lookup_fmap in Hff.
    apply fmap_Some in Hff as (d & Hd & ->).
    apply map_lookup_filter_Some in Hd as [Hd Hst]. simpl in Hst.
    exists d. simpl. split_and!; try done.
    + destruct (Hs _ _ Hd) as (_ & _ & Hrec).
      apply (Hrec Download). by apply (sound_status d (Hs _ _ Hd)).
    + destruct (Hs _ _ Hd) as (_ & _ & Hrec).
      apply (Hrec AgenticProcess). by apply (sound_status d (Hs _ _ Hd)).
    + destruct (Hs _ _ Hd) as (_ & _ & Hrec).
      apply (Hrec Transform). by apply (sound_status d (Hs _ _ Hd)).
Qed.

(** X11: after [process_all_documents_from_json] on a sound ledger,
    every document that the summary reports as completed is listed by
    [get_final_files] with its three paths, and no document that the
    summary reports as failed is listed. *)
Theorem summary_matches_final_files docs w res w' m :
  sound_ledger w →
  process_all_documents_from_json docs w = Ok res w' →
  get_final_files w' = Ok m w' →
  ∀ doc_id r, res_documents res !! doc_id = Some r →
    match r with
    | ResCompleted _ =>
        ∃ ff, m !! doc_id = Some ff ∧
              is_Some (ff_pdf ff) ∧ is_Some (ff_agentic_json ff) ∧
              is_Some (ff_pdf_processed_json ff)
    | ResFailed _ => m !! doc_id = None
    end.
Proof.
  intros Hs Hrun Hm doc_id r Hr.
  destruct (process_all_documents_from_json_post docs w Hs)
    as (res0 & w0 & Hrun0 & _ & _ & Hag & Hs' & _).
  rewrite Hrun in Hrun0. injection Hrun0 as <- <-.
  destruct (Hag doc_id r Hr) as (d & Hd & Hagree).
  assert (m = (λ doc_info, mkFinalFiles (files doc_info !! "download")
                             (files doc_info !! "agentic_process")
                             (files doc_info !! "transform") (url doc_info))
              <$> filter (λ item, status item.2 = COMPLETED) (documents (state w'))) as ->.
  { unfold get_final_files, bind, get, ret in Hm. by injection Hm as <-. }
  destruct r as [rec|step]; simpl in Hagree.
  - eexists. split.
    { rewrite lookup_fmap.
      by rewrite (proj2 (map_lookup_filter_Some _ _ doc_id d) (conj Hd Hagree)). }
    destruct (Hs' _ _ Hd) as (_ & _ & Hrec).
    pose proof (proj1 (proj1 (sound_status d (Hs' _ _ Hd))) Hagree) as Hall.
    simpl. split_and!.
    + apply (Hrec Download), Hall.
    + apply (Hrec AgenticProcess), Hall.
    + apply (Hrec Transform), Hall.
  - destruct Hagree as (n & _ & _ & Hst).
    rewrite lookup_fmap, fmap_None. apply map_lookup_filter_None. right.
    intros d' Hd'. simpl. assert (d' = d) as -> by congruence. by rewrite Hst.
Qed.

End Guarantees.

(* ===================================================================== *)
(** ** What no method undoes *)
(* ===================================================================== *)

Section Durability.

Context `{Ext : External}.

#[local] Existing Instance files_kept_preorder.

#[local] Instance saved_preorder : PreOrder saved.
Proof.
  split.
  - intros w. by right.
  - intros w1 w2 w3 [H12|[H12 H12']] [H23|[H23 H23']].
    + by left.
    + left. by rewrite H23', H23.
    + by left.
    + right. split; congruence.
Qed.

#[local] Instance identity_kept_preorder : PreOrder identity_kept.
Proof.
  split.
  - intros w i d Hd. by exists d.
  - intros w1 w2 w3 H12 H23 i d Hd.
    destruct (H12 i d Hd) as (d2 & Hd2 & Hu2 & Hf2 & Hm2 & Hc2).
    destruct (H23 i d2 Hd2) as (d3 & Hd3 & Hu3 & Hf3 & Hm3 & Hc3).
    exists d3. split_and!; [done|congruence..].
Qed.

(** The worlds in which [update_step_status] ends. *)
Lemma update_step_status_final doc_id step st file_path error w :
  final (update_step_status doc_id step st file_path error w) = w ∨
  ∃ n d, documents (state w) !! doc_id = Some d ∧
         final (update_step_status doc_id step st file_path error w)
         = after_update w doc_id step n st file_path error d.
Proof.
  destruct (documents (state w) !! doc_id) as [d|] eqn:Hd; last first.
  { left. by rewrite update_step_status_unknown. }
  destruct (step_of_key step) as [n|] eqn:Hn; last first.
  { left. by rewrite (update_step_status_bad_step _ _ _ _ _ _ d). }
  right. exists n, d. split; [done|].
  by rewrite (update_step_status_eq _ _ _ n _ _ _ d).
Qed.

(** The worlds in which a registration ends. *)
Lemma register_final r w :
  final (register r w) = w ∨
  ∃ i d, documents (state w) !! i = None ∧
         final (register r w)
         = saved_world w (<[i := d]> (documents (state w))) (S (tick w)).
Proof.
  destruct r as [u did fn|info]; simpl.
  - unfold bind. destruct (add_document_eq u did fn w) as [f Hf]. simpl in Hf.
    rewrite Hf.
    destruct (documents (state w) !! default (_get_document_id u) did) eqn:Hd; simpl.
    + by left.
    + right. by eexists _, _.
  - destruct (truthy_opt (di_source info)) as [u|] eqn:Hu; last first.
    { left. by rewrite add_document_from_json_refused by auto. }
    destruct (truthy_opt (di_name info)) as [name|] eqn:Hn; last first.
    { left. by rewrite add_document_from_json_refused by auto. }
    destruct (add_document_from_json_eq info u name w Hu Hn) as (d & _ & ->).
    destruct (documents (state w) !! _get_document_id u) eqn:Hd; simpl.
    + by left.
    + right. by eexists _, _.
Qed.

Lemma add_document_as_register u w :
  final (add_document u None None w) = final (register (ByLocator u None None) w).
Proof. simpl. unfold bind. by destruct (add_document u None None w). Qed.

(** The state file after an executor. *)
Lemma run_stage_saved n doc_id : keeps saved (run_stage n doc_id).
Proof.
  intros w.
  destruct (run_stage_cases n doc_id w)
    as [Hn|doc m Hd Hm Hst|doc m Hd Hm Hst Hf|doc w1 Hd Hr He _ _ _|
        doc w1 _ Hd Hr He _ _|doc w1 msg Hd Hr He _ _]; simpl;
    try (by right); by left.
Qed.

Lemma update_step_status_saved doc_id step st file_path error :
  keeps saved (update_step_status doc_id step st file_path error).
Proof.
  intros w.
  destruct (update_step_status_final doc_id step st file_path error w)
    as [->|(n & d & _ & ->)]; [by right|by left].
Qed.

Lemma register_saved r : keeps saved (register r).
Proof.
  intros w. destruct (register_final r w) as [->|(i & d & _ & ->)]; [by right|by left].
Qed.

Lemma saved_durable w w' : saved w w' → durable w w'.
Proof.
  intros [Hs|Hs]; [left|by right].
  unfold restart, bind, get, state_file_content. rewrite Hs. simpl.
  unfold set_state. by destruct w'.
Qed.

Lemma orchestrators_keep (R : relation World) `{!PreOrder R} :
  (∀ w t, R w (with_tick t w)) →
  (∀ r, keeps R (register r)) →
  (∀ n i, keeps R (run_stage n i)) →
  (∀ urls, keeps R (process_all_documents urls)) ∧
  (∀ docs, keeps R (process_all_documents_from_json docs)).
Proof.
  intros Ht Hr Hn. split.
  - intros urls. apply (keeps_process_all_documents R); try done.
    + intros u w. rewrite add_document_as_register. apply Hr.
    + apply (Hn Download).
    + apply (Hn AgenticProcess).
    + apply (Hn Transform).
  - intros docs. apply (keeps_process_all_documents_from_json R); try done.
    + intros info. apply (Hr (ByDescriptor info)).
    + apply (Hn Download).
    + apply (Hn AgenticProcess).
    + apply (Hn Transform).
Qed.

(** X12: a manager that starts on the same state file after any call of
    an executor, of a registration, of a step update or of an
    orchestrator, whether the call returned or raised, loads exactly the
    state that the first manager had in memory: nothing recorded is lost
    by stopping between two calls.  The one exception is a call that
    changed nothing of the state and of the state file. *)
Theorem restart_finds_ledger w :
  (∀ n doc_id, durable w (final (run_stage n doc_id w))) ∧
  (∀ r, durable w (final (register r w))) ∧
  (∀ doc_id step st file_path error,
     durable w (final (update_step_status doc_id step st file_path error w))) ∧
  (∀ urls, durable w (final (process_all_documents urls w))) ∧
  (∀ docs, durable w (final (process_all_documents_from_json docs w))).
Proof.
  destruct (orchestrators_keep saved) as [Hb Hj].
  { intros w0 t. by right. }
  { apply register_saved. }
  { apply run_stage_saved. }
  split_and!; intros; apply saved_durable.
  - apply run_stage_saved.
  - apply register_saved.
  - apply update_step_status_saved.
  - apply Hb.
  - apply Hj.
Qed.

Lemma run_stage_effect n doc_id w :
  stage_effect n doc_id w (final (run_stage n doc_id w)).
Proof.
  destruct n; simpl;
    [apply download_pdf_effect|apply process_with_agentic_doc_effect|
     apply transform_to_pdf_processed_effect].
Qed.

Lemma stage_effect_identity_kept n i w w' :
  stage_effect n i w w' → identity_kept w w'.
Proof.
  intros (_ & Hother & Hdoc & _) j d Hd.
  destruct (decide (j = i)) as [->|Hne].
  - rewrite Hd in Hdoc. destruct Hdoc as (d' & Hd' & Hu & Hf & Hm & Hc & _).
    by exists d'.
  - exists d. by rewrite Hother.
Qed.

Lemma identity_kept_insert w w' i d0 :
  documents (state w) !! i = None →
  documents (state w') = <[i := d0]> (documents (state w)) →
  identity_kept w w'.
Proof.
  intros Hi He j d Hd. exists d. split; [|done].
  rewrite He, lookup_insert_ne; [done|]. intros ->. congruence.
Qed.

Lemma update_step_status_identity_kept doc_id step st file_path error :
  keeps identity_kept (update_step_status doc_id step st file_path error).
Proof.
  intros w.
  destruct (update_step_status_final doc_id step st file_path error w)
    as [->|(n & d & Hd & ->)]; [reflexivity|].
  intros j dj Hj. simpl. destruct (decide (j = doc_id)) as [->|Hne].
  - rewrite lookup_insert_eq. eexists. split; [done|].
    assert (dj = d) as -> by congruence. done.
  - rewrite lookup_insert_ne by done. by exists dj.
Qed.

Lemma register_identity_kept r : keeps identity_kept (register r).
Proof.
  intros w. destruct (register_final r w) as [->|(i & d & Hi & ->)]; [reflexivity|].
  by eapply identity_kept_insert.
Qed.

(** X13: no method deletes a record or changes who it is.  After any
    call of an executor, of a registration, of a step update or of an
    orchestrator, returning or raising, every record that the ledger had
    is still there under its identifier, with the same locator, file
    name, metadata and creation time; so the three paths computed for a
    record never change. *)
Theorem records_keep_identity w :
  (∀ n doc_id, identity_kept w (final (run_stage n doc_id w))) ∧
  (∀ r, identity_kept w (final (register r w))) ∧
  (∀ doc_id step st file_path error,
     identity_kept w (final (update_step_status doc_id step st file_path error w))) ∧
  (∀ urls, identity_kept w (final (process_all_documents urls w))) ∧
  (∀ docs, identity_kept w (final (process_all_documents_from_json docs w))) ∧
  (∀ w' doc_id d d' n,
     identity_kept w w' →
     documents (state w) !! doc_id = Some d →
     documents (state w') !! doc_id = Some d' →
     artifact_path n d' = artifact_path n d).
Proof.
  assert (Hn : ∀ n i, keeps identity_kept (run_stage n i)).
  { intros n i w0. eapply stage_effect_identity_kept, run_stage_effect. }
  destruct (orchestrators_keep identity_kept) as [Hb Hj].
  { intros w0 t i d Hd. by exists d. }
  { apply register_identity_kept. }
  { apply Hn. }
  split_and!.
  - intros. apply Hn.
  - intros. apply register_identity_kept.
  - intros. apply update_step_status_identity_kept.
  - intros. apply Hb.
  - intros. apply Hj.
  - intros w' doc_id d d' n Hk Hd Hd'.
    destruct (Hk _ _ Hd) as (d2 & Hd2 & _ & Hf & Hm & _).
    assert (d2 = d') as -> by congruence.
    unfold artifact_path, pdf_path_of, output_json_path_of, pdf_processed_path_of,
      output_dirs. by rewrite Hf, Hm.
Qed.

Lemma stage_effect_files_kept n i w w' :
  stage_effect n i w w' → files_kept w w'.
Proof. by intros (_ & _ & _ & Hk). Qed.

Lemma files_kept_same w w' : fs w' = fs w → files_kept w w'.
Proof. intros He p c Hp. by rewrite He. Qed.

(** X14: no method overwrites or removes an artifact.  After any call of
    an executor, of a registration, of a step update or of an
    orchestrator, returning or raising, every file that was in the
    working tree is still there with the content it had; the
    registrations and the step update write no file at all. *)
Theorem artifacts_never_overwritten w :
  (∀ n doc_id, files_kept w (final (run_stage n doc_id w))) ∧
  (∀ r, fs (final (register r w)) = fs w) ∧
  (∀ doc_id step st file_path error,
     fs (final (update_step_status doc_id step st file_path error w)) = fs w) ∧
  (∀ urls, files_kept w (final (process_all_documents urls w))) ∧
  (∀ docs, files_kept w (final (process_all_documents_from_json docs w))).
Proof.
  assert (Hn : ∀ n i, keeps files_kept (run_stage n i)).
  { intros n i w0. eapply stage_effect_files_kept, run_stage_effect. }
  assert (Hr : ∀ r w0, fs (final (register r w0)) = fs w0).
  { intros r w0. by destruct (register_final r w0) as [->|(i & d & _ & ->)]. }
  assert (Hu : ∀ doc_id step st file_path error w0,
             fs (final (update_step_status doc_id step st file_path error w0)) = fs w0).
  { intros doc_id step st file_path error w0.
    by destruct (update_step_status_final doc_id step st file_path error w0)
      as [->|(n & d & _ & ->)]. }
  destruct (orchestrators_keep files_kept) as [Hb Hj].
  { intros w0 t. by apply files_kept_same. }
  { intros r w0. apply files_kept_same, Hr. }
  { apply Hn. }
  split_and!.
  - intros. apply Hn.
  - intros. apply Hr.
  - intros. apply Hu.
  - intros. apply Hb.
  - intros. apply Hj.
Qed.

End Durability.

(* ===================================================================== *)
(** ** Registration, shared names and the last marking *)
(* ===================================================================== *)

Section Names.

Context `{Ext : External}.

Lemma lower_app a b : PyStr.lower (a +:+ b) = PyStr.lower a +:+ PyStr.lower b.
Proof. induction a as [|c a IH]; simpl; [done|]. by rewrite IH. Qed.

Lemma length_app_string a b :
  String.length (a +:+ b) = (String.length a + String.length b)%nat.
Proof. induction a as [|c a IH]; simpl; [done|]. by rewrite IH. Qed.

Lemma app_assoc_string a b c : a +:+ (b +:+ c) = (a +:+ b) +:+ c.
Proof.
  induction a as [|x a IH]; [done|].
  change (String x (a +:+ (b +:+ c)) = String x ((a +:+ b) +:+ c)). by rewrite IH.
Qed.

Lemma substring_all s : substring 0 (String.length s) s = s.
Proof. induction s as [|c s IH]; simpl; [done|]. by rewrite IH. Qed.

Lemma substring_skip a b m :
  substring (String.length a) m (a +:+ b) = substring 0 m b.
Proof. induction a as [|c a IH]; simpl; [done|]. exact IH. Qed.

Lemma endswith_app a suf : PyStr.endswith (a +:+ suf) suf = true.
Proof.
  unfold PyStr.endswith. rewrite length_app_string.
  assert ((String.length suf <=? String.length a + String.length suf)%nat = true) as ->.
  { apply Nat.leb_le. lia. }
  replace (String.length a + String.length suf - String.length suf)%nat
    with (String.length a) by lia.
  rewrite substring_skip, substring_all. apply String.eqb_refl.
Qed.

Lemma normalised_name name :
  PyStr.endswith
    (PyStr.lower (if negb (PyStr.endswith (PyStr.lower name) ".pdf")
                  then name +:+ ".pdf" else name)) ".pdf" = true.
Proof.
  destruct (PyStr.endswith (PyStr.lower name) ".pdf") eqn:He; simpl; [done|].
  rewrite lower_app. apply endswith_app.
Qed.

Lemma _get_filename_from_url_pdf u w f w' :
  _get_filename_from_url u w = Ok f w' →
  PyStr.endswith (PyStr.lower f) ".pdf" = true.
Proof.
  unfold _get_filename_from_url.
  destruct (negb (PyStr.truthy _)).
  - unfold bind, get, ret. intros [= <- _].
    rewrite !lower_app. rewrite app_assoc_string. apply endswith_app.
  - destruct (PyStr.endswith (PyStr.lower _) ".pdf") eqn:He; simpl.
    + by intros [= <- _].
    + intros [= <- _]. rewrite lower_app. apply endswith_app.
Qed.


(** X16: the file name that a registration stores ends in ".pdf",
    whatever the case of the letters, unless the caller of [add_document]
    gave the name: the name taken from the locator or from the
    descriptor gets the suffix when it lacks it, and the name made up for
    a locator without a last segment has it. *)
Theorem stored_name_ends_in_pdf r w i w' :
  ¬ named_by_caller r →
  register r w = Ok (Some i) w' →
  documents (state w) !! i = None →
  ∃ d, documents (state w') !! i = Some d ∧
       PyStr.endswith (PyStr.lower (original_filename d)) ".pdf" = true.
Proof.
  intros Hname Hrun Hnew. destruct r as [u did [fn|]|info]; simpl in *; [done| |].
  - unfold bind at 1 in Hrun. unfold add_document in Hrun.
    unfold bind at 1 in Hrun.
    destruct (_get_filename_from_url u w) as [f w0|e w0] eqn:Hf; [|done].
    pose proof (_get_filename_from_url_pdf _ _ _ _ Hf) as Hpdf.
    destruct (_get_filename_from_url_pure u w) as [f' Hf']. rewrite Hf' in Hf.
    injection Hf as -> ->.
    unfold bind at 1, get in Hrun. simpl in Hrun.
    destruct (documents (state w0) !! default (_get_document_id u) did) as [d|] eqn:Hd.
    + unfold ret in Hrun. injection Hrun as <- <-. congruence.
    + unfold ret in Hrun. injection Hrun as <- <-. simpl.
      rewrite lookup_insert_eq. eexists. split; [done|]. done.
  - destruct (truthy_opt (di_source info)) as [u|] eqn:Hu; last first.
    { rewrite add_document_from_json_refused in Hrun by auto. done. }
    destruct (truthy_opt (di_name info)) as [name|] eqn:Hn; last first.
    { rewrite add_document_from_json_refused in Hrun by auto. done. }
    unfold add_document_from_json in Hrun. rewrite Hu, Hn in Hrun.
    unfold bind at 1, get in Hrun.
    destruct (documents (state w) !! _get_document_id u) as [d|] eqn:Hd.
    + unfold ret in Hrun. injection Hrun as <- <-. congruence.
    + injection Hrun as <- <-. simpl.
      rewrite lookup_insert_eq. eexists. split; [done|]. simpl.
      apply normalised_name.
Qed.


(** X18: when the structuring executor writes its artifact and returns
    [True], the document is marked completed whatever the other steps
    say: the status is completed even if the download step is recorded
    pending or failed, and the entries of the other two steps are not
    touched. *)
Theorem fresh_transform_marks_completed doc_id doc w w' :
  documents (state w) !! doc_id = Some doc →
  fs w !! pdf_processed_path_of doc = None →
  transform_to_pdf_processed doc_id w = Ok true w' →
  ∃ d',
    documents (state w') !! doc_id = Some d' ∧
    status d' = COMPLETED ∧
    st_status (transform (steps d')) = COMPLETED ∧
    download (steps d') = download (steps doc) ∧
    agentic_process (steps d') = agentic_process (steps doc).
Proof.
  intros Hd Hfs Hrun.
  pose proof (run_stage_cases Transform doc_id w) as Hcases.
  change (run_stage Transform doc_id w) with (transform_to_pdf_processed doc_id w) in Hcases.
  rewrite Hrun in Hcases.
  inversion Hcases as [Hn|doc' m Hd' Hm Hst|doc' m Hd' Hm Hst Hf|doc' w1 Hd' Hr He _ _ Hnot|
                       doc' w1 _ Hd' Hr He _ _|doc' w1 msg Hd' Hr He _ _]; subst.
  - assert (doc' = doc) as -> by congruence. by destruct (Hnot Hfs).
  - assert (doc' = doc) as -> by congruence.
    eexists. split; [simpl; apply lookup_insert_eq|]. by simpl.
Qed.

End Names.

(* ===================================================================== *)
(** ** The country of a batch *)
(* ===================================================================== *)

Section Country.

Lemma split_slash_nonempty s : split_slash s ≠ [].
Proof.
  destruct s as [|c r]; simpl; [done|].
  destruct (Ascii.eqb c "/"); [done|]. by destruct (split_slash r).
Qed.

Lemma split_slash_one s p :
  split_slash s = [p] → s = p ∧ no_slash p = true.
Proof.
  revert p. induction s as [|c r IH]; intros p; simpl.
  - by intros [= <-].
  - destruct (Ascii.eqb c "/") eqn:Hc.
    + intros [= <- Hr]. by destruct (split_slash_nonempty r).
    + destruct (split_slash r) as [|q qs] eqn:Hr.
      * by destruct (split_slash_nonempty r).
      * intros [= <- ->]. destruct (IH q eq_refl) as [-> Hq].
        simpl. by rewrite Hc, Hq.
Qed.

Lemma split_slash_two s p0 p1 :
  split_slash s = [p0; p1] →
  s = p0 +:+ "/" +:+ p1 ∧ no_slash p0 = true ∧ no_slash p1 = true.
Proof.
  revert p0. induction s as [|c r IH]; intros p0; simpl.
  - done.
  - destruct (Ascii.eqb c "/") eqn:Hc.
    + intros [= <- Hr]. apply split_slash_one in Hr as [-> Hp1].
      apply Ascii.eqb_eq in Hc as ->. done.
    + destruct (split_slash r) as [|q qs] eqn:Hr.
      * by destruct (split_slash_nonempty r).
      * intros [= <- ->]. destruct (IH q eq_refl) as (-> & Hq & Hp1).
        simpl. by rewrite Hc, Hq.
Qed.

Lemma split_slash_no_slash p : no_slash p = true → split_slash p = [p].
Proof.
  induction p as [|c p IH]; simpl; [done|].
  intros [Hc Hp]%andb_true_iff. apply negb_true_iff in Hc. rewrite Hc.
  by rewrite (IH Hp).
Qed.

(** X19: [main] takes the country of a batch from its first descriptor
    exactly when the output folder of that descriptor is "_AIPs/"
    followed by a non-empty name without a slash, and the country is that
    name; with any other folder (none, another root, a deeper path, an
    empty name) or with no descriptor it gives up. *)
Theorem aip_from_documents_spec docs c :
  aip_from_documents docs = Some c ↔
  ∃ first rest,
    docs = first :: rest ∧
    di_output_folder first = Some ("_AIPs/" +:+ c) ∧
    c ≠ "" ∧
    no_slash c = true.
Proof.
  split.
  - destruct docs as [|first rest]; simpl; [done|].
    destruct (di_output_folder first) as [folder|] eqn:Hf; simpl; [|done].
    destruct (PyStr.truthy folder) eqn:Ht; [|done].
    destruct (split_slash folder) as [|p0 [|p1 [|p2 ps]]] eqn:Hs; try done.
    destruct (String.eqb p0 "_AIPs") eqn:Hp0; [|done].
    destruct (PyStr.truthy p1) eqn:Hp1; [|done].
    intros [= ->]. apply split_slash_two in Hs as (-> & _ & Hc).
    apply String.eqb_eq in Hp0 as ->.
    exists first, rest. split_and!; try done.
    intros ->. done.
  - intros (first & rest & -> & Hf & Hne & Hc). simpl. rewrite Hf. simpl.
    change ("" +:+ c) with c. rewrite (split_slash_no_slash c Hc).
    destruct c as [|a c']; [done|]. done.
Qed.

End Country.

(* ===================================================================== *)
(** ** What the first two executors write *)
(* ===================================================================== *)

Section Written.

Context `{Ext : External}.


(** The loop over the chunks, as a list comprehension. *)
Lemma split_chunks_eq cs : ∀ i ac af,
  split_chunks i cs ac af =
  ((ac ++ omap (λ ic, if is_figure ic.2 then None else Some (chunk_data ic.1 ic.2))
            (imap (λ k c, ((i + k)%nat, c)) cs))%list,
   (af ++ filter (λ c, is_figure c = true) cs)%list).
Proof.
  induction cs as [|c cs IH]; intros i ac af; simpl.
  - by rewrite !app_nil_r.
  - rewrite filter_cons.
    assert (imap ((λ k c0, ((i + k)%nat, c0)) ∘ S) cs
            = imap (λ k c0, ((S i + k)%nat, c0)) cs) as ->.
    { apply imap_ext. intros k x _. simpl. f_equal. lia. }
    rewrite Nat.add_0_r.
    destruct (is_figure c) eqn:Hf; rewrite IH; simpl; rewrite ?Hf;
      by rewrite <- app_assoc.
Qed.

(** The loop over the figures, as a list comprehension. *)
Lemma figures_list_eq fs : ∀ i acc,
  figures_list i fs acc = (acc ++ imap (λ k, figure_data (i + k)) fs)%list.
Proof.
  induction fs as [|f fs IH]; intros i acc; simpl.
  - by rewrite app_nil_r.
  - rewrite IH, <- app_assoc. simpl. rewrite Nat.add_0_r. do 2 f_equal.
    apply imap_ext. intros k x _. simpl. f_equal. lia.
Qed.

Lemma length_omap_filter (cs : list Chunk) (g : nat → nat) :
  (length (omap (λ ic : nat * Chunk,
                   if is_figure ic.2 then None else Some (chunk_data ic.1 ic.2))
             (imap (λ k c, (g k, c)) cs))
   + length (filter (λ c, is_figure c = true) cs) = length cs)%nat.
Proof.
  revert g. induction cs as [|c cs IH]; intros g; [done|].
  simpl. rewrite filter_cons. specialize (IH (g ∘ S)).
  destruct (is_figure c) eqn:Hf.
  - rewrite decide_True by done. simpl length.
    rewrite Nat.add_succ_r. f_equal. exact IH.
  - rewrite decide_False by done. simpl length.
    rewrite Nat.add_succ_l. f_equal. exact IH.
Qed.

(** X21: the extract artifact splits the units of the first parsed
    document in two: the units whose type contains "figure" (whatever
    the case) are the figures, in order and numbered from 0; the others
    are the chunks, in order, each under its position among all the
    units.  The two totals of the metadata are the lengths of the two
    lists and add up to the number of units: no unit is lost and none is
    in both lists.  Parsed documents after the first are ignored. *)
Theorem extract_partitions_units doc_id doc pdf_path r rest w :
  documents (state w) !! doc_id = Some doc →
  st_status (download (steps doc)) = COMPLETED →
  files doc !! "download" = Some pdf_path →
  fs w !! output_json_path_of doc = None →
  parse (tick w) pdf_path = Parsed (r :: rest) →
  write_outcome (S (S (tick w))) (output_json_path_of doc) = WriteDone →
  ∃ w' a,
    process_with_agentic_doc doc_id w = Ok true w' ∧
    fs w' !! output_json_path_of doc = Some (AgenticFile a) ∧
    ad_chunks (ao_document a)
      = omap (λ ic, if is_figure ic.2 then None else Some (chunk_data ic.1 ic.2))
          (imap (λ k c, (k, c)) (pd_chunks r)) ∧
    ad_figures (ao_document a)
      = imap figure_data (filter (λ c, is_figure c = true) (pd_chunks r)) ∧
    am_total_chunks (ao_metadata a) = length (ad_chunks (ao_document a)) ∧
    am_total_figures (ao_metadata a) = length (ad_figures (ao_document a)) ∧
    (am_total_chunks (ao_metadata a) + am_total_figures (ao_metadata a)
     = length (pd_chunks r))%nat.
Proof.
  intros Hd Hst Hf Hfs Hp Hw.
  eexists _, _. split; [by eapply process_with_agentic_doc_run|].
  split; [simpl; apply lookup_insert_eq|].
  unfold build_agentic_output. rewrite split_chunks_eq. simpl.
  rewrite figures_list_eq. simpl.
  split_and!; try done.
  - by rewrite length_imap.
  - apply (length_omap_filter (pd_chunks r) (λ k, k)).
Qed.

End Written.

(* ===================================================================== *)
(** ** The order of the calls, and a run over artifacts that exist *)
(* ===================================================================== *)

Section Order.

Context `{Ext : External}.

Lemma calls_of_cons results i ids :
  calls_of results (i :: ids) =
  (match results !! i with
   | Some r => (λ n, Invoked n i) <$> stages_of r
   | None => []
   end ++ calls_of results ids)%list.
Proof. reflexivity. Qed.

Lemma calls_of_ext results results' ids :
  (∀ j, j ∈ ids → results' !! j = results !! j) →
  calls_of results' ids = calls_of results ids.
Proof.
  induction ids as [|i ids IH]; intros He; [done|].
  rewrite !calls_of_cons, He, IH; [done| |].
  - intros j Hj. apply He. apply elem_of_cons. by right.
  - apply elem_of_cons. by left.
Qed.





Lemma skip_record_path n m doc w :
  artifact_path m (skip_record n doc w) = artifact_path m doc.
Proof. reflexivity. Qed.



End Order.

(* ===================================================================== *)
(** ** What a resumed run makes of the structuring step *)
(* ===================================================================== *)

Section ResumeOutcome.

Context `{Ext : External}.
Context (doc_id : string) (d : Document).
Context (Hs1 : st_status (download (steps d)) = COMPLETED).
Context (Hs2 : st_status (agentic_process (steps d)) = COMPLETED).

(** A returning round files its entry under the identifier of its item. *)
Lemma round_result acc item w acc1 w1 :
  process_document_from_json acc item w = Ok acc1 w1 →
  ∃ r, acc1 = <[item.1 := r]> acc.
Proof.
  unfold process_document_from_json.
  unfold bind at 1. unfold doc_status at 1, bind at 1, get.
  destruct (documents (state w) !! item.1) as [d0|]; [|done].
  unfold ret at 1.
  destruct (bool_decide (status d0 = COMPLETED)).
  { intros [= <- _]. eauto. }
  unfold bind at 1.
  destruct ((if bool_decide (st_status (download (steps d0)) ≠ COMPLETED)
             then download_pdf item.1 else ret true) w) as [ok a|e a]; [|done].
  destruct ok; cbn [negb]; [|intros [= <- _]; eauto].
  unfold bind at 1. unfold doc_status at 1, bind at 1, get.
  destruct (documents (state a) !! item.1) as [d1|]; [|done].
  unfold ret at 1. unfold bind at 1.
  destruct ((if bool_decide (st_status (agentic_process (steps d1)) ≠ COMPLETED)
             then process_with_agentic_doc item.1 else ret true) a) as [ok b|e b]; [|done].
  destruct ok; cbn [negb]; [|intros [= <- _]; eauto].
  unfold bind at 1. unfold doc_status at 1, bind at 1, get.
  destruct (documents (state b) !! item.1) as [d2|]; [|done].
  unfold ret at 1. unfold bind at 1.
  destruct ((if bool_decide (st_status (transform (steps d2)) ≠ COMPLETED)
             then transform_to_pdf_processed item.1 else ret true) b) as [ok c|e c]; [|done].
  destruct ok; cbn [negb]; intros [= <- _]; eauto.
Qed.

(** A round keeps the files that exist. *)
Lemma round_files_kept acc item w :
  files_kept w (final (process_document_from_json acc item w)).
Proof.
  revert w. pose proof files_kept_preorder as Hpre.
  apply (keeps_process_document_from_json files_kept).
  - intros w. by destruct (download_pdf_effect item.1 w) as (_ & _ & _ & ?).
  - intros w. by destruct (process_with_agentic_doc_effect item.1 w) as (_ & _ & _ & ?).
  - intros w. by destruct (transform_to_pdf_processed_effect item.1 w) as (_ & _ & _ & ?).
Qed.

Lemma linked_path d0 :
  linked d d0 → pdf_processed_path_of d0 = pdf_processed_path_of d.
Proof.
  intros (_ & Hn & Hm). unfold pdf_processed_path_of, output_dirs.
  by rewrite Hn, Hm.
Qed.

Lemma linked_resumable d0 :
  linked d d0 →
  st_status (transform (steps d0)) ≠ COMPLETED →
  status d0 ≠ COMPLETED →
  resumable d0.
Proof.
  intros (Hv & _) H3 Hst. unfold ledger_view in Hv.
  injection Hv as Hv1 Hv2 _ _.
  split_and!; [by rewrite Hv1|by rewrite Hv2|done|done].
Qed.

(** The round of a resumable record, when it returns: the structuring
    executor has run on the record, and either completed the step and
    the document, or recorded the failure. *)
Lemma resume_round acc info w d0 l0 acc1 w1 :
  documents (state w) !! doc_id = Some d0 →
  resumable d0 →
  linked d d0 →
  errors d0 = (errors d ++ l0)%list →
  Forall (fun e => err_step e = "transform") l0 →
  process_document_from_json acc (doc_id, info) w = Ok acc1 w1 →
  ∃ d1, documents (state w1) !! doc_id = Some d1 ∧
        linked d d1 ∧
        structure_outcome d d1 w1 (acc1 !! doc_id).
Proof.
  intros Hd (Hr1 & Hr2 & Hr3 & Hst) Hlink He Hl0.
  unfold process_document_from_json. cbn [fst].
  unfold bind at 1. unfold doc_status at 1, bind at 1, get. rewrite Hd.
  unfold ret at 1.
  rewrite (bool_decide_eq_false_2 (status d0 = COMPLETED)) by done.
  rewrite Hr1. rewrite (bool_decide_eq_false_2 (COMPLETED ≠ COMPLETED)) by (by intros ?).
  unfold bind at 1. unfold ret at 1. change (negb true) with false. cbv iota.
  unfold bind at 1. unfold doc_status at 1, bind at 1, get. rewrite Hd.
  unfold ret at 1. rewrite Hr2.
  rewrite (bool_decide_eq_false_2 (COMPLETED ≠ COMPLETED)) by (by intros ?).
  unfold bind at 1. unfold ret at 1. change (negb true) with false. cbv iota.
  unfold bind at 1. unfold doc_status at 1, bind at 1, get. rewrite Hd.
  unfold ret at 1.
  rewrite (bool_decide_eq_true_2 (st_status (transform (steps d0)) ≠ COMPLETED)) by done.
  unfold bind at 1.
  change (transform_to_pdf_processed doc_id w) with (run_stage Transform doc_id w).
  destruct (files d0 !! "agentic_process") as [path|] eqn:Hf.
  2:{ by rewrite (run_stage_no_input Transform AgenticProcess doc_id d0 w Hd eq_refl Hr2 Hf). }
  destruct (stage_post Transform doc_id w d0 Hd)
    as (b & w' & d' & t & Hrun & Hd' & _ & Hsteps & Hfiles & Hstatus & Hb & _ & _ & _).
  { intros m [= <-]. split; [exact Hr2|]. simpl. rewrite Hf. eauto. }
  pose proof (transform_to_pdf_processed_effect doc_id w) as (_ & _ & Hdoc & _).
  change (transform_to_pdf_processed doc_id w) with (run_stage Transform doc_id w) in Hdoc.
  rewrite Hd, Hrun in Hdoc. simpl in Hdoc.
  destruct Hdoc as (d'' & Hd'' & _ & Hname & Hmeta & _).
  assert (d'' = d') as -> by congruence.
  rewrite Hrun.
  assert (linked d d') as Hlink'.
  { destruct Hlink as (Hv & Hn & Hm). split_and!.
    - rewrite <- Hv. unfold ledger_view. rewrite Hsteps. simpl.
      assert (Download ≠ Transform) as Hn1 by done.
      assert (AgenticProcess ≠ Transform) as Hn2 by done.
      pose proof (Hfiles Download Hn1) as Hf1.
      pose proof (Hfiles AgenticProcess Hn2) as Hf2.
      simpl in Hf1, Hf2. by rewrite Hf1, Hf2.
    - by rewrite Hname.
    - by rewrite Hmeta. }
  assert (status d' = (if b then COMPLETED else FAILED)) as Hstatus'.
  { destruct Hstatus as [->|(_ & -> & ->)]; [|done].
    rewrite Hsteps, all_steps_three. simpl. rewrite Hr1, Hr2.
    destruct b.
    - apply recompute_status_completed. repeat constructor.
    - apply recompute_status_failed. do 2 apply Exists_cons_tl. by apply Exists_cons_hd. }
  destruct b; cbn [negb]; unfold ret; intros [= <- <-]; exists d';
    (split; [exact Hd'|]); (split; [exact Hlink'|]).
  - destruct Hb as (Hfile & Hfs & Herr).
    exists l0. split; [by rewrite Herr|]. split; [done|]. left.
    simpl in Hfile, Hfs. rewrite (linked_path d0 Hlink) in Hfile, Hfs.
    rewrite Hsteps. simpl. rewrite lookup_insert_eq. split_and!; eauto.
  - destruct Hb as (_ & _ & m & t' & Herr).
    exists (l0 ++ [mkErrorEntry "transform" ("Error transformando: " +:+ m) t'])%list.
    split; [by rewrite Herr, He, app_assoc|].
    split; [apply Forall_app; split; [done|by repeat constructor]|]. right.
    rewrite Hsteps. simpl. rewrite lookup_insert_eq. split_and!; eauto.
    by destruct l0.
Qed.

(** Every later round keeps it: a round on another document does not
    touch the record, a round on this one skips a completed document and
    runs the structuring executor again on a failed one. *)
Lemma round_keeps_outcome acc item w acc1 w1 :
  resumed_outcome doc_id d w acc →
  process_document_from_json acc item w = Ok acc1 w1 →
  resumed_outcome doc_id d w1 acc1.
Proof.
  intros (d0 & Hd & Hlink & l & He & Hl & Hcase) Hrun.
  destruct item as [j info]. destruct (decide (j = doc_id)) as [->|Hne].
  - destruct Hcase as [(H3 & Hts & Hst & Hfile & Hfs & b & Hr)|(H3 & Hts & Hst & Hne & Hr)].
    + revert Hrun. unfold process_document_from_json. cbn [fst].
      unfold bind at 1. unfold doc_status at 1, bind at 1, get. rewrite Hd.
      unfold ret at 1. rewrite (bool_decide_eq_true_2 _ Hst).
      unfold ret. intros [= <- <-].
      exists d0. split; [done|]. split; [done|].
      exists l. split; [done|]. split; [done|]. left.
      rewrite lookup_insert_eq. split_and!; eauto.
    + assert (resumable d0) as Hres.
      { apply linked_resumable; [done|by rewrite H3|by rewrite Hst]. }
      exact (resume_round acc info w d0 l acc1 w1 Hd Hres Hlink He Hl Hrun).
  - pose proof (process_document_from_json_untouched doc_id acc (j, info) Hne w) as [Hu _].
    pose proof (round_files_kept acc (j, info) w) as Hk.
    destruct (round_result acc (j, info) w acc1 w1 Hrun) as [r ->].
    rewrite Hrun in Hu, Hk. simpl in Hu, Hk.
    exists d0. split; [rewrite Hu; [done|eauto]|]. split; [done|].
    exists l. split; [done|]. split; [done|].
    rewrite lookup_insert_ne by done.
    destruct Hcase as [(H3 & Hts & Hst & Hfile & [c Hfs] & b & Hr)|Hfail]; [left|by right].
    split_and!; eauto.
Qed.

Lemma fold_keeps_outcome l : ∀ acc w res w',
  resumed_outcome doc_id d w acc →
  fold_m process_document_from_json l acc w = Ok res w' →
  resumed_outcome doc_id d w' res.
Proof.
  induction l as [|item l IH]; intros acc w res w' Hout Hrun; simpl in Hrun.
  { unfold ret in Hrun. by injection Hrun as <- <-. }
  unfold bind in Hrun.
  destruct (process_document_from_json acc item w) as [acc1 w1|e w1] eqn:Hround; [|done].
  eapply IH; [|exact Hrun]. by eapply round_keeps_outcome.
Qed.

(** A loop that returns and has the record among its items ends with the
    outcome of the structuring step. *)
Lemma fold_reaches_outcome l : ∀ acc w res w' info,
  (doc_id, info) ∈ l →
  documents (state w) !! doc_id = Some d →
  resumable d →
  fold_m process_document_from_json l acc w = Ok res w' →
  resumed_outcome doc_id d w' res.
Proof.
  induction l as [|[j info_j] l IH]; intros acc w res w' info Hin Hd Hres Hrun.
  { by apply elem_of_nil in Hin. }
  simpl in Hrun. unfold bind in Hrun.
  destruct (process_document_from_json acc (j, info_j) w) as [acc1 w1|e w1] eqn:Hround;
    [|done].
  destruct (decide (j = doc_id)) as [->|Hne].
  - eapply fold_keeps_outcome; [|exact Hrun].
    destruct (resume_round acc info_j w d [] acc1 w1 Hd Hres) as (d1 & Hd1 & Hl1 & Hout);
      [done|by rewrite app_nil_r|done|done|].
    by exists d1.
  - apply elem_of_cons in Hin as [Heq|Hin]; [congruence|].
    pose proof (process_document_from_json_untouched doc_id acc (j, info_j) Hne w) as [Hu _].
    rewrite Hround in Hu. simpl in Hu.
    eapply (IH acc1 w1 res w' info); try done.
    rewrite Hu; [done|eauto].
Qed.

End ResumeOutcome.

Section ResumeRun.

Context `{Ext : External}.

(** C6: for a stored document whose download and extraction steps are
    completed and whose structuring step is pending (the overall status
    being completed only with three completed steps), a run of
    [process_all_documents_from_json] over any input calls neither the
    download nor the extraction executor on that document, leaves the
    entries of these two steps (status and timestamp) and the paths of
    their artifacts as they were, and writes no file that existed.  When
    the run returns and the input holds an accepted descriptor of the
    document, the structuring executor was called on it, the errors of
    the record are the former ones followed by entries of the
    structuring step only, and either the step is completed with a
    timestamp, the document is completed, the ledger has the path of the
    final artifact, the file is there and the summary says completed, or
    the step is failed with a timestamp, the document is failed, an
    error was recorded and the summary names the step. *)
Theorem resume_runs_structure_only docs_in w doc_id d :
  documents (state w) !! doc_id = Some d →
  st_status (download (steps d)) = COMPLETED →
  st_status (agentic_process (steps d)) = COMPLETED →
  st_status (transform (steps d)) = PENDING →
  (status d = COMPLETED → Forall (fun x => x = COMPLETED) (all_steps (steps d))) →
  ∃ evs d',
    trace (final (process_all_documents_from_json docs_in w)) = (trace w ++ evs)%list ∧
    (Invoked Download doc_id ∉ evs) ∧
    (Invoked AgenticProcess doc_id ∉ evs) ∧
    documents (state (final (process_all_documents_from_json docs_in w))) !! doc_id = Some d' ∧
    download (steps d') = download (steps d) ∧
    agentic_process (steps d') = agentic_process (steps d) ∧
    files d' !! "download" = files d !! "download" ∧
    files d' !! "agentic_process" = files d !! "agentic_process" ∧
    files_kept w (final (process_all_documents_from_json docs_in w)) ∧
    (∀ info u res w',
       info ∈ docs_in →
       truthy_opt (di_source info) = Some u →
       _get_document_id u = doc_id →
       is_Some (truthy_opt (di_name info)) →
       process_all_documents_from_json docs_in w = Ok res w' →
       Invoked Transform doc_id ∈ evs ∧
       ∃ l, errors d' = (errors d ++ l)%list ∧
            Forall (fun e => err_step e = "transform") l ∧
            ((st_status (transform (steps d')) = COMPLETED ∧
              is_Some (st_timestamp (transform (steps d'))) ∧
              status d' = COMPLETED ∧
              files d' !! "transform" = Some (pdf_processed_path_of d) ∧
              is_Some (fs w' !! pdf_processed_path_of d) ∧
              ∃ b, res_documents res !! doc_id = Some (ResCompleted b))
             ∨
             (st_status (transform (steps d')) = FAILED ∧
              is_Some (st_timestamp (transform (steps d'))) ∧
              status d' = FAILED ∧
              l ≠ [] ∧
              res_documents res !! doc_id = Some (ResFailed "transform")))).
Proof.
  intros Hd Hs1 Hs2 Hs3 Hinv.
  assert (resumable d) as Hres.
  { split; [done|]. split; [done|]. split; [by rewrite Hs3|].
    intros Hc. apply Hinv in Hc. rewrite all_steps_three in Hc.
    apply Forall_cons in Hc as [_ Hc]. apply Forall_cons in Hc as [_ Hc].
    apply Forall_cons in Hc as [Hc _]. congruence. }
  destruct (process_all_documents_from_json_resumed doc_id (ledger_view d) docs_in
              Hs1 Hs2 w) as ((d' & Hd' & Hv) & (evs & Hevs & Hq1 & Hq2) & Hfs).
  { by exists d. }
  exists evs, d'. unfold ledger_view in Hv.
  injection Hv as Hv1 Hv2 Hv3 Hv4.
  split_and!; try done.
  intros info u res w' Hin Hu Hid Hn Hrun.
  rewrite Hrun in Hevs, Hd'. simpl in Hevs, Hd'.
  unfold process_all_documents_from_json in Hrun.
  destruct (register_all doc_id docs_in [] w) as (ids & w1 & Hreg & [Hun [k Hk]] & _ & Hall).
  unfold bind at 1 in Hrun. rewrite Hreg in Hrun.
  unfold bind at 1 in Hrun. unfold now at 1 in Hrun.
  unfold bind at 1 in Hrun.
  destruct (fold_m process_document_from_json ids ∅ _) as [rs w2|e w2] eqn:Hfold;
    [|done].
  unfold bind, now, ret in Hrun. injection Hrun as Hres' Hw'.
  specialize (Hall info u Hin Hu Hn). rewrite Hid in Hall.
  assert (documents (state w1) !! doc_id = Some d) as Hd1.
  { rewrite Hun; [exact Hd|eauto]. }
  split.
  - eapply (fold_process_structures doc_id) in Hfold as (evs2 & Hevs2 & Hin2);
      [|exact Hall| |exact Hres].
    2:{ simpl. exact Hd1. }
    simpl in Hevs2.
    assert (trace w' = trace w2) as Htw by (by rewrite <- Hw').
    rewrite Htw, Hevs2, Hk, <- app_assoc in Hevs.
    apply app_inv_head in Hevs. rewrite <- Hevs.
    apply elem_of_app. by right.
  - eapply (fold_reaches_outcome doc_id d Hs1 Hs2) in Hfold
      as (d2 & Hd2 & _ & l & He & Hl & Hcase);
      [|exact Hall|exact Hd1|exact Hres].
    assert (documents (state w') !! doc_id = Some d2) as Hd2'.
    { by rewrite <- Hw'. }
    assert (d2 = d') as -> by congruence.
    assert (fs w' = fs w2) as Hfs' by (by rewrite <- Hw').
    assert (res_documents res = rs) as Hrs by (by rewrite <- Hres').
    exists l. rewrite Hfs', Hrs. done.
Qed.

End ResumeRun.

(** On the examples: the document is downloaded and extracted; the run
    over its descriptor calls the structuring executor only, leaves the
    entries of the first two steps as they were, completes the
    structuring step and the document, and writes the final artifact. *)
Lemma resume_runs_structure_only_witness :
  ∃ evs d' res w',
    process_all_documents_from_json (Ext := demo_external) [demo_info]
      (extracted_world (Ext := demo_external)) = Ok res w' ∧
    trace w' = (trace (extracted_world (Ext := demo_external)) ++ evs)%list ∧
    (Invoked Download "http://aip/a" ∉ evs) ∧
    (Invoked AgenticProcess "http://aip/a" ∉ evs) ∧
    Invoked Transform "http://aip/a" ∈ evs ∧
    documents (state w') !! "http://aip/a" = Some d' ∧
    download (steps d') = mkStepEntry COMPLETED (Some 5) ∧
    agentic_process (steps d') = mkStepEntry COMPLETED (Some 10) ∧
    st_status (transform (steps d')) = COMPLETED ∧
    status d' = COMPLETED ∧
    errors d' = [] ∧
    files d' !! "transform" = Some "work/_AIPs/argentina/pdf_processed/AD2.json" ∧
    is_Some (fs w' !! "work/_AIPs/argentina/pdf_processed/AD2.json") ∧
    res_documents res !! "http://aip/a" = Some (ResCompleted false).
Proof.
  destruct (process_all_documents_from_json (Ext := demo_external) [demo_info]
              (extracted_world (Ext := demo_external))) as [res w'|e w'] eqn:Hrun;
    [|exfalso; revert Hrun; vm_compute; discriminate].
  assert (Hfinal : final (process_all_documents_from_json (Ext := demo_external) [demo_info]
                            (extracted_world (Ext := demo_external))) = w').
  { by rewrite Hrun. }
  edestruct (resume_runs_structure_only (Ext := demo_external) [demo_info]
               (extracted_world (Ext := demo_external)) "http://aip/a"
               (mkDocument "http://aip/ad2.pdf" "AD2.pdf"
                  (mkMetadata (Some "AIP") (Some "public") (Some ["english"; "spanish"])
                     (Some "argentina") (Some "unknown") (Some "GEN")
                     (Some "_AIPs/argentina"))
                  PENDING 1
                  (mkSteps (mkStepEntry COMPLETED (Some 5)) (mkStepEntry COMPLETED (Some 10))
                     (mkStepEntry PENDING None))
                  {["agentic_process" := "work/_AIPs/argentina/agentic_outputs/AD2.json";
                    "download" := "work/_AIPs/argentina/pdfs/AD2.pdf"]} []))
    as (evs & d' & Ht & Hq1 & Hq2 & Hd' & Hs1 & Hs2 & _ & _ & _ & Hinv).
  - vm_compute. reflexivity.
  - reflexivity.
  - reflexivity.
  - reflexivity.
  - intros [=].
  - rewrite Hfinal in Ht, Hd'.
    destruct (Hinv demo_info "http://aip/ad2.pdf" res w') as (Htr & l & He & Hl & Hcase).
    + apply elem_of_cons. by left.
    + reflexivity.
    + reflexivity.
    + by eexists.
    + exact Hrun.
    + assert (Hentry : res_documents res !! "http://aip/a" = Some (ResCompleted false)).
      { revert Hrun. vm_compute. intros [= <- _]. reflexivity. }
      destruct Hcase as [(H3 & _ & Hst & Hfile & Hfs & _)|(_ & _ & _ & _ & Hr)];
        [|rewrite Hentry in Hr; discriminate].
      assert (Herr : errors d' = []).
      { revert Hd' Hrun. vm_compute. intros Hd' [= _ <-]. revert Hd'.
        vm_compute. intros [= <-]. reflexivity. }
      exists evs, d', res, w'.
      split; [reflexivity|]. split; [exact Ht|]. split; [exact Hq1|].
      split; [exact Hq2|]. split; [exact Htr|]. split; [exact Hd'|].
      split; [exact Hs1|]. split; [exact Hs2|]. split; [exact H3|].
      split; [exact Hst|]. split; [exact Herr|].
      split; [exact Hfile|]. split; [exact Hfs|exact Hentry].
Defined.

(* ===================================================================== *)
(** ** The theorems above on the worlds of the examples *)
(* ===================================================================== *)

(** The extraction executor on the downloaded document of the examples. *)
Lemma executor_outcome_witness :
  ∃ d',
    documents (state (extracted_world (Ext := demo_external))) !! "http://aip/a" = Some d' ∧
    st_status (agentic_process (steps d')) = COMPLETED ∧
    files d' !! "agentic_process" = Some "work/_AIPs/argentina/agentic_outputs/AD2.json".
Proof.
  destruct (executor_outcome (Ext := demo_external) AgenticProcess "http://aip/a"
              (downloaded_world (Ext := demo_external))
              (record_of (downloaded_world (Ext := demo_external)) "http://aip/a")
              true (extracted_world (Ext := demo_external)))
    as (d' & Hd' & _ & Hst & Hf & _).
  - vm_compute. reflexivity.
  - intros m [= <-]. split; vm_compute; eauto.
  - vm_compute. reflexivity.
  - exists d'. split; [exact Hd'|]. split; [exact Hst|].
    etransitivity; [exact Hf|]. vm_compute. reflexivity.
Defined.

(** The extraction executor on a document that nobody registered. *)
Lemma executor_refuses_witness :
  run_stage (Ext := demo_external) AgenticProcess "nobody" fresh_world
  = Ok false (with_event (Invoked AgenticProcess "nobody") fresh_world).
Proof.
  apply (executor_refuses (Ext := demo_external)). left. vm_compute. reflexivity.
Defined.

(** The extraction executor on the record whose download was recorded
    completed by hand. *)
Lemma missing_path_raises_witness :
  run_stage (Ext := demo_external) AgenticProcess "http://aip/a" pathless_world
  = Raise (KeyError "download")
      (with_event (Invoked AgenticProcess "http://aip/a") pathless_world).
Proof.
  apply (missing_path_raises (Ext := demo_external) AgenticProcess Download "http://aip/a"
           (record_of pathless_world "http://aip/a")).
  - vm_compute. reflexivity.
  - reflexivity.
  - vm_compute. reflexivity.
  - vm_compute. reflexivity.
Defined.

(** The batch of the examples on that record. *)
Lemma missing_path_aborts_batch_witness :
  ∃ w',
    process_all_documents_from_json (Ext := demo_external) [demo_info] pathless_world
    = Raise (KeyError "download") w'.
Proof.
  destruct (missing_path_aborts_batch (Ext := demo_external) demo_info [] "http://aip/a"
              (record_of pathless_world "http://aip/a") pathless_world)
    as (w' & Hrun & _).
  - vm_compute. reflexivity.
  - vm_compute. reflexivity.
  - vm_compute. discriminate.
  - vm_compute. reflexivity.
  - vm_compute. discriminate.
  - vm_compute. reflexivity.
  - exists w'. exact Hrun.
Defined.


(** A first run over one locator. *)
Lemma process_all_documents_summary_witness :
  ∃ res w',
    process_all_documents (Ext := demo_external) ["http://aip/ad2.pdf"] fresh_world
    = Ok res w' ∧
    total_documents res = 1 ∧
    summary_agrees (res_documents res) w'.
Proof.
  assert (∃ res w',
            process_all_documents (Ext := demo_external) ["http://aip/ad2.pdf"] fresh_world
            = Ok res w') as (res & w' & Hrun).
  { eexists _, _. vm_compute. reflexivity. }
  destruct (process_all_documents_summary (Ext := demo_external)
              ["http://aip/ad2.pdf"] fresh_world res w' Hrun) as (Htot & _ & Hag).
  exists res, w'. split; [exact Hrun|]. split; [exact Htot|exact Hag].
Defined.

(** A first run over the descriptor of the examples. *)
Lemma process_all_documents_from_json_summary_witness :
  ∃ res w',
    process_all_documents_from_json (Ext := demo_external) [demo_info] fresh_world
    = Ok res w' ∧
    total_documents res = 1 ∧
    summary_agrees (res_documents res) w'.
Proof.
  assert (∃ res w',
            process_all_documents_from_json (Ext := demo_external) [demo_info] fresh_world
            = Ok res w') as (res & w' & Hrun).
  { eexists _, _. vm_compute. reflexivity. }
  destruct (process_all_documents_from_json_summary (Ext := demo_external)
              [demo_info] fresh_world res w') as (Htot & _ & Hag).
  - intros i d Hd. vm_compute in Hd. discriminate.
  - exact Hrun.
  - exists res, w'. split; [exact Hrun|]. split; [|exact Hag].
    rewrite Htot. vm_compute. reflexivity.
Defined.

(** The ledger after a first run over one locator, run again. *)
Lemma sound_ledger_preserved_witness :
  sound_ledger
    (final (process_all_documents_from_json (Ext := demo_external) [demo_info]
              fresh_world)).
Proof.
  destruct (sound_ledger_preserved (Ext := demo_external) fresh_world) as (_ & _ & H & _).
  - intros i d Hd. vm_compute in Hd. discriminate.
  - apply H.
Defined.

(** The same locator given twice. *)
Lemma summary_counts_bound_witness :
  ∃ res w',
    process_all_documents (Ext := demo_external)
      ["http://aip/ad2.pdf"; "http://aip/ad2.pdf"] fresh_world = Ok res w' ∧
    summary_counts res = (1, 0) ∧
    total_documents res = 2.
Proof.
  eexists _, _. split; [vm_compute; reflexivity|].
  split; [vm_compute; reflexivity|].
  eapply (summary_counts_bound (Ext := demo_external)
            ["http://aip/ad2.pdf"; "http://aip/ad2.pdf"] fresh_world).
  vm_compute. reflexivity.
Defined.

(** The files of the examples after a first run. *)
Lemma final_files_complete_witness :
  ∃ m,
    get_final_files (first_run_world (Ext := demo_external))
    = Ok m (first_run_world (Ext := demo_external)) ∧
    is_Some (m !! "http://aip/a").
Proof.
  destruct (final_files_complete (first_run_world (Ext := demo_external)))
    as (m & Hrun & Hlist & _).
  - intros i d Hd. unfold first_run_world in Hd.
    destruct (decide (i = "http://aip/a")) as [->|Hne].
    + vm_compute in Hd. injection Hd as <-.
      split_and!.
      * unfold three_valued. vm_compute. repeat constructor; set_solver.
      * vm_compute. reflexivity.
      * intros n _. destruct n; vm_compute; eauto.
    + exfalso. revert Hd. 
      assert (documents (state (final (process_all_documents (Ext := demo_external)
                 ["http://aip/ad2.pdf"] fresh_world)))
              = {["http://aip/a" := record_of (first_run_world (Ext := demo_external))
                                      "http://aip/a"]}) as ->.
      { vm_compute. reflexivity. }
      rewrite lookup_singleton_ne by (intros Heq; by apply Hne). discriminate.
  - exists m. split; [exact Hrun|]. apply Hlist.
    exists (record_of (first_run_world (Ext := demo_external)) "http://aip/a").
    split; vm_compute; reflexivity.
Defined.

(** The summary and the final files of a first run over the descriptor
    of the examples. *)
Lemma summary_matches_final_files_witness :
  ∃ res w' m ff,
    process_all_documents_from_json (Ext := demo_external) [demo_info] fresh_world
    = Ok res w' ∧
    get_final_files w' = Ok m w' ∧
    res_documents res !! "http://aip/a" = Some (ResCompleted false) ∧
    m !! "http://aip/a" = Some ff ∧
    is_Some (ff_pdf_processed_json ff).
Proof.
  assert (∃ res w' m,
            process_all_documents_from_json (Ext := demo_external) [demo_info] fresh_world
            = Ok res w' ∧
            get_final_files w' = Ok m w' ∧
            res_documents res !! "http://aip/a" = Some (ResCompleted false))
    as (res & w' & m & Hrun & Hm & Hr).
  { eexists _, _, _. split; [vm_compute; reflexivity|].
    split; [reflexivity|]. vm_compute. reflexivity. }
  assert (sound_ledger fresh_world) as Hs.
  { intros i d Hd. vm_compute in Hd. discriminate. }
  destruct (summary_matches_final_files (Ext := demo_external)
              [demo_info] fresh_world res w' m Hs Hrun Hm
              "http://aip/a" (ResCompleted false) Hr)
    as (ff & Hff & _ & _ & Hp).
  exists res, w', m, ff. split_and!; [exact Hrun|exact Hm|exact Hr|exact Hff|exact Hp].
Defined.

(** A manager started after the registration of the examples. *)
Lemma restart_finds_ledger_witness :
  restart registered_world = Ok tt registered_world.
Proof.
  destruct (restart_finds_ledger (Ext := demo_external) fresh_world) as (_ & H & _).
  destruct (H (ByDescriptor demo_info)) as [Hr|[Hs _]].
  - exact Hr.
  - vm_compute in Hs. discriminate.
Defined.

(** The record of the examples through a download. *)
Lemma records_keep_identity_witness :
  identity_kept registered_world (downloaded_world (Ext := demo_external)) ∧
  artifact_path (Ext := demo_external) Transform
    (record_of (downloaded_world (Ext := demo_external)) "http://aip/a")
  = artifact_path (Ext := demo_external) Transform
      (record_of registered_world "http://aip/a").
Proof.
  destruct (records_keep_identity (Ext := demo_external) registered_world)
    as (H & _ & _ & _ & _ & Hp).
  split.
  - apply (H Download "http://aip/a").
  - apply (Hp (downloaded_world (Ext := demo_external)) "http://aip/a").
    + apply (H Download "http://aip/a").
    + vm_compute. reflexivity.
    + vm_compute. reflexivity.
Defined.

(** The PDF of the examples through a second run. *)
Lemma artifacts_never_overwritten_witness :
  fs (final (process_all_documents_from_json (Ext := demo_external) [demo_info]
               (downloaded_world (Ext := demo_external))))
    !! "work/_AIPs/argentina/pdfs/AD2.pdf" = Some (PdfBytes "%PDF-1.4").
Proof.
  destruct (artifacts_never_overwritten (Ext := demo_external)
              (downloaded_world (Ext := demo_external))) as (_ & _ & _ & _ & H).
  apply (H [demo_info]). vm_compute. reflexivity.
Defined.


(** A locator whose last segment has no suffix. *)
Lemma stored_name_ends_in_pdf_witness :
  ∃ d,
    documents (state (final (register (Ext := demo_external)
                               (ByLocator "http://aip/chart" None None) fresh_world)))
      !! "http://aip/c" = Some d ∧
    PyStr.endswith (PyStr.lower (original_filename d)) ".pdf" = true.
Proof.
  apply (stored_name_ends_in_pdf (Ext := demo_external)
           (ByLocator "http://aip/chart" None None) fresh_world).
  - intros [].
  - vm_compute. reflexivity.
  - vm_compute. reflexivity.
Defined.


(** The structuring executor on the extracted document of the examples. *)
Lemma fresh_transform_marks_completed_witness :
  ∃ d',
    documents (state (final (transform_to_pdf_processed (Ext := demo_external)
                               "http://aip/a" (extracted_world (Ext := demo_external)))))
      !! "http://aip/a" = Some d' ∧
    status d' = COMPLETED.
Proof.
  destruct (fresh_transform_marks_completed (Ext := demo_external) "http://aip/a"
              (record_of (extracted_world (Ext := demo_external)) "http://aip/a")
              (extracted_world (Ext := demo_external))
              (final (transform_to_pdf_processed (Ext := demo_external)
                        "http://aip/a" (extracted_world (Ext := demo_external)))))
    as (d' & Hd & Hst & _).
  - vm_compute. reflexivity.
  - vm_compute. reflexivity.
  - vm_compute. reflexivity.
  - exists d'. split; [exact Hd|exact Hst].
Defined.

(** The descriptor of the examples gives its country. *)
Lemma aip_from_documents_spec_witness :
  aip_from_documents [demo_info] = Some "argentina".
Proof.
  apply (aip_from_documents_spec [demo_info] "argentina").
  exists demo_info, []. split_and!; [reflexivity|reflexivity|discriminate|reflexivity].
Defined.


(** The extraction of the examples: two chunks, two figures, four units. *)
Lemma extract_partitions_units_witness :
  ∃ w' a,
    process_with_agentic_doc (Ext := demo_external) "http://aip/a"
      (downloaded_world (Ext := demo_external)) = Ok true w' ∧
    fs w' !! "work/_AIPs/argentina/agentic_outputs/AD2.json" = Some (AgenticFile a) ∧
    cd_id <$> ad_chunks (ao_document a) = ["chunk_0"; "chunk_3"] ∧
    fd_id <$> ad_figures (ao_document a) = ["figure_0"; "figure_1"] ∧
    am_total_chunks (ao_metadata a) = 2 ∧
    am_total_figures (ao_metadata a) = 2.
Proof.
  destruct (extract_partitions_units (Ext := demo_external) "http://aip/a"
              (record_of (downloaded_world (Ext := demo_external)) "http://aip/a")
              "work/_AIPs/argentina/pdfs/AD2.pdf"
              (mkParsedDocument (Some "# AD 2") demo_chunks) []
              (downloaded_world (Ext := demo_external)))
    as (w' & a & Hrun & Hfs & Hc & Hf & Htc & Htf & _);
    try (vm_compute; reflexivity).
  exists w', a. split; [exact Hrun|]. split; [exact Hfs|].
  rewrite Htc, Htf, Hc, Hf. split_and!; vm_compute; reflexivity.
Defined.



